(** * Posting-schedule allocation and content-performance optimisation

    A shallow embedding of [backend/app/services/scheduler.py]
    ([ContentScheduler]) and [backend/app/services/optimization.py]
    ([ContentOptimizationEngine]), and the properties of the schedule
    allocator, the schedule validator, the performance predictor and the
    pattern analyser that the design document states about them.

    Conventions of the embedding.
    - An aware [datetime] is its UTC instant, in microseconds since
      1970-01-01T00:00:00Z, together with the UTC offset of its [tzinfo];
      comparison and subtraction of aware datetimes go through the instant,
      the calendar fields ([date()], [weekday()], [hour]) through the wall
      clock [instant + utcoffset]. Naive datetimes are not represented.
    - A pytz time zone is its table of UTC transition instants.
    - [random.randint] reads an injected source of integers; a counter of
      the draws made so far is threaded through the scheduler's functions.
    - A Python exception is a [Raised e] result. Looking up an attribute
      that an object does not have is an [AttributeError].
    - A Python [float] and a numpy [float64] are binary64 values
      ([PrimFloat]).
    - The range of the class [datetime] (years 1 to 9999) is checked where
      a function adds a [timedelta] to a datetime it is given
      ([add_timedelta]); the conversions between time zones are taken away
      from the two ends of that range, where they overflow. *)

From stdpp Require Import gmap strings.
From Stdlib Require Import Ascii String.
From Stdlib Require Import ZArith List Bool Lia Floats.
Import ListNotations.
Open Scope Z_scope.
Set Warnings "-inexact-float".

(** ** Exceptions and results *)

Inductive exception : Type :=
| ValueError
| KeyError
| IndexError
| TypeError
| AttributeError
| ZeroDivisionError
| OverflowError
| NotFittedError.

Inductive result (A : Type) : Type :=
| Returned (a : A)
| Raised (e : exception).
Arguments Returned {A} a.
Arguments Raised {A} e.

(** ** Stable sort by an integer key: Python's [sorted] / [list.sort] *)

Section SortedBy.
Context {A : Type} (key : A -> Z).

Fixpoint insert_by (x : A) (l : list A) : list A :=
  match l with
  | [] => [x]
  | y :: l' => if key x <=? key y then x :: y :: l' else y :: insert_by x l'
  end.

(** Elements are inserted from the right, each in front of the elements
    that compare equal to it, so equal keys keep their input order. *)
Definition sorted_by (l : list A) : list A := fold_right insert_by [] l.

Fixpoint ascending (l : list A) : Prop :=
  match l with
  | [] => True
  | x :: l' => Forall (fun y => key x <= key y) l' /\ ascending l'
  end.

End SortedBy.

(** ** Aware datetimes *)

Module Time.

Definition SECOND : Z := 1000000.
Definition MINUTE : Z := 60 * SECOND.
Definition HOUR : Z := 60 * MINUTE.
Definition DAY : Z := 24 * HOUR.
Definition WEEK : Z := 7 * DAY.

Record datetime : Type := mk_datetime {
  instant : Z;     (* microseconds since the epoch, UTC *)
  utcoffset : Z    (* offset of the attached tzinfo, microseconds *)
}.

Definition wall (d : datetime) : Z := instant d + utcoffset d.

(** [d.date()], as the number of days since 1970-01-01. *)
Definition date (d : datetime) : Z := wall d / DAY.

(** [d.weekday()]: Monday is 0; 1970-01-01 was a Thursday. *)
Definition weekday (d : datetime) : Z := (date d + 3) mod 7.

(** [d.hour]. *)
Definition hour (d : datetime) : Z := (wall d mod DAY) / HOUR.

(** [d.replace(hour=h, minute=m, second=0, microsecond=0)]: the date and the
    tzinfo are kept as they are; a field out of range is a [ValueError]. *)
Definition replace_time (d : datetime) (h m : Z) : result datetime :=
  if (0 <=? h) && (h <=? 23) && (0 <=? m) && (m <=? 59)
  then Returned {| instant := date d * DAY + h * HOUR + m * MINUTE - utcoffset d;
                   utcoffset := utcoffset d |}
  else Raised ValueError.

(** [d + timedelta(microseconds=delta)]. *)
Definition plus (d : datetime) (delta : Z) : datetime :=
  {| instant := instant d + delta; utcoffset := utcoffset d |}.

(** Days from 1970-01-01 to the proleptic Gregorian date [y]-[m]-[d]. *)
Definition days_from_civil (y m d : Z) : Z :=
  let y' := if m <=? 2 then y - 1 else y in
  let era := y' / 400 in
  let yoe := y' - era * 400 in
  let mp := (m + 9) mod 12 in
  let doy := (153 * mp + 2) / 5 + d - 1 in
  let doe := yoe * 365 + yoe / 4 - yoe / 100 + doy in
  era * 146097 + doe - 719468.

(** [datetime(y, m, d, hh, mm, tzinfo=timezone.utc)]. *)
Definition utc (y m d hh mm : Z) : datetime :=
  {| instant := days_from_civil y m d * DAY + hh * HOUR + mm * MINUTE;
     utcoffset := 0 |}.

(** A pytz [DstTzInfo]: the offset in force before the first listed
    transition, and the transitions (UTC instant, offset from then on) in
    ascending order. *)
Record DstTzInfo : Type := mk_tz {
  first_offset : Z;
  transitions : list (Z * Z)
}.

(** The offset pytz's [fromutc] selects: that of the last transition at or
    before the instant ([bisect_right - 1]). *)
Definition utcoffset_at (tz : DstTzInfo) (u : Z) : Z :=
  fold_left (fun acc tr => if fst tr <=? u then snd tr else acc)
            (transitions tz) (first_offset tz).

(** [d.astimezone(tz)] for a pytz zone. *)
Definition astimezone (tz : DstTzInfo) (d : datetime) : datetime :=
  {| instant := instant d; utcoffset := utcoffset_at tz (instant d) |}.

(** [datetime.timezone.utc] as a zone: offset 0, no transition. *)
Definition UTC : DstTzInfo := {| first_offset := 0; transitions := [] |}.

(** The attributes of a pytz zone object: those of pytz's [BaseTzInfo] and
    [DstTzInfo] and the methods of [datetime.tzinfo]. The attribute [utc]
    is one of the class [datetime.timezone], from which the classes of pytz
    do not derive. *)
Definition DstTzInfo_attributes : list string :=
  [ "zone"; "_utcoffset"; "_tzname"; "_dst"; "_utc_transition_times";
    "_transition_info"; "_tzinfos"; "fromutc"; "normalize"; "localize";
    "utcoffset"; "dst"; "tzname" ]%string.

(** [tz.utc] on a pytz zone [tz]. *)
Definition getattr_utc (tz : DstTzInfo) : result DstTzInfo :=
  if existsb (String.eqb "utc") DstTzInfo_attributes
  then Returned UTC
  else Raised AttributeError.

(** Excerpts of the tz database, 2023 to 2025. *)
Definition America_New_York : DstTzInfo :=
  {| first_offset := -4 * HOUR;
     transitions :=
       [ (instant (utc 2023 11 5 6 0), -5 * HOUR);
         (instant (utc 2024 3 10 7 0), -4 * HOUR);
         (instant (utc 2024 11 3 6 0), -5 * HOUR);
         (instant (utc 2025 3 9 7 0), -4 * HOUR);
         (instant (utc 2025 11 2 6 0), -5 * HOUR) ] |}.

Definition Europe_London : DstTzInfo :=
  {| first_offset := 1 * HOUR;
     transitions :=
       [ (instant (utc 2023 10 29 1 0), 0);
         (instant (utc 2024 3 31 1 0), 1 * HOUR);
         (instant (utc 2024 10 27 1 0), 0);
         (instant (utc 2025 3 30 1 0), 1 * HOUR);
         (instant (utc 2025 10 26 1 0), 0) ] |}.

End Time.
Import Time.

(** ** The scheduler's monad: a draw counter and exceptions *)

Definition M (A : Type) : Type := nat -> result A * nat.

Definition ret {A : Type} (a : A) : M A := fun n => (Returned a, n).

Definition bind {A B : Type} (m : M A) (k : A -> M B) : M B :=
  fun n => match m n with
           | (Returned a, n') => k a n'
           | (Raised e, n') => (Raised e, n')
           end.

Definition lift {A : Type} (r : result A) : M A := fun n => (r, n).

Notation "x <- m ;; k" := (bind m (fun x => k))
  (at level 100, m at next level, right associativity).

(** ** scheduler.py: [ContentScheduler] *)

Inductive RegionEnum : Type := US | UK.

Inductive time_key : Type := weekday_key | weekend_key.

(** [self.optimal_posting_times] (scheduler.py:28-37). *)
Definition optimal_posting_times (region : RegionEnum) (k : time_key) : list Z :=
  match region, k with
  | US, weekday_key => [9; 12; 15; 18; 21]
  | US, weekend_key => [10; 13; 16; 19; 20]
  | UK, weekday_key => [8; 12; 17; 19; 21]
  | UK, weekend_key => [9; 12; 15; 18; 20]
  end.

(** [self.posting_limits] (scheduler.py:40-44). *)
Definition min_interval_hours : Z := 2.
Definition max_daily_posts : Z := 6.
Definition max_weekly_posts : Z := 30.

(** [x or y] on an optional list: [None] and the empty list are both falsy. *)
Definition py_or (x : option (list Z)) (y : list Z) : list Z :=
  match x with
  | Some (h :: t) => h :: t
  | Some [] | None => y
  end.

(** [max(l)] on a non-empty list of datetimes: the first greatest element. *)
Definition py_max (d : datetime) (l : list datetime) : datetime :=
  fold_left (fun best x => if instant best <? instant x then x else best) l d.

(** [min(l, key=k)] on a non-empty list: the first element of least key. *)
Definition py_min_by (k : datetime -> Z) (d : datetime) (l : list datetime) : datetime :=
  fold_left (fun best x => if k x <? k best then x else best) l d.

(** The time zones the scheduler is built with (scheduler.py:22-25):
    [pytz.timezone(settings.TIMEZONE_US)] is America/New_York and
    [pytz.timezone(settings.TIMEZONE_UK)] is Europe/London (config.py). *)
Definition tzdata (region : RegionEnum) : DstTzInfo :=
  match region with
  | US => America_New_York
  | UK => Europe_London
  end.

Section Scheduler.

(** The contents of the time-zone database, and the integers behind
    [random.randint], are inputs of the scheduler. *)
Variable regional_timezones : RegionEnum -> DstTzInfo.
Variable entropy : nat -> Z.

(** [random.randint(a, b)]: some integer of [a..b], and one more draw made. *)
Definition randint (a b : Z) : M Z :=
  fun n => (Returned (a + entropy n mod (b - a + 1)), S n).

(** The loop of scheduler.py:65-76. [timezone] is the local variable that
    line 54 binds to the region's pytz zone, for the whole body of the
    function: at line 75, [timezone.utc] is an attribute of that zone, and
    not the [utc] of the class [timezone] imported at line 2. *)
Fixpoint optimal_times_loop (timezone : DstTzInfo) (local_date : datetime)
    (optimal_hours : list Z) : M (list datetime) :=
  match optimal_hours with
  | [] => ret []
  | hour :: rest =>
      minute <- randint 0 59 ;;
      optimal_time <- lift (replace_time local_date hour minute) ;;
      timezone_utc <- lift (getattr_utc timezone) ;;
      let utc_time := astimezone timezone_utc optimal_time in
      optimal_times <- optimal_times_loop timezone local_date rest ;;
      ret (utc_time :: optimal_times)
  end.

(** scheduler.py:46-78. *)
Definition get_optimal_posting_times (region : RegionEnum) (target_date : datetime)
    (page_preferences : option (list Z)) : M (list datetime) :=
  let timezone := regional_timezones region in
  let local_date := astimezone timezone target_date in
  let is_weekend := 5 <=? weekday local_date in
  let key := if is_weekend then weekend_key else weekday_key in
  let optimal_hours := py_or page_preferences (optimal_posting_times region key) in
  optimal_times <- optimal_times_loop timezone local_date optimal_hours ;;
  ret (sorted_by instant optimal_times).

(** scheduler.py:121-135. *)
Definition _is_slot_available (proposed_time : datetime) (existing_posts : list datetime)
    (min_gap_hours : Z) : bool :=
  let min_gap := min_gap_hours * HOUR in
  forallb (fun existing_time =>
             negb (Z.abs (instant proposed_time - instant existing_time) <? min_gap))
          existing_posts.

(** scheduler.py:137-161. The key of [min] is the absolute difference in
    seconds as a float; the candidates lie on the local day of [base_time],
    where that float orders the differences as the integers do. *)
Definition _adjust_to_optimal_time (base_time : datetime) (region : RegionEnum)
    (page_preferences : option (list Z)) : M datetime :=
  optimal_times <- get_optimal_posting_times region base_time page_preferences ;;
  match optimal_times with
  | [] => ret base_time
  | t :: rest =>
      ret (py_min_by (fun t => Z.abs (instant t - instant base_time)) t rest)
  end.

(** The inner loop of scheduler.py:103-110: [None] when it runs to its end. *)
Fixpoint first_free_slot (now_utc : datetime) (existing_posts : list datetime)
    (optimal_times : list datetime) : option datetime :=
  match optimal_times with
  | [] => None
  | optimal_time :: rest =>
      if instant optimal_time <=? instant now_utc
      then first_free_slot now_utc existing_posts rest
      else if _is_slot_available optimal_time existing_posts 2
      then Some optimal_time
      else first_free_slot now_utc existing_posts rest
  end.

(** The outer loop of scheduler.py:93-110 over the remaining [days_ahead]. *)
Fixpoint search_horizon (now_utc : datetime) (region : RegionEnum)
    (existing_posts : list datetime) (page_preferences : option (list Z))
    (days : list Z) : M (option datetime) :=
  match days with
  | [] => ret None
  | days_ahead :: rest =>
      let target_date := plus now_utc (days_ahead * DAY) in
      optimal_times <- get_optimal_posting_times region target_date page_preferences ;;
      match first_free_slot now_utc existing_posts optimal_times with
      | Some slot => ret (Some slot)
      | None => search_horizon now_utc region existing_posts page_preferences rest
      end
  end.

(** The fallback of scheduler.py:112-119. *)
Definition fallback_slot (now_utc : datetime) (region : RegionEnum)
    (existing_posts : list datetime) (preferred_frequency_hours : Z)
    (page_preferences : option (list Z)) : M datetime :=
  let next_slot :=
    match existing_posts with
    | e :: rest => plus (py_max e rest) (preferred_frequency_hours * HOUR)
    | [] => plus now_utc (1 * HOUR)
    end in
  _adjust_to_optimal_time next_slot region page_preferences.

(** scheduler.py:80-119; [now] is the reading of the clock at line 89. *)
Definition calculate_next_posting_slot (now : Z) (region : RegionEnum)
    (existing_posts : list datetime) (preferred_frequency_hours : Z)
    (page_preferences : option (list Z)) : M datetime :=
  let now_utc := {| instant := now; utcoffset := 0 |} in
  found <- search_horizon now_utc region existing_posts page_preferences
             [0; 1; 2; 3; 4; 5; 6] ;;
  match found with
  | Some slot => ret slot
  | None => fallback_slot now_utc region existing_posts preferred_frequency_hours
              page_preferences
  end.

End Scheduler.

(** ** [validate_posting_schedule] (scheduler.py:229-304) *)

(** The strings the validator appends, by their f-string template and the
    values formatted into it. *)
Inductive message : Type :=
| PastTimes (n : nat)
    (* "{n} scheduled times are in the past" *)
| DailyLimitExceeded (n : nat) (max_daily : Z)
    (* "{n} days exceed daily posting limit of {max_daily}" *)
| TooCloseTogether (earlier later : datetime)
    (* "Posts scheduled too close together: {earlier} and {later}" *)
| WeeklyLimit (max_weekly : Z)
    (* "Weekly limit of {max_weekly} posts may be exceeded" *)
| OutsideOptimalTimes (n : nat).
    (* "{n} posts scheduled outside optimal times" *)

Record ValidationResults : Type := mk_results {
  is_valid : bool;
  warnings : list message;
  errors : list message;
  suggested_adjustments : list message
}.

(** The validator runs against the caller's list object
    [proposed_schedule]; [V A] is a computation that may read and write
    that object. The source reaches it through two operations only. *)
Definition V (A : Type) : Type := list datetime -> A * list datetime.

Definition V_ret {A : Type} (a : A) : V A := fun s => (a, s).

Definition V_bind {A B : Type} (m : V A) (k : A -> V B) : V B :=
  fun s => let (a, s') := m s in k a s'.

Notation "x <~ m ;; k" := (V_bind m (fun x => k))
  (at level 100, m at next level, right associativity).

(** Iterating over the list ([for t in proposed_schedule], a list
    comprehension): the elements in order, the object as it was. *)
Definition iterate : V (list datetime) := fun s => (s, s).

(** [sorted(proposed_schedule)]: a new list; the object as it was. *)
Definition sorted_copy : V (list datetime) := fun s => (sorted_by instant s, s).

(** scheduler.py:253-256: [daily_counts[date_key] = daily_counts.get(date_key, 0) + 1]. *)
Definition count_day (daily_counts : gmap Z Z) (scheduled_time : datetime) : gmap Z Z :=
  let date_key := date scheduled_time in
  <[date_key := default 0 (daily_counts !! date_key) + 1]> daily_counts.

(** scheduler.py:270-274, over the sorted copy. *)
Fixpoint interval_warnings (min_interval : Z) (sorted_times : list datetime) : list message :=
  match sorted_times with
  | a :: ((b :: _) as rest) =>
      (if instant b - instant a <? min_interval then [TooCloseTogether a b] else [])
      ++ interval_warnings min_interval rest
  | _ => []
  end.

Section Validator.

Variable regional_timezones : RegionEnum -> DstTzInfo.

(** scheduler.py:287-297: is the local hour of the instant outside the
    region's optimal hours of its local weekday class. *)
Definition is_suboptimal (region : RegionEnum) (scheduled_time : datetime) : bool :=
  let local_time := astimezone (regional_timezones region) scheduled_time in
  let hour := hour local_time in
  let is_weekday := weekday local_time <? 5 in
  let key := if is_weekday then weekday_key else weekend_key in
  negb (existsb (Z.eqb hour) (optimal_posting_times region key)).

(** [now] is the reading of the clock at scheduler.py:236; [region] is
    [facebook_page.region], the only field of the page that is read. *)
Definition validate_posting_schedule (now : Z) (region : RegionEnum) : V ValidationResults :=
  (* Check if any times are in the past *)
  ts <~ iterate ;;
  let past_times := filter (fun t => instant t <=? now) ts in
  let errors1 := match past_times with
                 | [] => []
                 | _ => [PastTimes (length past_times)]
                 end in
  let is_valid1 := match past_times with [] => true | _ => false end in
  (* Check daily limits *)
  ts <~ iterate ;;
  let daily_counts := fold_left count_day ts (∅ : gmap Z Z) in
  let max_daily := max_daily_posts in
  let over_limit_days :=
    filter (fun dc => bool_decide (max_daily < snd dc)) (map_to_list daily_counts) in
  let warnings1 := match over_limit_days with
                   | [] => []
                   | _ => [DailyLimitExceeded (length over_limit_days) max_daily]
                   end in
  (* Check minimum intervals *)
  let min_interval := min_interval_hours * HOUR in
  sorted_times <~ sorted_copy ;;
  let warnings2 := warnings1 ++ interval_warnings min_interval sorted_times in
  (* Check weekly limits *)
  ts <~ iterate ;;
  let weekly_count := length (filter (fun t => instant t <=? now + WEEK) ts) in
  let warnings3 :=
    if max_weekly_posts <? Z.of_nat weekly_count
    then warnings2 ++ [WeeklyLimit max_weekly_posts] else warnings2 in
  (* Suggest optimal time adjustments *)
  ts <~ iterate ;;
  let suboptimal_times := filter (is_suboptimal region) ts in
  let suggested := match suboptimal_times with
                   | [] => []
                   | _ => [OutsideOptimalTimes (length suboptimal_times)]
                   end in
  V_ret {| is_valid := is_valid1; warnings := warnings3; errors := errors1;
           suggested_adjustments := suggested |}.

End Validator.

(** ** [calculate_posting_frequency] (scheduler.py:353-385) *)

(** [float(n)] for a list length. *)
Definition float_of_nat (n : nat) : float :=
  PrimFloat.of_uint63 (Uint63.of_Z (Z.of_nat n)).

(** [sum(values)]: the floats added from the left, starting from 0. *)
Definition py_sum (values : list float) : float :=
  fold_left PrimFloat.add values 0%float.

Definition calculate_posting_frequency (page_followers : Z)
    (content_quality_score : float)
    (engagement_history : option (list (string * float))) : Z :=
  let base_frequency := 6 in
  (* Adjust based on follower count *)
  let base_frequency :=
    if 100000 <? page_followers then 4
    else if 50000 <? page_followers then 5
    else if page_followers <? 1000 then 8
    else base_frequency in
  (* Adjust based on content quality *)
  let base_frequency :=
    if PrimFloat.ltb 0.8 content_quality_score then Z.max 2 (base_frequency - 1)
    else if PrimFloat.ltb content_quality_score 0.5 then Z.min 12 (base_frequency + 2)
    else base_frequency in
  (* Adjust based on engagement history *)
  match engagement_history with
  | Some ((_ :: _) as items) =>
      let avg_engagement :=
        PrimFloat.div (py_sum (map snd items)) (float_of_nat (length items)) in
      if PrimFloat.ltb 5.0 avg_engagement then Z.max 3 (base_frequency - 1)
      else if PrimFloat.ltb avg_engagement 1.0 then Z.min 12 (base_frequency + 2)
      else base_frequency
  | Some [] | None => base_frequency
  end.

(** The frequency rule as the design document words it: a base of 6, then
    three adjustments in a fixed order, each clamped as it is applied. *)
Module FrequencySpec.

Definition follower_tier (followers : Z) (f : Z) : Z :=
  if 100000 <? followers then 4
  else if 50000 <? followers then 5
  else if followers <? 1000 then 8
  else f.

Definition quality_step (quality : float) (f : Z) : Z :=
  if PrimFloat.ltb 0.8 quality then Z.max 2 (f - 1)
  else if PrimFloat.ltb quality 0.5 then Z.min 12 (f + 2)
  else f.

(** The mean of the history's values; an empty history has none. *)
Definition mean (history : list (string * float)) : option float :=
  match history with
  | [] => None
  | _ => Some (PrimFloat.div (py_sum (map snd history)) (float_of_nat (length history)))
  end.

Definition history_step (history : option (list (string * float))) (f : Z) : Z :=
  match history with
  | None => f
  | Some h =>
      match mean h with
      | None => f
      | Some m =>
          if PrimFloat.ltb 5.0 m then Z.max 3 (f - 1)
          else if PrimFloat.ltb m 1.0 then Z.min 12 (f + 2)
          else f
      end
  end.

Definition recommendedFrequencyHours (followers : Z) (quality : float)
    (history : option (list (string * float))) : Z :=
  history_step history (quality_step quality (follower_tier followers 6)).

End FrequencySpec.

(** ** [generate_posting_schedule] (scheduler.py:163-208) *)

(** The dict [page_preferences] of [generate_posting_schedule], by the two
    keys that are read; a key that is missing is [None]. *)
Module Preferences.
Record t : Type := mk {
  optimal_posting_times : option (list Z);
  min_interval_hours : option Z
}.
End Preferences.

(** The values [current_date] takes in the loop of lines 180-206:
    [start_date], then one day more at each pass, while it is not after
    [end_date]. *)
Definition schedule_days (start_date end_date : datetime) : list datetime :=
  map (fun i => plus start_date (Z.of_nat i * DAY))
      (seq 0 (Z.to_nat ((instant end_date - instant start_date) / DAY + 1))).

(** Lines 197-203: a slot is kept when it is the first one, or when it is
    at least [min_interval] hours after the last slot kept. *)
Fixpoint keep_apart (min_interval : Z) (last_time : option datetime)
    (selected_times : list datetime) : list datetime :=
  match selected_times with
  | [] => []
  | time_slot :: rest =>
      if match last_time with
         | None => true
         | Some last => min_interval * HOUR <=? instant time_slot - instant last
         end
      then time_slot :: keep_apart min_interval (Some time_slot) rest
      else keep_apart min_interval last_time rest
  end.

Section GenerateSchedule.

Variable regional_timezones : RegionEnum -> DstTzInfo.
Variable entropy : nat -> Z.

(** What [random.sample] picks out of a population of which [k] elements
    are asked, and the draws it makes, are left open. *)
Variable choose : list datetime -> nat -> M (list datetime).

(** [random.sample(population, k)]: a [ValueError] when [k] is negative or
    larger than the population. *)
Definition random_sample (population : list datetime) (k : Z) : M (list datetime) :=
  if (k <? 0) || (Z.of_nat (length population) <? k)
  then lift (Raised ValueError)
  else choose population (Z.to_nat k).

(** The body of the loop, lines 181-206, over the days that remain. *)
Fixpoint schedule_loop (region : RegionEnum) (optimal_hours : option (list Z))
    (posts_per_day min_interval : Z) (days : list datetime) (schedule : list datetime)
  : M (list datetime) :=
  match days with
  | [] => ret schedule
  | current_date :: rest =>
      daily_optimal_times <-
        get_optimal_posting_times regional_timezones entropy region current_date
          optimal_hours ;;
      selected_times <-
        (if posts_per_day <? Z.of_nat (length daily_optimal_times)
         then sampled <- random_sample daily_optimal_times posts_per_day ;;
              ret (sorted_by instant sampled)
         else ret daily_optimal_times) ;;
      let filtered_times := keep_apart min_interval None selected_times in
      schedule_loop region optimal_hours posts_per_day min_interval rest
        (schedule ++ filtered_times)
  end.

Definition generate_posting_schedule (region : RegionEnum)
    (start_date end_date : datetime) (posts_per_day : Z)
    (page_preferences : option Preferences.t) : M (list datetime) :=
  let optimal_hours :=
    match page_preferences with
    | Some preferences => Preferences.optimal_posting_times preferences
    | None => None
    end in
  let min_interval :=
    match page_preferences with
    | Some preferences => default 2 (Preferences.min_interval_hours preferences)
    | None => 2
    end in
  schedule <- schedule_loop region optimal_hours posts_per_day min_interval
                (schedule_days start_date end_date) [] ;;
  ret (sorted_by instant schedule).

End GenerateSchedule.

(** ** [add_human_like_variance] (scheduler.py:210-227) *)

(** The range of the class [datetime]: the wall clock of a datetime lies
    from 0001-01-01T00:00:00 up to, and not including, 10000-01-01T00:00:00. *)
Definition MINYEAR_start : Z := days_from_civil 1 1 1 * DAY.
Definition MAXYEAR_end : Z := days_from_civil 10000 1 1 * DAY.

Definition in_datetime_range (wall_clock : Z) : bool :=
  (MINYEAR_start <=? wall_clock) && (wall_clock <? MAXYEAR_end).

(** [d + timedelta(microseconds=delta)] with the check that [datetime.__add__]
    makes of its result: the sum is taken on the wall clock, the tzinfo is
    kept, and a result out of the range of [datetime] is an
    [OverflowError]. *)
Definition add_timedelta (d : datetime) (delta : Z) : result datetime :=
  let sum := plus d delta in
  if in_datetime_range (wall sum) then Returned sum else Raised OverflowError.

Section Variance.

Variable entropy : nat -> Z.

(** [datetime.now(timezone.utc)] is read once for each slot, at line 221:
    [clock i] is the reading made for the slot of index [i]. In this
    function [timezone] is the class imported at line 2. *)
Variable clock : nat -> Z.

(** The loop of lines 215-225, from the slot of index [i] on. *)
Fixpoint variance_loop (i : nat) (scheduled_times : list datetime) : M (list datetime) :=
  match scheduled_times with
  | [] => ret []
  | scheduled_time :: rest =>
      variance_minutes <- randint entropy (-30) 30 ;;
      varied_time <- lift (add_timedelta scheduled_time (variance_minutes * MINUTE)) ;;
      let now_utc := {| instant := clock i; utcoffset := 0 |} in
      varied_time <-
        (if instant varied_time <=? instant now_utc
         then minutes <- randint entropy 5 15 ;;
              lift (add_timedelta now_utc (minutes * MINUTE))
         else ret varied_time) ;;
      varied_times <- variance_loop (S i) rest ;;
      ret (varied_time :: varied_times)
  end.

Definition add_human_like_variance (scheduled_times : list datetime) : M (list datetime) :=
  varied_times <- variance_loop 0 scheduled_times ;;
  ret (sorted_by instant varied_times).

End Variance.

(** ** [optimize_schedule_for_engagement] (scheduler.py:306-351) *)

(** [d.replace(hour=h, minute=m)]: the date, the seconds, the microseconds
    and the tzinfo are kept; a field out of range is a [ValueError]. *)
Definition replace_hour_minute (d : datetime) (h m : Z) : result datetime :=
  if (0 <=? h) && (h <=? 23) && (0 <=? m) && (m <=? 59)
  then Returned {| instant := date d * DAY + h * HOUR + m * MINUTE + wall d mod MINUTE
                              - utcoffset d;
                   utcoffset := utcoffset d |}
  else Raised ValueError.

(** [sorted(items, key=lambda x: x[1], reverse=True)] on the items of the
    dict [historical_performance]: stable, greatest score first (the
    scores are taken to be comparable: none is NaN). *)
Fixpoint insert_by_score (x : Z * float) (l : list (Z * float)) : list (Z * float) :=
  match l with
  | [] => [x]
  | y :: l' =>
      if PrimFloat.ltb (snd x) (snd y) then y :: insert_by_score x l' else x :: y :: l'
  end.

(** Lines 319-326: the hours of the five best scores. *)
Definition top_hours (historical_performance : list (Z * float)) : list Z :=
  let sorted_hours := fold_right insert_by_score [] historical_performance in
  map fst (firstn 5 sorted_hours).

(** [min(top_hours, key=lambda h: abs(h - current_hour))]: the first hour
    of least distance; a [ValueError] on an empty list. *)
Definition closest_hour (current_hour : Z) (top_hours : list Z) : result Z :=
  match top_hours with
  | [] => Raised ValueError
  | first :: rest =>
      Returned (fold_left (fun best h =>
                             if Z.abs (h - current_hour) <? Z.abs (best - current_hour)
                             then h else best)
                          rest first)
  end.

Section OptimizeSchedule.

Variable regional_timezones : RegionEnum -> DstTzInfo.
Variable entropy : nat -> Z.

(** The loop of lines 332-349. The minute is drawn before [replace] checks
    its arguments; [timezone.utc] is here the [utc] of the class imported
    at line 2. The two conversions are those of slots away from the ends
    of the range of [datetime]: within a day of either end [astimezone]
    raises [OverflowError]. *)
Fixpoint optimize_loop (regional_tz : DstTzInfo) (top_hours : list Z)
    (base_schedule : list datetime) : M (list datetime) :=
  match base_schedule with
  | [] => ret []
  | scheduled_time :: rest =>
      let local_time := astimezone regional_tz scheduled_time in
      let current_hour := hour local_time in
      optimized_time <-
        (if negb (existsb (Z.eqb current_hour) top_hours)
            && match top_hours with [] => false | _ => true end
         then
           closest <- lift (closest_hour current_hour top_hours) ;;
           minute <- randint entropy 0 59 ;;
           optimized_local_time <- lift (replace_hour_minute local_time closest minute) ;;
           ret (astimezone UTC optimized_local_time)
         else ret scheduled_time) ;;
      optimized_schedule <- optimize_loop regional_tz top_hours rest ;;
      ret (optimized_time :: optimized_schedule)
  end.

(** A history that is [None] or an empty dict is falsy: the list passed in
    is returned as it is. *)
Definition optimize_schedule_for_engagement (region : RegionEnum)
    (base_schedule : list datetime)
    (historical_performance : option (list (Z * float))) : M (list datetime) :=
  match historical_performance with
  | None | Some [] => ret base_schedule
  | Some ((_ :: _) as items) =>
      let regional_tz := regional_timezones region in
      optimized_schedule <- optimize_loop regional_tz (top_hours items) base_schedule ;;
      ret (sorted_by instant optimized_schedule)
  end.

End OptimizeSchedule.

(** * optimization.py: [ContentOptimizationEngine] *)

(** ** Python and numpy numbers *)

(** [float(z)], rounded to the nearest binary64. *)
Definition float_of_Z (z : Z) : float :=
  SF2Prim (binary_normalize prec emax z 0 false).

(** [int(x)] for a finite float: truncation towards zero. *)
Definition int_of_float (x : float) : Z :=
  match Prim2SF x with
  | S754_finite s m e =>
      let v := if 0 <=? e then Z.pos m * 2 ^ e else Z.pos m / 2 ^ (- e) in
      if s then - v else v
  | _ => 0
  end.

(** The numbers the analysis computes with. [np.mean] returns a numpy
    [float64]; literals and [len] are Python numbers. The two kinds differ
    in division: [x / 0] raises [ZeroDivisionError] on Python numbers and
    is IEEE 754 division (an infinity or NaN, with a [RuntimeWarning]) as
    soon as one operand is a numpy scalar. *)
Inductive number : Type :=
| PyInt (z : Z)
| PyFloat (x : float)
| NpFloat64 (x : float).

Definition value (a : number) : float :=
  match a with
  | PyInt z => float_of_Z z
  | PyFloat x | NpFloat64 x => x
  end.

Definition is_numpy (a : number) : bool :=
  match a with NpFloat64 _ => true | _ => false end.

Definition arith (iop : Z -> Z -> Z) (fop : float -> float -> float)
    (a b : number) : number :=
  match a, b with
  | PyInt x, PyInt y => PyInt (iop x y)
  | _, _ =>
      if is_numpy a || is_numpy b
      then NpFloat64 (fop (value a) (value b))
      else PyFloat (fop (value a) (value b))
  end.

Definition num_add : number -> number -> number := arith Z.add PrimFloat.add.
Definition num_sub : number -> number -> number := arith Z.sub PrimFloat.sub.
Definition num_mul : number -> number -> number := arith Z.mul PrimFloat.mul.

(** [a / b]. *)
Definition num_truediv (a b : number) : result number :=
  if is_numpy a || is_numpy b
  then Returned (NpFloat64 (PrimFloat.div (value a) (value b)))
  else if PrimFloat.eqb (value b) 0
  then Raised ZeroDivisionError
  else Returned (PyFloat (PrimFloat.div (value a) (value b))).

(** [a > b]. *)
Definition num_gt (a b : number) : bool := PrimFloat.ltb (value b) (value a).

(** The sum numpy takes of a contiguous array of [float64]
    ([np.add.reduce], pairwise summation). Fewer than 8 values are added
    from the left, starting from -0.0. Up to 128 values are added in eight
    running sums, [r[j] += a[i + j]] for each complete group of eight, the
    eight sums are then added as a tree and the values left over one by
    one. More values are split in two parts, the first of [n / 2] values
    rounded down to a multiple of 8, and the sums of the parts added. *)
Definition add_groups (r group : list float) : list float :=
  map (fun rv => (fst rv + snd rv)%float) (combine r group).

Fixpoint running_sums (groups : nat) (r a : list float) : list float * list float :=
  match groups with
  | O => (r, a)
  | S groups' => running_sums groups' (add_groups r (firstn 8 a)) (skipn 8 a)
  end.

Definition block_sum (a : list float) : float :=
  let (r, rest) := running_sums (length a / 8 - 1) (firstn 8 a) (skipn 8 a) in
  let r j := nth j r 0%float in
  fold_left PrimFloat.add rest
    (((r 0%nat + r 1%nat) + (r 2%nat + r 3%nat))
     + ((r 4%nat + r 5%nat) + (r 6%nat + r 7%nat)))%float.

(** [fuel] bounds the depth of the splitting; the length of the list is
    enough, each part being shorter than the whole. *)
Fixpoint pairwise_sum (fuel : nat) (a : list float) : float :=
  let n := length a in
  if (n <? 8)%nat then fold_left PrimFloat.add a neg_zero
  else if (n <=? 128)%nat then block_sum a
  else
    match fuel with
    | O => block_sum a
    | S fuel' =>
        let n2 := (n / 2 - (n / 2) mod 8)%nat in
        (pairwise_sum fuel' (firstn n2 a) + pairwise_sum fuel' (skipn n2 a))%float
    end.

Definition np_sum (a : list float) : float := pairwise_sum (length a) a.

(** [np.mean(rates)] of a non-empty list of floats: a numpy [float64],
    numpy's sum of the values divided by their number. *)
Definition np_mean (rates : list float) : number :=
  NpFloat64 (PrimFloat.div (np_sum rates) (float_of_nat (length rates))).

(** ** The records of optimization.py:22-45 *)

Record ContentFeatures : Type := mk_features {
  posting_hour : Z;
  posting_weekday : Z;
  caption_length : Z;
  hashtag_count : Z;
  has_image : bool;
  sentiment_score : float;
  readability_score : float;
  content_type : string;
  regional_relevance_score : float
}.

Record PerformanceMetrics : Type := mk_metrics {
  engagement_rate : float;
  reach_rate : float;
  click_through_rate : float;
  total_reactions : Z;
  comments : Z;
  shares : Z;
  performance_score : float
}.

(** ** The bucket analysis (optimization.py:253-417) *)

(** One entry of an analysis dict: [{"avg_engagement": .., "post_count": ..}]. *)
Record bucket : Type := mk_bucket {
  avg_engagement : number;
  post_count : nat
}.

(** [np.mean(rates) if rates else 0]. *)
Definition bucket_of (rates : list float) : bucket :=
  {| avg_engagement := match rates with [] => PyInt 0 | _ => np_mean rates end;
     post_count := length rates |}.

(** A [defaultdict(list)] as the list of its items in insertion order;
    [d[k].append(v)]. *)
Fixpoint dict_append {K : Type} (eqb : K -> K -> bool) (k : K) (v : float)
    (d : list (K * list float)) : list (K * list float) :=
  match d with
  | [] => [(k, [v])]
  | (k', vs) :: d' =>
      if eqb k k' then (k', vs ++ [v]) :: d' else (k', vs) :: dict_append eqb k v d'
  end.

(** Grouping the engagement rates of [zip(features, performance)] under
    the key [key_of feat]; a sample for which [key_of] is [None] is left out. *)
Definition group_rates {K : Type} (eqb : K -> K -> bool)
    (key_of : ContentFeatures -> option K)
    (features : list ContentFeatures) (performance : list PerformanceMetrics)
  : list (K * list float) :=
  fold_left (fun d fp =>
               match key_of (fst fp) with
               | Some k => dict_append eqb k (engagement_rate (snd fp)) d
               | None => d
               end)
            (combine features performance) [].

(** [sorted(items, key=lambda x: x[1]["avg_engagement"], reverse=True)]:
    stable, greatest mean first. *)
Fixpoint insert_desc {K : Type} (x : K * bucket) (l : list (K * bucket))
  : list (K * bucket) :=
  match l with
  | [] => [x]
  | y :: l' =>
      if num_gt (avg_engagement (snd y)) (avg_engagement (snd x))
      then y :: insert_desc x l'
      else x :: y :: l'
  end.

Definition sorted_desc {K : Type} (l : list (K * bucket)) : list (K * bucket) :=
  fold_right insert_desc [] l.

(** [max(items, key=lambda x: x[1]["avg_engagement"])[0]] on a non-empty
    dict: the key of the first item of greatest mean. *)
Definition best_key {K : Type} (first : K * bucket) (rest : list (K * bucket)) : K :=
  fst (fold_left (fun best x =>
                    if num_gt (avg_engagement (snd x)) (avg_engagement (snd best))
                    then x else best)
                 rest first).

(** [l[i]] on a list, with Python's negative indices. *)
Definition py_index {A : Type} (l : list A) (i : Z) : result A :=
  let n := Z.of_nat (length l) in
  let j := if i <? 0 then i + n else i in
  if (0 <=? j) && (j <? n)
  then match nth_error l (Z.to_nat j) with
       | Some a => Returned a
       | None => Raised IndexError
       end
  else Raised IndexError.

Definition weekday_names : list string :=
  ["Monday"; "Tuesday"; "Wednesday"; "Thursday"; "Friday"; "Saturday"; "Sunday"]%string.

(** [d[k] = v] on a dict kept as the list of its items. *)
Fixpoint dict_set {V : Type} (k : string) (v : V) (d : list (string * V))
  : list (string * V) :=
  match d with
  | [] => [(k, v)]
  | (k', v') :: d' =>
      if String.eqb k k' then (k', v) :: d' else (k', v') :: dict_set k v d'
  end.

Record TimeAnalysis : Type := mk_time_analysis {
  best_hours : list (Z * bucket);
  best_weekdays : list (string * bucket);
  optimal_hours : list Z;
  avoid_hours : list Z
}.

(** The loop of optimization.py:286-290. *)
Fixpoint weekday_buckets (items : list (Z * list float))
    (best_weekdays : list (string * bucket)) : result (list (string * bucket)) :=
  match items with
  | [] => Returned best_weekdays
  | (weekday, rates) :: rest =>
      match py_index weekday_names weekday with
      | Returned name =>
          weekday_buckets rest
            (dict_set name {| avg_engagement := np_mean rates;
                              post_count := length rates |} best_weekdays)
      | Raised e => Raised e
      end
  end.

(** optimization.py:253-299. *)
Definition _analyze_posting_times (features : list ContentFeatures)
    (performance : list PerformanceMetrics) : result TimeAnalysis :=
  let hour_performance :=
    group_rates Z.eqb (fun feat => Some (posting_hour feat)) features performance in
  let weekday_performance :=
    group_rates Z.eqb (fun feat => Some (posting_weekday feat)) features performance in
  let best_hours :=
    map (fun hr => (fst hr, {| avg_engagement := np_mean (snd hr);
                               post_count := length (snd hr) |})) hour_performance in
  let sorted_hours := sorted_desc best_hours in
  match weekday_buckets weekday_performance [] with
  | Raised e => Raised e
  | Returned best_weekdays =>
      Returned {| best_hours := firstn 5 sorted_hours;
                  best_weekdays := best_weekdays;
                  optimal_hours := map fst (firstn 3 sorted_hours);
                  avoid_hours := map fst (skipn (length sorted_hours - 2) sorted_hours) |}
  end.

Record ContentAnalysis : Type := mk_content_analysis {
  caption_length_analysis : list (string * bucket);
  hashtag_analysis : list (Z * bucket);
  with_image : bucket;
  without_image : bucket
}.

(** [length_buckets] (optimization.py:309-314) and the scan of lines 319-322. *)
Definition length_bucket (feat : ContentFeatures) : option string :=
  let n := caption_length feat in
  if (0 <=? n) && (n <? 100) then Some "short"%string
  else if (100 <=? n) && (n <? 200) then Some "medium"%string
  else if (200 <=? n) && (n <? 300) then Some "long"%string
  else if (300 <=? n) && (n <? 1000) then Some "very_long"%string
  else None.

Definition buckets_of {K : Type} (d : list (K * list float)) : list (K * bucket) :=
  map (fun kr => (fst kr, bucket_of (snd kr))) d.

(** The engagement rates of the samples with ([true]) or without an image. *)
Definition image_rates (image : bool) (features : list ContentFeatures)
    (performance : list PerformanceMetrics) : list float :=
  map (fun fp => engagement_rate (snd fp))
      (filter (fun fp => Bool.eqb (has_image (fst fp)) image)
              (combine features performance)).

(** optimization.py:301-363. *)
Definition _analyze_content_patterns (features : list ContentFeatures)
    (performance : list PerformanceMetrics) : ContentAnalysis :=
  let length_performance := group_rates String.eqb length_bucket features performance in
  let hashtag_performance :=
    group_rates Z.eqb (fun feat => Some (Z.min (hashtag_count feat) 10))
                features performance in
  {| caption_length_analysis := buckets_of length_performance;
     hashtag_analysis := buckets_of hashtag_performance;
     with_image := bucket_of (image_rates true features performance);
     without_image := bucket_of (image_rates false features performance) |}.

Record EngagementInsights : Type := mk_insights {
  sentiment_impact : list (string * bucket);
  regional_relevance_impact : list (string * bucket)
}.

Definition in_range (lo hi x : float) : bool :=
  PrimFloat.leb lo x && PrimFloat.ltb x hi.

(** [sentiment_buckets] (optimization.py:373-377). *)
Definition sentiment_bucket (feat : ContentFeatures) : option string :=
  let s := sentiment_score feat in
  if in_range (-1.0) (-0.3) s then Some "negative"%string
  else if in_range (-0.3) 0.3 s then Some "neutral"%string
  else if in_range 0.3 1.0 s then Some "positive"%string
  else None.

(** [relevance_buckets] (optimization.py:388-392). *)
Definition relevance_bucket (feat : ContentFeatures) : option string :=
  let r := regional_relevance_score feat in
  if in_range 0.0 0.3 r then Some "low"%string
  else if in_range 0.3 0.7 r then Some "medium"%string
  else if in_range 0.7 1.0 r then Some "high"%string
  else None.

(** optimization.py:365-417. *)
Definition _analyze_engagement_patterns (features : list ContentFeatures)
    (performance : list PerformanceMetrics) : EngagementInsights :=
  {| sentiment_impact :=
       buckets_of (group_rates String.eqb sentiment_bucket features performance);
     regional_relevance_impact :=
       buckets_of (group_rates String.eqb relevance_bucket features performance) |}.

(** ** Recommendations (optimization.py:419-508) *)

(** The recommendation sentences, by f-string template. *)
Inductive recommendation_text : Type :=
| PostDuringPeakHours (hours : list Z)
    (* "Post during peak hours: {', '.join(map(str, hours))}" *)
| OptimizeCaptionLength (range : string)
    (* "Optimize caption length for '{range}' range" *)
| AlwaysIncludeImages
    (* "Always include images with posts" *)
| UseHashtags (n : Z)
    (* "Use approximately {n} hashtags per post" *)
| FocusOnTone (tone : string).
    (* "Focus on {tone} tone in captions" *)

Inductive improvement_text : Type :=
| FixedEstimate (text : string)
| PercentIncrease (x : number).
    (* f"{x:.1f}% increase in engagement"; an infinite x prints as inf *)

Record Recommendation : Type := mk_recommendation {
  type : string;
  priority : string;
  recommendation : recommendation_text;
  expected_improvement : improvement_text;
  confidence : float
}.

(** optimization.py:459-472: the image recommendation, if any. The
    quotient of line 470 is not guarded. *)
Definition image_recommendation (content_analysis : ContentAnalysis)
  : result (list Recommendation) :=
  let with_image_eng := avg_engagement (with_image content_analysis) in
  let without_image_eng := avg_engagement (without_image content_analysis) in
  if num_gt with_image_eng (num_mul without_image_eng (PyFloat 1.2))
  then
    match num_truediv (num_sub with_image_eng without_image_eng) without_image_eng with
    | Raised e => Raised e
    | Returned q =>
        Returned [ {| type := "visual_content";
                      priority := "high";
                      recommendation := AlwaysIncludeImages;
                      expected_improvement := PercentIncrease (num_mul q (PyInt 100));
                      confidence := 0.9 |} ]
    end
  else Returned [].

Definition _generate_optimization_recommendations
    (time_analysis : TimeAnalysis) (content_analysis : ContentAnalysis)
    (engagement_patterns : EngagementInsights) : result (list Recommendation) :=
  (* Time-based recommendations *)
  let recommendations :=
    match best_hours time_analysis with
    | [] => []
    | _ :: _ =>
        [ {| type := "posting_time";
             priority := "high";
             recommendation :=
               PostDuringPeakHours (firstn 3 (map fst (best_hours time_analysis)));
             expected_improvement := FixedEstimate "15-25% increase in engagement";
             confidence := 0.8 |} ]
    end in
  (* Content length recommendations *)
  let recommendations :=
    match caption_length_analysis content_analysis with
    | [] => recommendations
    | first :: rest =>
        recommendations ++
        [ {| type := "content_length";
             priority := "medium";
             recommendation := OptimizeCaptionLength (best_key first rest);
             expected_improvement := FixedEstimate "10-15% increase in engagement";
             confidence := 0.7 |} ]
    end in
  (* Image recommendations *)
  match image_recommendation content_analysis with
  | Raised e => Raised e
  | Returned image =>
      let recommendations := recommendations ++ image in
      (* Hashtag recommendations *)
      let recommendations :=
        match hashtag_analysis content_analysis with
        | [] => recommendations
        | first :: rest =>
            recommendations ++
            [ {| type := "hashtags";
                 priority := "medium";
                 recommendation := UseHashtags (best_key first rest);
                 expected_improvement := FixedEstimate "5-10% increase in reach";
                 confidence := 0.6 |} ]
        end in
      (* Sentiment recommendations *)
      let recommendations :=
        match sentiment_impact engagement_patterns with
        | [] => recommendations
        | first :: rest =>
            recommendations ++
            [ {| type := "content_tone";
                 priority := "medium";
                 recommendation := FocusOnTone (best_key first rest);
                 expected_improvement := FixedEstimate "8-12% increase in engagement";
                 confidence := 0.7 |} ]
        end in
      Returned recommendations
  end.

(** ** [analyze_content_performance] (optimization.py:72-115) *)

Record AnalysisResults : Type := mk_analysis {
  total_posts_analyzed : nat;
  time_analysis : TimeAnalysis;
  content_analysis : ContentAnalysis;
  engagement_insights : EngagementInsights;
  optimization_recommendations : list Recommendation
}.

(** What the call returns: the dict [{"error": message}], or the report. *)
Inductive AnalysisOutcome : Type :=
| ErrorDict (message : string)
| Report (analysis_results : AnalysisResults).

Section Analysis.

(** The analysis is stated over any shape of post record and any pair of
    extraction functions; [Raised] is an exception inside the [try] of
    line 87. *)
Variable PostData : Type.
Variable _extract_content_features : PostData -> result ContentFeatures.
Variable _extract_performance_metrics : PostData -> result PerformanceMetrics.

(** The loop of optimization.py:86-95: a post whose extraction raises is
    logged and skipped. *)
Fixpoint extract_all (posts_data : list PostData)
  : list ContentFeatures * list PerformanceMetrics :=
  match posts_data with
  | [] => ([], [])
  | post_data :: rest =>
      let (features_list, performance_list) := extract_all rest in
      match _extract_content_features post_data with
      | Raised _ => (features_list, performance_list)
      | Returned features =>
          match _extract_performance_metrics post_data with
          | Raised _ => (features_list, performance_list)
          | Returned performance =>
              (features :: features_list, performance :: performance_list)
          end
      end
  end.

(** The analysis proper, lines 100-115. *)
Definition analyze_samples (features_list : list ContentFeatures)
    (performance_list : list PerformanceMetrics) : result AnalysisOutcome :=
  match _analyze_posting_times features_list performance_list with
  | Raised e => Raised e
  | Returned times =>
      let contents := _analyze_content_patterns features_list performance_list in
      let insights := _analyze_engagement_patterns features_list performance_list in
      match _generate_optimization_recommendations times contents insights with
      | Raised e => Raised e
      | Returned recommendations =>
          Returned (Report {| total_posts_analyzed := length features_list;
                              time_analysis := times;
                              content_analysis := contents;
                              engagement_insights := insights;
                              optimization_recommendations := recommendations |})
      end
  end.

Definition analyze_content_performance (page_id : Z) (posts_data : list PostData)
  : result AnalysisOutcome :=
  if (length posts_data <? 10)%nat
  then Returned (ErrorDict "Insufficient data for analysis (minimum 10 posts required)")
  else
    let (features_list, performance_list) := extract_all posts_data in
    if (length features_list <? 5)%nat
    then Returned (ErrorDict "Insufficient valid data for analysis")
    else analyze_samples features_list performance_list.

End Analysis.

(** ** Extraction from dict-shaped posts (optimization.py:117-251) *)

Module Post.

(** The dicts of one entry of [posts_data], when every key that is there
    holds a value of the type of its column. A key that may be missing is
    an [option]; [d.get(key, default)] is [default] on [None]. Timestamps
    are datetimes (an ISO string stands for the datetime it parses to) and
    captions are ASCII text. Posts whose keys hold None, or text that is
    no time stamp, are those of [RawPost] below. *)
Record ScheduledPost : Type := mk_scheduled_post {
  actual_posted_time : option datetime;
  scheduled_time : option datetime
}.

Record ContentGeneration : Type := mk_content_generation {
  generated_caption : option string;
  generated_image_url : option string;
  sentiment_score : option float;
  readability_score : option float;
  content_type : option string
}.

Record Analytics : Type := mk_analytics {
  impressions : option Z;
  reach : option Z;
  engaged_users : option Z;
  clicks : option Z;
  likes : option Z;
  comments : option Z;
  shares : option Z;
  total_reactions : option Z;
  performance_score : option float
}.

Record PostData : Type := mk_post {
  scheduled_post : ScheduledPost;
  content_generation : ContentGeneration;
  analytics : Analytics
}.

End Post.

Definition lower_ascii (c : ascii) : ascii :=
  let n := N_of_ascii c in
  if ((65 <=? n) && (n <=? 90))%N then ascii_of_N (n + 32) else c.

(** [s.lower()] on ASCII text. *)
Fixpoint lower (s : string) : string :=
  match s with
  | EmptyString => EmptyString
  | String c s' => String (lower_ascii c) (lower s')
  end.

(** [needle in hay]. *)
Fixpoint contains (needle hay : string) : bool :=
  String.prefix needle hay
  || match hay with
     | EmptyString => false
     | String _ hay' => contains needle hay'
     end.

(** [s.count(c)] for a one-character [c]. *)
Fixpoint count_char (c : ascii) (s : string) : Z :=
  match s with
  | EmptyString => 0
  | String c' s' => (if Ascii.eqb c c' then 1 else 0) + count_char c s'
  end.

Definition us_keywords : list string :=
  ["dollar"; "$"; "america"; "usa"; "thanksgiving"; "nfl"; "superbowl"]%string.

(** The second keyword is the two characters U+00C2 U+00A3 of the source,
    here in UTF-8. *)
Definition uk_keywords : list string :=
  ["pound";
   String (ascii_of_N 195) (String (ascii_of_N 130)
     (String (ascii_of_N 194) (String (ascii_of_N 163) EmptyString)));
   "britain"; "uk"; "tea"; "premier league"; "bank holiday"]%string.

(** [min(a, b)] on floats: the first argument unless the second is smaller. *)
Definition py_min_float (a b : float) : float := if PrimFloat.ltb b a then b else a.

(** optimization.py:203-219. *)
Definition _calculate_regional_relevance (caption : string) : float :=
  let caption_lower := lower caption in
  let us_score := length (filter (fun k => contains k caption_lower) us_keywords) in
  let uk_score := length (filter (fun k => contains k caption_lower) uk_keywords) in
  let max_possible := Nat.max (length us_keywords) (length uk_keywords) in
  let relevance_score :=
    if (0 <? max_possible)%nat
    then PrimFloat.div (float_of_nat (Nat.max us_score uk_score))
                       (float_of_nat max_possible)
    else 0.5%float in
  py_min_float 1.0 relevance_score.

(** optimization.py:117-162, on a post whose keys hold values: no line
    raises on such a post. [Raw._extract_content_features] below is the
    function on any post. *)
Definition _extract_content_features (post_data : Post.PostData) : result ContentFeatures :=
  let scheduled_post := Post.scheduled_post post_data in
  let content_gen := Post.content_generation post_data in
  let posted_time :=
    match Post.actual_posted_time scheduled_post with
    | Some t => Some t
    | None => Post.scheduled_time scheduled_post
    end in
  let posting_hour := match posted_time with Some t => hour t | None => 12 end in
  let posting_weekday := match posted_time with Some t => weekday t | None => 0 end in
  let caption := default ""%string (Post.generated_caption content_gen) in
  let caption_length := Z.of_nat (String.length caption) in
  let hashtag_count := count_char "#"%char caption in
  let has_image :=
    match Post.generated_image_url content_gen with
    | Some (String _ _) => true
    | Some EmptyString | None => false
    end in
  let sentiment_score := default 0.0%float (Post.sentiment_score content_gen) in
  let readability_score := default 50.0%float (Post.readability_score content_gen) in
  let content_type := default "mixed"%string (Post.content_type content_gen) in
  let regional_relevance_score := _calculate_regional_relevance caption in
  Returned (mk_features posting_hour posting_weekday caption_length hashtag_count
              has_image sentiment_score readability_score content_type
              regional_relevance_score).

(** optimization.py:221-251. *)
Definition _calculate_performance_score (engagement_rate reach_rate ctr : float)
    (reactions comments shares : Z) : float :=
  let social_score :=
    py_min_float 1.0
      (PrimFloat.div (float_of_Z (reactions + comments * 3 + shares * 5)) 100) in
  let score :=
    (0.4 * (engagement_rate / 10) + 0.2 * (reach_rate / 100) + 0.2 * (ctr / 5)
     + 0.2 * social_score)%float in
  py_min_float 1.0 score.

(** [a / b * 100] on counts. *)
Definition percentage (a b : Z) : float :=
  (float_of_Z a / float_of_Z b * 100)%float.

(** optimization.py:164-201, on a post whose keys hold values;
    [Raw._extract_performance_metrics] below is the function on any post. *)
Definition _extract_performance_metrics (post_data : Post.PostData)
  : result PerformanceMetrics :=
  let analytics := Post.analytics post_data in
  let impressions := default 0 (Post.impressions analytics) in
  let reach := default 0 (Post.reach analytics) in
  let engaged_users := default 0 (Post.engaged_users analytics) in
  let clicks := default 0 (Post.clicks analytics) in
  let likes := default 0 (Post.likes analytics) in
  let comments := default 0 (Post.comments analytics) in
  let shares := default 0 (Post.shares analytics) in
  let reactions := default likes (Post.total_reactions analytics) in
  let engagement_rate := if 0 <? reach then percentage engaged_users reach else 0.0%float in
  let reach_rate := if 0 <? impressions then percentage reach impressions else 0.0%float in
  let click_through_rate :=
    if 0 <? impressions then percentage clicks impressions else 0.0%float in
  let performance_score := default 0.0%float (Post.performance_score analytics) in
  let performance_score :=
    if PrimFloat.eqb performance_score 0.0
    then _calculate_performance_score engagement_rate reach_rate click_through_rate
           reactions comments shares
    else performance_score in
  Returned (mk_metrics engagement_rate reach_rate click_through_rate reactions
              comments shares performance_score).

(** [analyze_content_performance] on dict-shaped posts. *)
Definition analyze_posts (page_id : Z) (posts_data : list Post.PostData)
  : result AnalysisOutcome :=
  analyze_content_performance Post.PostData _extract_content_features
    _extract_performance_metrics page_id posts_data.

(** ** Extraction from posts whose keys may hold None *)

(** What a dict holds under a key: nothing (the key is missing), [None],
    as for a nullable column that is not set, or a value. *)
Module Entry.

Inductive t (A : Type) : Type :=
| Missing
| Null
| Value (a : A).
Arguments Missing {A}.
Arguments Null {A}.
Arguments Value {A} a.

(** [d.get(key)]: Python's None for a missing key and for a key that
    holds None. *)
Definition get {A : Type} (e : t A) : option A :=
  match e with
  | Value a => Some a
  | Missing | Null => None
  end.

(** [d.get(key, default)]: the default for a missing key only. *)
Definition get_default {A : Type} (e : t A) (default : A) : option A :=
  match e with
  | Value a => Some a
  | Missing => Some default
  | Null => None
  end.

End Entry.

(** The dicts of one entry of [posts_data], each key with what it holds.
    A time stamp is a datetime or a string; the other values have the type
    of their column. *)
Module RawPost.

Inductive timestamp : Type :=
| Datetime (d : datetime)
| Text (s : string).

Record ScheduledPost : Type := mk_scheduled_post {
  actual_posted_time : Entry.t timestamp;
  scheduled_time : Entry.t timestamp
}.

Record ContentGeneration : Type := mk_content_generation {
  generated_caption : Entry.t string;
  generated_image_url : Entry.t string;
  sentiment_score : Entry.t float;
  readability_score : Entry.t float;
  content_type : Entry.t string
}.

Record Analytics : Type := mk_analytics {
  impressions : Entry.t Z;
  reach : Entry.t Z;
  engaged_users : Entry.t Z;
  clicks : Entry.t Z;
  likes : Entry.t Z;
  comments : Entry.t Z;
  shares : Entry.t Z;
  total_reactions : Entry.t Z;
  performance_score : Entry.t float
}.

Record PostData : Type := mk_post {
  scheduled_post : Entry.t ScheduledPost;
  content_generation : Entry.t ContentGeneration;
  analytics : Entry.t Analytics
}.

(** The empty dict [{}]. *)
Definition no_scheduled_post : ScheduledPost :=
  mk_scheduled_post Entry.Missing Entry.Missing.

Definition no_content_generation : ContentGeneration :=
  mk_content_generation Entry.Missing Entry.Missing Entry.Missing Entry.Missing
    Entry.Missing.

Definition no_analytics : Analytics :=
  mk_analytics Entry.Missing Entry.Missing Entry.Missing Entry.Missing Entry.Missing
    Entry.Missing Entry.Missing Entry.Missing Entry.Missing.

End RawPost.

(** The two dataclasses as extraction fills them: a field that is copied
    from the post without a check is [None] where the post held None. *)
Module Extracted.

Record ContentFeatures : Type := mk_features {
  posting_hour : Z;
  posting_weekday : Z;
  caption_length : Z;
  hashtag_count : Z;
  has_image : bool;
  sentiment_score : option float;
  readability_score : option float;
  content_type : option string;
  regional_relevance_score : float
}.

Record PerformanceMetrics : Type := mk_metrics {
  engagement_rate : float;
  reach_rate : float;
  click_through_rate : float;
  total_reactions : option Z;
  comments : option Z;
  shares : option Z;
  performance_score : option float
}.

End Extracted.

Module Raw.

(** [r] and then [k], unless [r] is an exception. *)
Definition and_then {A B : Type} (r : result A) (k : A -> result B) : result B :=
  match r with
  | Returned a => k a
  | Raised e => Raised e
  end.

Notation "x <-- r ;; k" := (and_then r (fun x => k))
  (at level 100, r at next level, right associativity).

(** [post_data.get(key, {})] and the first [.get] on what it gives: an
    [AttributeError] on None. *)
Definition subdict {A : Type} (e : Entry.t A) (empty : A) : result A :=
  match e with
  | Entry.Value d => Returned d
  | Entry.Missing => Returned empty
  | Entry.Null => Raised AttributeError
  end.

(** An operand that must be a number: [None] in a comparison or in
    arithmetic is a [TypeError]. *)
Definition number_of {A : Type} (x : option A) : result A :=
  match x with
  | Some a => Returned a
  | None => Raised TypeError
  end.

(** [s.replace('Z', '+00:00')]. *)
Fixpoint replace_Z (s : string) : string :=
  match s with
  | EmptyString => EmptyString
  | String c s' =>
      if Ascii.eqb c "Z"
      then String.append "+00:00" (replace_Z s')
      else String c (replace_Z s')
  end.

(** The truth value of what [.get] gave for a time stamp: a datetime is
    true, a string unless it is empty, None is false. *)
Definition truthy (x : option RawPost.timestamp) : bool :=
  match x with
  | Some (RawPost.Datetime _) => true
  | Some (RawPost.Text (String _ _)) => true
  | Some (RawPost.Text EmptyString) | None => false
  end.

Section Extraction.

(** [datetime.fromisoformat] is left open: the datetime the text stands
    for, or [None] where the call raises [ValueError]. A datetime without
    an offset is read on its own wall clock. *)
Variable fromisoformat : string -> option datetime.

(** Line 125: [a or b] is [a] when it is true, and else [b]. *)
Definition chosen_time (scheduled_post : RawPost.ScheduledPost)
  : option RawPost.timestamp :=
  let actual := Entry.get (RawPost.actual_posted_time scheduled_post) in
  if truthy actual then actual
  else Entry.get (RawPost.scheduled_time scheduled_post).

(** optimization.py:125-127. *)
Definition posted_time (scheduled_post : RawPost.ScheduledPost)
  : result (option datetime) :=
  match chosen_time scheduled_post with
  | Some (RawPost.Text s) =>
      match fromisoformat (replace_Z s) with
      | Some t => Returned (Some t)
      | None => Raised ValueError
      end
  | Some (RawPost.Datetime t) => Returned (Some t)
  | None => Returned None
  end.

(** optimization.py:117-162. The first [.get] on [scheduled_post] is at
    line 125 and the first on [content_gen] at line 133; [len(caption)] at
    line 134 is a [TypeError] on None. *)
Definition _extract_content_features (post_data : RawPost.PostData)
  : result Extracted.ContentFeatures :=
  scheduled_post <--
    subdict (RawPost.scheduled_post post_data) RawPost.no_scheduled_post ;;
  posted_time <-- posted_time scheduled_post ;;
  let posting_hour := match posted_time with Some t => hour t | None => 12 end in
  let posting_weekday := match posted_time with Some t => weekday t | None => 0 end in
  content_gen <--
    subdict (RawPost.content_generation post_data) RawPost.no_content_generation ;;
  caption <--
    number_of (Entry.get_default (RawPost.generated_caption content_gen) ""%string) ;;
  let caption_length := Z.of_nat (String.length caption) in
  let hashtag_count := count_char "#"%char caption in
  let has_image :=
    match Entry.get (RawPost.generated_image_url content_gen) with
    | Some (String _ _) => true
    | Some EmptyString | None => false
    end in
  let sentiment_score :=
    Entry.get_default (RawPost.sentiment_score content_gen) 0.0%float in
  let readability_score :=
    Entry.get_default (RawPost.readability_score content_gen) 50.0%float in
  let content_type :=
    Entry.get_default (RawPost.content_type content_gen) "mixed"%string in
  let regional_relevance_score := _calculate_regional_relevance caption in
  Returned (Extracted.mk_features posting_hour posting_weekday caption_length
              hashtag_count has_image sentiment_score readability_score content_type
              regional_relevance_score).

(** optimization.py:164-201. [reach > 0] and [impressions > 0] are
    [TypeError]s on None, and so are a quotient or a sum with None; a
    [performance_score] that is None is not equal to 0.0 and is kept. *)
Definition _extract_performance_metrics (post_data : RawPost.PostData)
  : result Extracted.PerformanceMetrics :=
  analytics <-- subdict (RawPost.analytics post_data) RawPost.no_analytics ;;
  let impressions := Entry.get_default (RawPost.impressions analytics) 0 in
  let reach := Entry.get_default (RawPost.reach analytics) 0 in
  let engaged_users := Entry.get_default (RawPost.engaged_users analytics) 0 in
  let clicks := Entry.get_default (RawPost.clicks analytics) 0 in
  let likes := Entry.get_default (RawPost.likes analytics) 0 in
  let comments := Entry.get_default (RawPost.comments analytics) 0 in
  let shares := Entry.get_default (RawPost.shares analytics) 0 in
  let reactions :=
    match RawPost.total_reactions analytics with
    | Entry.Value z => Some z
    | Entry.Missing => likes
    | Entry.Null => None
    end in
  reach_ <-- number_of reach ;;
  engagement_rate <--
    (if 0 <? reach_
     then engaged <-- number_of engaged_users ;; Returned (percentage engaged reach_)
     else Returned 0.0%float) ;;
  impressions_ <-- number_of impressions ;;
  let reach_rate :=
    if 0 <? impressions_ then percentage reach_ impressions_ else 0.0%float in
  click_through_rate <--
    (if 0 <? impressions_
     then clicked <-- number_of clicks ;; Returned (percentage clicked impressions_)
     else Returned 0.0%float) ;;
  let performance_score :=
    Entry.get_default (RawPost.performance_score analytics) 0.0%float in
  performance_score <--
    match performance_score with
    | Some score =>
        if PrimFloat.eqb score 0.0
        then
          comments_ <-- number_of comments ;;
          reactions_ <-- number_of reactions ;;
          shares_ <-- number_of shares ;;
          Returned (Some (_calculate_performance_score engagement_rate reach_rate
                            click_through_rate reactions_ comments_ shares_))
        else Returned (Some score)
    | None => Returned None
    end ;;
  Returned (Extracted.mk_metrics engagement_rate reach_rate click_through_rate
              reactions comments shares performance_score).

(** The loop of optimization.py:86-95: a post whose extraction raises is
    logged and skipped. *)
Fixpoint extract_all (posts_data : list RawPost.PostData)
  : list Extracted.ContentFeatures * list Extracted.PerformanceMetrics :=
  match posts_data with
  | [] => ([], [])
  | post_data :: rest =>
      let (features_list, performance_list) := extract_all rest in
      match _extract_content_features post_data with
      | Raised _ => (features_list, performance_list)
      | Returned features =>
          match _extract_performance_metrics post_data with
          | Raised _ => (features_list, performance_list)
          | Returned performance =>
              (features :: features_list, performance :: performance_list)
          end
      end
  end.

(** The records as the analysis of lines 100-113 reads them. No line
    reads the readability score or the content type of a sample, nor the
    counts or the performance score of its metrics, and the sentiment score
    is read at line 383 only: where one of these is None, any value stands
    for it. *)
Definition read_features (features : Extracted.ContentFeatures) : ContentFeatures :=
  mk_features (Extracted.posting_hour features) (Extracted.posting_weekday features)
    (Extracted.caption_length features) (Extracted.hashtag_count features)
    (Extracted.has_image features)
    (default 0.0%float (Extracted.sentiment_score features))
    (default 50.0%float (Extracted.readability_score features))
    (default "mixed"%string (Extracted.content_type features))
    (Extracted.regional_relevance_score features).

Definition read_metrics (performance : Extracted.PerformanceMetrics)
  : PerformanceMetrics :=
  mk_metrics (Extracted.engagement_rate performance) (Extracted.reach_rate performance)
    (Extracted.click_through_rate performance)
    (default 0 (Extracted.total_reactions performance))
    (default 0 (Extracted.comments performance))
    (default 0 (Extracted.shares performance))
    (default 0.0%float (Extracted.performance_score performance)).

Definition sentiment_is_None (features : Extracted.ContentFeatures) : bool :=
  match Extracted.sentiment_score features with
  | None => true
  | Some _ => false
  end.

(** The analysis proper, lines 100-115. The comparison of line 383,
    [min_sent <= feat.sentiment_score], is a [TypeError] on a sample whose
    sentiment score is None; it is made after the time analysis of line
    104 and the content analysis of line 105, and outside the [try]. *)
Definition analyze_samples (features_list : list Extracted.ContentFeatures)
    (performance_list : list Extracted.PerformanceMetrics) : result AnalysisOutcome :=
  let features := map read_features features_list in
  let performance := map read_metrics performance_list in
  match _analyze_posting_times features performance with
  | Raised e => Raised e
  | Returned _ =>
      if existsb sentiment_is_None
           (map fst (combine features_list performance_list))
      then Raised TypeError
      else analyze_samples features performance
  end.

(** optimization.py:72-115. *)
Definition analyze_content_performance (page_id : Z)
    (posts_data : list RawPost.PostData) : result AnalysisOutcome :=
  if (length posts_data <? 10)%nat
  then Returned (ErrorDict "Insufficient data for analysis (minimum 10 posts required)")
  else
    let (features_list, performance_list) := extract_all posts_data in
    if (length features_list <? 5)%nat
    then Returned (ErrorDict "Insufficient valid data for analysis")
    else analyze_samples features_list performance_list.

End Extraction.

End Raw.

(** * The performance predictor (optimization.py:510-685) *)

(** ** The estimators of scikit-learn *)

(** A fitted [LinearRegression]: the attributes [coef_] and [intercept_],
    which an estimator has once [fit] has succeeded and not before. *)
Record LinearFit : Type := mk_linear_fit {
  coef_ : list float;
  intercept_ : float
}.

(** A fitted [StandardScaler]: [mean_] and [scale_] per column. *)
Record ScalerFit : Type := mk_scaler_fit {
  mean_ : list float;
  scale_ : list float
}.

(** One entry of [self.model_performance]. *)
Record ModelPerformance : Type := mk_model_performance {
  accuracy : float;
  last_trained : option Z
}.

(** The state of a [ContentOptimizationEngine]; an estimator that has not
    been fitted is [None]. [scaler] is the fitted attributes [mean_] and
    [scale_] of the [StandardScaler], which [fit] drops before it validates
    its input; [n_features_in_] is the attribute of that name, which the
    scaler has from its first successful validation on and which nothing
    drops. *)
Record Engine : Type := mk_engine {
  engagement_model : option LinearFit;
  reach_model : option LinearFit;
  click_model : option LinearFit;
  scaler : option ScalerFit;
  n_features_in_ : option nat;
  engagement_performance : ModelPerformance;
  reach_performance : ModelPerformance;
  click_performance : ModelPerformance
}.

(** [ContentOptimizationEngine()] (optimization.py:49-70). *)
Definition new_engine : Engine :=
  {| engagement_model := None;
     reach_model := None;
     click_model := None;
     scaler := None;
     n_features_in_ := None;
     engagement_performance := {| accuracy := 0.0; last_trained := None |};
     reach_performance := {| accuracy := 0.0; last_trained := None |};
     click_performance := {| accuracy := 0.0; last_trained := None |} |}.

Inductive metric : Type := Engagement | Reach | Click.

Definition model_of (m : metric) (engine : Engine) : option LinearFit :=
  match m with
  | Engagement => engagement_model engine
  | Reach => reach_model engine
  | Click => click_model engine
  end.

Definition set_model (m : metric) (fit : option LinearFit) (engine : Engine) : Engine :=
  match m with
  | Engagement =>
      mk_engine fit (reach_model engine) (click_model engine) (scaler engine)
        (n_features_in_ engine)
        (engagement_performance engine) (reach_performance engine)
        (click_performance engine)
  | Reach =>
      mk_engine (engagement_model engine) fit (click_model engine) (scaler engine)
        (n_features_in_ engine)
        (engagement_performance engine) (reach_performance engine)
        (click_performance engine)
  | Click =>
      mk_engine (engagement_model engine) (reach_model engine) fit (scaler engine)
        (n_features_in_ engine)
        (engagement_performance engine) (reach_performance engine)
        (click_performance engine)
  end.

Definition set_scaler (fit : option ScalerFit) (engine : Engine) : Engine :=
  mk_engine (engagement_model engine) (reach_model engine) (click_model engine) fit
    (n_features_in_ engine)
    (engagement_performance engine) (reach_performance engine)
    (click_performance engine).

Definition set_n_features_in_ (n : option nat) (engine : Engine) : Engine :=
  mk_engine (engagement_model engine) (reach_model engine) (click_model engine)
    (scaler engine) n
    (engagement_performance engine) (reach_performance engine)
    (click_performance engine).

Definition set_performance (e r c : ModelPerformance) (engine : Engine) : Engine :=
  mk_engine (engagement_model engine) (reach_model engine) (click_model engine)
    (scaler engine) (n_features_in_ engine) e r c.

(** Computations on the engine: a result and the engine afterwards,
    also when the result is an exception. *)
Definition E (A : Type) : Type := Engine -> result A * Engine.

Definition E_ret {A : Type} (a : A) : E A := fun engine => (Returned a, engine).

Definition E_bind {A B : Type} (m : E A) (k : A -> E B) : E B :=
  fun engine => match m engine with
                | (Returned a, engine') => k a engine'
                | (Raised e, engine') => (Raised e, engine')
                end.

Definition E_lift {A : Type} (r : result A) : E A := fun engine => (r, engine).

Notation "x <== m ;; k" := (E_bind m (fun x => k))
  (at level 100, m at next level, right associativity).

Definition is_inf (x : float) : bool := PrimFloat.is_infinity x.
Definition finite (x : float) : bool := PrimFloat.is_finite x.
Definition all_finite (xs : list float) : bool := forallb finite xs.
Definition no_inf (xs : list float) : bool := forallb (fun x => negb (is_inf x)) xs.

Definition dot (a b : list float) : float :=
  fold_left PrimFloat.add (map (fun ab => (fst ab * snd ab)%float) (combine a b)) 0%float.

Section Sklearn.

(** The numerical work of the two fits is left open: a least-squares
    solution for each training set, and the column statistics of a matrix.
    What is modelled of each estimator is its input validation, when its
    attributes are set, and how the fitted attributes are applied. *)
Variable lstsq : list (list float) -> list float -> LinearFit.
Variable column_statistics : list (list float) -> ScalerFit.

(** [(row - mean_) / scale_]. *)
Definition scale_row (fit : ScalerFit) (row : list float) : list float :=
  map (fun xms => ((fst (fst xms) - snd (fst xms)) / snd xms)%float)
      (combine (combine row (mean_ fit)) (scale_ fit)).

(** The number of columns of a matrix that has a row. *)
Definition columns (X : list (list float)) : nat := length (hd [] X).

(** The scaler after a successful [fit] on [X]. *)
Definition fitted_scaler (X : list (list float)) (engine : Engine) : Engine :=
  set_n_features_in_ (Some (columns X)) (set_scaler (Some (column_statistics X)) engine).

(** [self.scaler.fit_transform(X)]. [fit] first drops the fitted
    attributes [mean_] and [scale_], then validates [X] (NaN is let
    through, an infinity or an empty array is a [ValueError]), then records
    the number of columns and sets the fitted attributes anew. A refused
    [X] leaves [n_features_in_] as it was. *)
Definition scaler_fit_transform (X : list (list float)) : E (list (list float)) :=
  fun engine =>
    if match X with [] => false | _ => true end && forallb no_inf X
    then let fit := column_statistics X in
         (Returned (map (scale_row fit) X), fitted_scaler X engine)
    else (Raised ValueError, set_scaler None engine).

(** [self.scaler.transform(X)]. [check_is_fitted] raises [NotFittedError]
    on a scaler with no attribute whose name ends in an underscore: one
    never fitted. A scaler whose last [fit] was refused after an earlier
    one had succeeded still has [n_features_in_] and passes that check;
    [X] is validated, and then [X -= self.mean_] is an [AttributeError]. *)
Definition scaler_transform (X : list (list float)) : E (list (list float)) :=
  fun engine =>
    match scaler engine with
    | None =>
        match n_features_in_ engine with
        | None => (Raised NotFittedError, engine)
        | Some _ =>
            if forallb no_inf X
            then (Raised AttributeError, engine)
            else (Raised ValueError, engine)
        end
    | Some fit =>
        if forallb no_inf X
        then (Returned (map (scale_row fit) X), engine)
        else (Raised ValueError, engine)
    end.

(** [model.fit(X, y)]: the inputs are validated (finite, non-empty, as
    many targets as rows) before any attribute is set. *)
Definition model_fit (m : metric) (X : list (list float)) (y : list float)
  : E LinearFit :=
  fun engine =>
    if match X with [] => false | _ => true end
       && forallb all_finite X && all_finite y && (length X =? length y)%nat
    then let fit := lstsq X y in (Returned fit, set_model m (Some fit) engine)
    else (Raised ValueError, engine).

(** [model.predict(X)] on a fitted model. *)
Definition model_predict (fit : LinearFit) (X : list (list float)) : result (list float) :=
  if forallb all_finite X
  then Returned (map (fun row => (dot row (coef_ fit) + intercept_ fit)%float) X)
  else Raised ValueError.

(** [mean_squared_error(y_true, y_pred)]. *)
Definition mean_squared_error (y_true y_pred : list float) : result float :=
  if (length y_true =? length y_pred)%nat
     && match y_true with [] => false | _ => true end
     && all_finite y_true && all_finite y_pred
  then Returned (fold_left PrimFloat.add
                   (map (fun tp => ((fst tp - snd tp) * (fst tp - snd tp))%float)
                        (combine y_true y_pred)) 0
                 / float_of_nat (length y_true))%float
  else Raised ValueError.

End Sklearn.

(** ** Training and prediction *)

(** The text under the key [error] of a returned dict. *)
Inductive error_message : Type :=
| NeedMoreData
    (* "Need at least 20 data points for training" *)
| ExceptionMessage (e : exception).
    (* str(e) *)

(** The dict [train_predictive_models] returns; a key that is not set is
    [None]. *)
Record TrainingReport : Type := mk_training_report {
  engagement_mse : option float;
  reach_mse : option float;
  clicks_mse : option float;
  training_error : option error_message
}.

(** The dict [predict_content_performance] returns. *)
Module Predictions.
Record t : Type := mk {
  engagement_rate : option number;
  reach_rate : option number;
  click_through_rate : option number;
  overall_score : option number;
  error : option error_message
}.
Definition empty : t := mk None None None None None.
End Predictions.

(** optimization.py:581-599, one row. *)
Definition feature_vector (feat : ContentFeatures) : list float :=
  [ (float_of_Z (posting_hour feat) / 24.0)%float;
    (float_of_Z (posting_weekday feat) / 6.0)%float;
    py_min_float (float_of_Z (caption_length feat) / 300.0)%float 1.0;
    py_min_float (float_of_Z (hashtag_count feat) / 10.0)%float 1.0;
    if has_image feat then 1.0%float else 0.0%float;
    ((sentiment_score feat + 1.0) / 2.0)%float;
    (readability_score feat / 100.0)%float;
    regional_relevance_score feat ].

Definition _features_to_array (features : list ContentFeatures) : list (list float) :=
  map feature_vector features.

(** [1.0 / (1.0 + mse)]. *)
Definition accuracy_of (mse : float) : float := (1.0 / (1.0 + mse))%float.

(** [int(n * 0.8)] (line 533). *)
Definition split_index (n : nat) : nat :=
  Z.to_nat (int_of_float (float_of_nat n * 0.8)).

Section Predictor.
Variable lstsq : list (list float) -> list float -> LinearFit.
Variable column_statistics : list (list float) -> ScalerFit.

(** Lines 545-548 for one model: fit, predict the validation rows with the
    model just fitted, score them. *)
Definition fit_and_score (m : metric) (X_train : list (list float)) (y_train : list float)
    (X_val : list (list float)) (y_val : list float) : E float :=
  fit <== model_fit lstsq m X_train y_train ;;
  pred <== E_lift (model_predict fit X_val) ;;
  E_lift (mean_squared_error y_val pred).

(** optimization.py:510-579; [now] is the reading of the clock at line 563.
    An exception of lines 545-573 is caught at line 575: the dict filled
    so far is returned with the key [error] added. *)
Definition train_predictive_models (now : Z) (features_data : list ContentFeatures)
    (performance_data : list PerformanceMetrics) : E TrainingReport :=
  if (length features_data <? 20)%nat
  then E_ret (mk_training_report None None None (Some NeedMoreData))
  else
    let X := _features_to_array features_data in
    let y_engagement := map engagement_rate performance_data in
    let y_reach := map reach_rate performance_data in
    let y_clicks := map click_through_rate performance_data in
    X_scaled <== scaler_fit_transform column_statistics X ;;
    let split_idx := split_index (length X_scaled) in
    let X_train := firstn split_idx X_scaled in
    let X_val := skipn split_idx X_scaled in
    fun engine =>
      match fit_and_score Engagement X_train (firstn split_idx y_engagement)
              X_val (skipn split_idx y_engagement) engine with
      | (Raised e, engine) =>
          (Returned (mk_training_report None None None (Some (ExceptionMessage e))),
           engine)
      | (Returned engagement_mse, engine) =>
          match fit_and_score Reach X_train (firstn split_idx y_reach)
                  X_val (skipn split_idx y_reach) engine with
          | (Raised e, engine) =>
              (Returned (mk_training_report (Some engagement_mse) None None
                           (Some (ExceptionMessage e))), engine)
          | (Returned reach_mse, engine) =>
              match fit_and_score Click X_train (firstn split_idx y_clicks)
                      X_val (skipn split_idx y_clicks) engine with
              | (Raised e, engine) =>
                  (Returned (mk_training_report (Some engagement_mse) (Some reach_mse)
                               None (Some (ExceptionMessage e))), engine)
              | (Returned clicks_mse, engine) =>
                  (Returned (mk_training_report (Some engagement_mse) (Some reach_mse)
                               (Some clicks_mse) None),
                   set_performance
                     {| accuracy := accuracy_of engagement_mse; last_trained := Some now |}
                     {| accuracy := accuracy_of reach_mse; last_trained := Some now |}
                     {| accuracy := accuracy_of clicks_mse; last_trained := Some now |}
                     engine)
              end
          end
      end.

(** [max(0, model.predict(X_scaled)[0])] when the model has [coef_]. *)
Definition predict_metric (model : option LinearFit) (X_scaled : list (list float))
  : result (option number) :=
  match model with
  | None => Returned None
  | Some fit =>
      match model_predict fit X_scaled with
      | Raised e => Raised e
      | Returned [] => Raised IndexError
      | Returned (p :: _) =>
          Returned (Some (if PrimFloat.ltb 0 p then NpFloat64 p else PyInt 0))
      end
  end.

(** [min(1.0, a)]: 1.0 unless [a] is smaller. *)
Definition min_one (a : number) : number :=
  if PrimFloat.ltb (value a) 1.0 then a else PyFloat 1.0.

(** Lines 621-623 on the values set so far. *)
Definition overall_of (values : list number) : result (option number) :=
  match values with
  | [] => Returned None
  | _ =>
      match num_truediv (fold_left num_add values (PyInt 0))
                        (PyInt (Z.of_nat (length values))) with
      | Raised e => Raised e
      | Returned avg_performance =>
          match num_truediv avg_performance (PyFloat 10.0) with
          | Raised e => Raised e
          | Returned normalized => Returned (Some (min_one normalized))
          end
      end
  end.

Definition present (o : option number) : list number :=
  match o with Some a => [a] | None => [] end.

(** optimization.py:601-629. The scaler is applied at line 606, before
    the [try] of line 610. *)
Definition predict_content_performance (features : ContentFeatures) : E Predictions.t :=
  let X := _features_to_array [features] in
  X_scaled <== scaler_transform X ;;
  fun engine =>
    let failed (p : Predictions.t) (e : exception) :=
      (Returned (Predictions.mk (Predictions.engagement_rate p) (Predictions.reach_rate p)
                   (Predictions.click_through_rate p) (Predictions.overall_score p)
                   (Some (ExceptionMessage e))), engine) in
    match predict_metric (engagement_model engine) X_scaled with
    | Raised e => failed Predictions.empty e
    | Returned er =>
        let p1 := Predictions.mk er None None None None in
        match predict_metric (reach_model engine) X_scaled with
        | Raised e => failed p1 e
        | Returned rr =>
            let p2 := Predictions.mk er rr None None None in
            match predict_metric (click_model engine) X_scaled with
            | Raised e => failed p2 e
            | Returned ctr =>
                let p3 := Predictions.mk er rr ctr None None in
                match overall_of (present er ++ present rr ++ present ctr) with
                | Raised e => failed p3 e
                | Returned overall =>
                    (Returned (Predictions.mk er rr ctr overall None), engine)
                end
            end
        end
    end.

End Predictor.

(** ** What-if suggestions (optimization.py:631-685) *)

(** The keyword argument of one call of [_replace]. *)
Inductive field_update : Type :=
| set_posting_hour (h : Z)
| set_caption_length (n : Z)
| set_has_image (b : bool)
| set_hashtag_count (n : Z)
| set_sentiment_score (x : float).

(** A copy of the record with the one field changed. *)
Definition with_field (features : ContentFeatures) (u : field_update) : ContentFeatures :=
  match u with
  | set_posting_hour h =>
      mk_features h (posting_weekday features) (caption_length features)
        (hashtag_count features) (has_image features) (sentiment_score features)
        (readability_score features) (content_type features)
        (regional_relevance_score features)
  | set_caption_length n =>
      mk_features (posting_hour features) (posting_weekday features) n
        (hashtag_count features) (has_image features) (sentiment_score features)
        (readability_score features) (content_type features)
        (regional_relevance_score features)
  | set_has_image b =>
      mk_features (posting_hour features) (posting_weekday features)
        (caption_length features) (hashtag_count features) b (sentiment_score features)
        (readability_score features) (content_type features)
        (regional_relevance_score features)
  | set_hashtag_count n =>
      mk_features (posting_hour features) (posting_weekday features)
        (caption_length features) n (has_image features) (sentiment_score features)
        (readability_score features) (content_type features)
        (regional_relevance_score features)
  | set_sentiment_score x =>
      mk_features (posting_hour features) (posting_weekday features)
        (caption_length features) (hashtag_count features) (has_image features) x
        (readability_score features) (content_type features)
        (regional_relevance_score features)
  end.

(** The attributes of an instance of the [@dataclass] [ContentFeatures]
    (optimization.py:22-33): its nine fields and the methods the decorator
    writes. [_replace] is a method of named tuples. *)
Definition ContentFeatures_attributes : list string :=
  [ "posting_hour"; "posting_weekday"; "caption_length"; "hashtag_count"; "has_image";
    "sentiment_score"; "readability_score"; "content_type"; "regional_relevance_score";
    "__init__"; "__repr__"; "__eq__" ]%string.

(** [features._replace(field=value)]: the attribute is looked up first. *)
Definition _replace (features : ContentFeatures) (u : field_update)
  : result ContentFeatures :=
  if existsb (String.eqb "_replace") ContentFeatures_attributes
  then Returned (with_field features u)
  else Raised AttributeError.

(** One entry of the returned list. *)
Record Suggestion : Type := mk_suggestion {
  suggestion : string;
  improvement : number;      (* formatted as f"{improvement * 100:.1f}%" *)
  suggestion_confidence : number;
  predicted_score : number
}.

(** The variations of lines 645-666, in order. *)
Definition variations : list (field_update * string) :=
  [ (set_posting_hour 9, "Post at 9 AM");
    (set_posting_hour 12, "Post at 12 PM");
    (set_posting_hour 18, "Post at 6 PM");
    (set_caption_length 150, "Optimize caption to 150 characters");
    (set_caption_length 200, "Optimize caption to 200 characters");
    (set_has_image true, "Add image to post");
    (set_has_image false, "Remove image from post");
    (set_hashtag_count 3, "Use 3 hashtags");
    (set_hashtag_count 5, "Use 5 hashtags");
    (set_sentiment_score 0.8, "Make content more positive");
    (set_sentiment_score (-0.2), "Use more neutral tone") ]%string.

(** The list display of lines 645-666: each element is built in turn. *)
Fixpoint build_test_features (features : ContentFeatures)
    (vs : list (field_update * string)) : result (list (ContentFeatures * string)) :=
  match vs with
  | [] => Returned []
  | (u, description) :: rest =>
      match _replace features u with
      | Raised e => Raised e
      | Returned test_feature =>
          match build_test_features features rest with
          | Raised e => Raised e
          | Returned l => Returned ((test_feature, description) :: l)
          end
      end
  end.

Section Suggestions.

(** The sort key of line 683: the percentage as printed with one decimal,
    read back as a float. *)
Variable printed_percentage : number -> float.

Definition score_of (p : Predictions.t) : number :=
  default (PyFloat 0.5) (Predictions.overall_score p).

(** The loop of lines 668-680. *)
Fixpoint evaluate_variations (current_score target_improvement : number)
    (test_features : list (ContentFeatures * string)) : E (list Suggestion) :=
  match test_features with
  | [] => E_ret []
  | (test_feature, description) :: rest =>
      predicted_performance <== predict_content_performance test_feature ;;
      let predicted_score := score_of predicted_performance in
      improvement <==
        (if num_gt current_score (PyInt 0)
         then E_lift (num_truediv (num_sub predicted_score current_score) current_score)
         else E_ret (PyInt 0)) ;;
      if PrimFloat.leb (value target_improvement) (value improvement)
      then
        ratio <== E_lift (num_truediv improvement target_improvement) ;;
        suggestions <== evaluate_variations current_score target_improvement rest ;;
        E_ret ({| suggestion := description;
                  improvement := improvement;
                  suggestion_confidence := min_one ratio;
                  predicted_score := predicted_score |} :: suggestions)
      else evaluate_variations current_score target_improvement rest
  end.

(** [suggestions.sort(key=..., reverse=True)]: stable, greatest first. *)
Fixpoint insert_suggestion (x : Suggestion) (l : list Suggestion) : list Suggestion :=
  match l with
  | [] => [x]
  | y :: l' =>
      if PrimFloat.ltb (printed_percentage (improvement x))
                       (printed_percentage (improvement y))
      then y :: insert_suggestion x l'
      else x :: y :: l'
  end.

Definition get_content_optimization_suggestions (features : ContentFeatures)
    (target_improvement : number) : E (list Suggestion) :=
  current_prediction <== predict_content_performance features ;;
  let current_score := score_of current_prediction in
  test_features <== E_lift (build_test_features features variations) ;;
  suggestions <== evaluate_variations current_score target_improvement test_features ;;
  E_ret (firstn 5 (fold_right insert_suggestion [] suggestions)).

End Suggestions.

(** * The callers of the two services (routes/) *)

(** ** The analysis of ORM rows (routes/analytics.py:504-515) *)

(** [get_content_performance_analysis] fills [posts_data] with dicts whose
    three values are rows of the ORM classes [ContentGeneration],
    [ScheduledPost] and [PostAnalytics], and not dicts. These are the
    attributes of such rows (models.py:164-256): the mapped columns, the
    relationships, the hybrid properties and what [DeclarativeBase] adds.
    [get] is a method of dicts. *)
Definition ScheduledPost_attributes : list string :=
  [ "id"; "scheduled_time"; "actual_posted_time"; "status"; "facebook_post_id";
    "post_url"; "error_message"; "retry_count"; "max_retries"; "posting_priority";
    "is_optimal_time"; "user_id"; "facebook_page_id"; "content_generation_id";
    "created_at"; "updated_at"; "user"; "facebook_page"; "content_generation";
    "analytics"; "metadata"; "registry" ]%string.

Definition PostAnalytics_attributes : list string :=
  [ "id"; "impressions"; "reach"; "engaged_users"; "clicks"; "likes"; "comments";
    "shares"; "reactions_love"; "reactions_wow"; "reactions_haha"; "reactions_sad";
    "reactions_angry"; "engagement_rate"; "click_through_rate"; "cost_per_engagement";
    "performance_score"; "relative_performance"; "last_updated";
    "data_collection_errors"; "facebook_page_id"; "scheduled_post_id"; "created_at";
    "facebook_page"; "scheduled_post"; "total_reactions"; "total_engagement";
    "metadata"; "registry" ]%string.

(** optimization.py:117-162 on such an entry: the first use of the value
    under [scheduled_post] is [scheduled_post.get("actual_posted_time")]
    (line 125), an attribute lookup on the row. The fields of the row are
    those of the record [Post.PostData]. *)
Definition _extract_content_features_of_rows (post_data : Post.PostData)
  : result ContentFeatures :=
  if existsb (String.eqb "get") ScheduledPost_attributes
  then _extract_content_features post_data
  else Raised AttributeError.

(** optimization.py:164-201 on such an entry: [analytics.get("impressions", 0)]
    (line 170) comes first. *)
Definition _extract_performance_metrics_of_rows (post_data : Post.PostData)
  : result PerformanceMetrics :=
  if existsb (String.eqb "get") PostAnalytics_attributes
  then _extract_performance_metrics post_data
  else Raised AttributeError.

(** The call of routes/analytics.py:515. *)
Definition analyze_rows (page_id : Z) (posts_data : list Post.PostData)
  : result AnalysisOutcome :=
  analyze_content_performance Post.PostData _extract_content_features_of_rows
    _extract_performance_metrics_of_rows page_id posts_data.

(** ** The optimisation endpoint (routes/content.py:386-409) *)

(** The fields of the [ContentGeneration] row that [optimize_content]
    reads; a nullable column is an [option], [content_type] is the value
    of the enum. *)
Module ContentItem.
Record t : Type := mk {
  generated_caption : option string;
  generated_hashtags : option (list string);
  generated_image_url : option string;
  sentiment_score : option float;
  readability_score : option float;
  content_type : string
}.
End ContentItem.

(** [x or d] on an optional float: [None] and zero are both falsy. *)
Definition py_or_float (x : option float) (d : float) : float :=
  match x with
  | Some v => if PrimFloat.eqb v 0 then d else v
  | None => d
  end.

(** routes/content.py:391-401. *)
Definition features_of_content_item (content_item : ContentItem.t) : ContentFeatures :=
  {| posting_hour := 12;
     posting_weekday := 1;
     caption_length :=
       Z.of_nat (String.length
                   (default ""%string (ContentItem.generated_caption content_item)));
     hashtag_count :=
       Z.of_nat (length (default [] (ContentItem.generated_hashtags content_item)));
     has_image :=
       match ContentItem.generated_image_url content_item with
       | Some (String _ _) => true
       | Some EmptyString | None => false
       end;
     sentiment_score := py_or_float (ContentItem.sentiment_score content_item) 0.0;
     readability_score := py_or_float (ContentItem.readability_score content_item) 50.0;
     content_type := ContentItem.content_type content_item;
     regional_relevance_score := 0.5 |}.

Section OptimizeContent.

Variable printed_percentage : number -> float.

(** routes/content.py:386-409, from the construction of the engine to the
    two calls on it: the suggestions and the predictions the response is
    built from. The engine is made anew for the request (line 387). *)
Definition optimize_content (content_item : ContentItem.t) (target_improvement : number)
  : result (list Suggestion * Predictions.t) :=
  let optimizer := new_engine in
  let features := features_of_content_item content_item in
  fst ((suggestions <==
          get_content_optimization_suggestions printed_percentage features
            target_improvement ;;
        predictions <== predict_content_performance features ;;
        E_ret (suggestions, predictions)) optimizer).

End OptimizeContent.

(** ** The scheduling endpoint (routes/content.py:310-334) *)

Section ScheduleContent.

Variable regional_timezones : RegionEnum -> DstTzInfo.
Variable entropy : nat -> Z.

(** The time [schedule_content] stores with the post: the [schedule_time]
    of the request if there is one, and else the next slot of the page,
    computed from the times [existing_times] of its scheduled and posted
    entries, its [posting_frequency_hours] and its [optimal_posting_times]. *)
Definition schedule_time_of (now : Z) (schedule_time : option datetime)
    (region : RegionEnum) (existing_times : list datetime)
    (posting_frequency_hours : Z) (page_optimal_posting_times : option (list Z))
  : M datetime :=
  match schedule_time with
  | Some t => ret t
  | None =>
      calculate_next_posting_slot regional_timezones entropy now region existing_times
        posting_frequency_hours page_optimal_posting_times
  end.

End ScheduleContent.

(** * The vocabulary of the statements *)

(** ** The scheduler *)

(** The hour list line 62 selects. *)
Definition selected_hours (tz : DstTzInfo) (region : RegionEnum) (target : datetime)
    (page_preferences : option (list Z)) : list Z :=
  let local_date := astimezone tz target in
  let key := if 5 <=? weekday local_date then weekend_key else weekday_key in
  py_or page_preferences (optimal_posting_times region key).

(** An hour [replace] accepts. *)
Definition valid_hour (h : Z) : bool := (0 <=? h) && (h <=? 23).

(** The number of instants of the schedule whose own [date()] is [day]. *)
Definition posts_on_date (day : Z) (schedule : list datetime) : Z :=
  Z.of_nat (length (filter (fun t => date t =? day) schedule)).

(** The number of instants of the schedule that fall on [day] of the
    calendar of the zone [tz]. *)
Definition posts_on_local_date (tz : DstTzInfo) (day : Z) (schedule : list datetime) : Z :=
  Z.of_nat (length (filter (fun t => date (astimezone tz t) =? day) schedule)).

(** ** The analysis *)

(** The means the analysis stores: a numpy [float64], or the integer 0 of
    an empty bucket. *)
Definition analysis_number (a : number) : Prop :=
  a = PyInt 0 \/ exists x, a = NpFloat64 x.

(** The image recommendation of lines 466-472 with the percentage [x]. *)
Definition visual_content_recommendation (x : float) : Recommendation :=
  {| type := "visual_content";
     priority := "high";
     recommendation := AlwaysIncludeImages;
     expected_improvement := PercentIncrease (NpFloat64 x);
     confidence := 0.9 |}.

(** Every sample has a weekday that [weekday_names] can be indexed with. *)
Definition valid_weekdays (features : list ContentFeatures) : Prop :=
  Forall (fun feat => 0 <= posting_weekday feat < 7) features.

(** A post published at [t] with the given caption, with or without an
    image, that reached [reach] users of which [engaged] engaged. *)
Definition sample_post (t : datetime) (caption : string) (image : bool)
    (reach engaged : Z) : Post.PostData :=
  Post.mk_post
    (Post.mk_scheduled_post (Some t) None)
    (Post.mk_content_generation (Some caption)
       (if image then Some "https://cdn.example/img.png"%string else None)
       (Some 0.5%float) (Some 60.0%float) (Some "image"%string))
    (Post.mk_analytics (Some (2 * reach)) (Some reach) (Some engaged) (Some 1)
       (Some engaged) (Some 0) (Some 0) None None).

(** Ten posts: five with an image and an engagement rate of 2 percent,
    five without an image and without any engaged user. *)
Definition ten_posts : list Post.PostData :=
  [ sample_post (utc 2024 6 3 9 0) "Morning #news" true 100 2;
    sample_post (utc 2024 6 3 12 0) "Lunch" false 100 0;
    sample_post (utc 2024 6 4 9 0) "Tea time in the UK #tea" true 100 2;
    sample_post (utc 2024 6 4 12 0) "Plain" false 100 0;
    sample_post (utc 2024 6 5 9 0) "Dollar day #usa #deal" true 100 2;
    sample_post (utc 2024 6 5 12 0) "Plain" false 100 0;
    sample_post (utc 2024 6 6 9 0) "Photo" true 100 2;
    sample_post (utc 2024 6 6 12 0) "Plain" false 100 0;
    sample_post (utc 2024 6 7 9 0) "Photo" true 100 2;
    sample_post (utc 2024 6 7 12 0) "Plain" false 100 0 ]%string.

(** ** The predictor *)

Section TrainingOutcomes.
Variable lstsq : list (list float) -> list float -> LinearFit.
Variable column_statistics : list (list float) -> ScalerFit.

(** The scaled matrix, the split and the three fits of one training call. *)
Definition scaled_matrix (features_data : list ContentFeatures) : list (list float) :=
  let X := _features_to_array features_data in
  map (scale_row (column_statistics X)) X.

Definition fit_for (features_data : list ContentFeatures) (y : list float) : LinearFit :=
  let X_scaled := scaled_matrix features_data in
  let split_idx := split_index (length X_scaled) in
  lstsq (firstn split_idx X_scaled) (firstn split_idx y).

Definition training_targets (m : metric) (performance_data : list PerformanceMetrics)
  : list float :=
  match m with
  | Engagement => map engagement_rate performance_data
  | Reach => map reach_rate performance_data
  | Click => map click_through_rate performance_data
  end.

(** The engine after the scaler and the models up to [m] were replaced. *)
Definition refitted_scaler (features_data : list ContentFeatures) (engine : Engine) : Engine :=
  fitted_scaler column_statistics (_features_to_array features_data) engine.

Definition refitted (m : metric) (features_data : list ContentFeatures)
    (performance_data : list PerformanceMetrics) (engine : Engine) : Engine :=
  let model m := Some (fit_for features_data (training_targets m performance_data)) in
  let e0 := refitted_scaler features_data engine in
  let e1 := set_model Engagement (model Engagement) e0 in
  let e2 := set_model Reach (model Reach) e1 in
  match m with
  | Engagement => e1
  | Reach => e2
  | Click => set_model Click (model Click) e2
  end.

(** The training targets up to the split hold neither NaN nor infinity. *)
Definition finite_targets (m : metric) (features_data : list ContentFeatures)
    (performance_data : list PerformanceMetrics) : Prop :=
  all_finite (firstn (split_index (length (scaled_matrix features_data)))
                     (training_targets m performance_data)) = true.

End TrainingOutcomes.

(** Twenty samples, the first of them with a reach rate that is NaN. *)
Definition twenty_features : list ContentFeatures :=
  repeat (mk_features 12 1 120 3 true 0.5 60.0 "image" 0.5) 20.

Definition twenty_outcomes : list PerformanceMetrics :=
  mk_metrics 2.0 nan 1.0 10 2 1 0.5
  :: repeat (mk_metrics 2.0 50.0 1.0 10 2 1 0.5) 19.

(** What the atomicity of training is about: the three models and the
    scaler of an engine. *)
Definition models_and_scaler (engine : Engine)
  : option LinearFit * option LinearFit * option LinearFit * option ScalerFit :=
  (engagement_model engine, reach_model engine, click_model engine, scaler engine).

(** ** The other functions of the scheduler *)

(** What lines 216-223 make of the slot [s] when the clock reads [now]: a
    time after [now], which is [s] moved by at most 30 minutes with its
    tzinfo kept, or else a UTC time 5 to 15 minutes after [now]. *)
Definition varied_from (now : Z) (s t : datetime) : Prop :=
  now < instant t
  /\ ((Z.abs (instant t - instant s) <= 30 * MINUTE /\ utcoffset t = utcoffset s)
      \/ (now + 5 * MINUTE <= instant t <= now + 15 * MINUTE /\ utcoffset t = 0)).

(** What lines 333-349 make of the slot [s], for the zone [tz] of the
    region and the hours [top]: a slot already at one of the hours [top] is
    kept as it is; any other becomes a UTC time that, on the wall clock of
    the UTC offset [s] has in [tz], shows the date of [s] and the hour of
    [top] nearest to the hour of [s]. *)
Definition optimized_from (tz : DstTzInfo) (top : list Z) (s t : datetime) : Prop :=
  let local_time := astimezone tz s in
  let shown := {| instant := instant t; utcoffset := utcoffset local_time |} in
  date shown = date local_time
  /\ In (hour shown) top
  /\ Forall (fun h => Z.abs (hour shown - hour local_time) <= Z.abs (h - hour local_time))
            top
  /\ (t = s \/ (~ In (hour local_time) top /\ utcoffset t = 0)).

(** Two slots at least [min_interval_hours] (2) hours apart. *)
Definition apart (a b : datetime) : Prop :=
  min_interval_hours * HOUR <= Z.abs (instant a - instant b).

(** A wall clock at least [margin] away from both ends of the range of
    [datetime]. *)
Definition clear_of_ends (margin : Z) (wall_clock : Z) : bool :=
  in_datetime_range (wall_clock - margin) && in_datetime_range (wall_clock + margin).

(** Every UTC offset of the zone is one a [tzinfo] may give: strictly
    between -24 and 24 hours. *)
Definition offsets_in_range (tz : DstTzInfo) : bool :=
  forallb (fun offset => (- DAY <? offset) && (offset <? DAY))
          (first_offset tz :: map snd (transitions tz)).

(** The number of slots of the schedule at or before [deadline]. *)
Definition posts_until (deadline : Z) (schedule : list datetime) : Z :=
  Z.of_nat (length (filter (fun t => instant t <=? deadline) schedule)).

(** ** The buckets of the analysis *)

(** The number of posts the buckets of one analysis dict hold together. *)
Definition bucket_total {K : Type} (d : list (K * bucket)) : nat :=
  list_sum (map (fun kb => post_count (snd kb)) d).

(** The samples of [zip(features, performance)] whose features satisfy
    [p]: how many they are, and their engagement rates in order. *)
Definition samples_where (p : ContentFeatures -> bool)
    (features : list ContentFeatures) (performance : list PerformanceMetrics) : nat :=
  length (filter (fun fp => p (fst fp)) (combine features performance)).

Definition rates_where (p : ContentFeatures -> bool)
    (features : list ContentFeatures) (performance : list PerformanceMetrics)
  : list float :=
  map (fun fp => engagement_rate (snd fp))
      (filter (fun fp => p (fst fp)) (combine features performance)).

(** The number of rates a [defaultdict(list)] holds under all its keys. *)
Definition rates_total {K : Type} (d : list (K * list float)) : nat :=
  list_sum (map (fun kr => length (snd kr)) d).

(** [d.get(k, [])] on such a dict. *)
Fixpoint rates_of {K : Type} (eqb : K -> K -> bool) (k : K) (d : list (K * list float))
  : list float :=
  match d with
  | [] => []
  | (k', vs) :: d' => if eqb k k' then vs else rates_of eqb k d'
  end.

(** The feature record is given some key, or the key [k], by [key_of]. *)
Definition has_key {K : Type} (key_of : ContentFeatures -> option K)
    (feat : ContentFeatures) : bool :=
  match key_of feat with Some _ => true | None => false end.

Definition keyed {K : Type} (eqb : K -> K -> bool) (key_of : ContentFeatures -> option K)
    (k : K) (feat : ContentFeatures) : bool :=
  match key_of feat with Some k' => eqb k k' | None => false end.

(** The samples of the bucket analysis of [ten_posts]. *)
Definition ten_samples : list ContentFeatures * list PerformanceMetrics :=
  extract_all Post.PostData _extract_content_features _extract_performance_metrics
    ten_posts.

(** The types of the recommendations, in the order lines 429-506 append
    them. *)
Definition recommendation_types : list string :=
  ["posting_time"; "content_length"; "visual_content"; "hashtags"; "content_tone"]%string.

(** ** The predictions *)

(** A predicted metric as [max(0, prediction)] leaves it (lines 612-618):
    the integer 0, or a numpy float greater than 0; never negative and
    never NaN. *)
Definition clipped (a : number) : Prop :=
  a = PyInt 0 \/ exists x, a = NpFloat64 x /\ PrimFloat.ltb 0 x = true.

(** The metrics a returned dict holds. *)
Definition predicted_metrics (p : Predictions.t) : list number :=
  present (Predictions.engagement_rate p) ++ present (Predictions.reach_rate p)
  ++ present (Predictions.click_through_rate p).

(** Some model of the engine has been fitted. *)
Definition some_model_fitted (engine : Engine) : Prop :=
  is_Some (engagement_model engine) \/ is_Some (reach_model engine)
  \/ is_Some (click_model engine).

(** Numerical routines that do no work, to run the engine on. *)
Definition no_lstsq (X : list (list float)) (y : list float) : LinearFit :=
  {| coef_ := []; intercept_ := 0 |}.

Definition no_statistics (X : list (list float)) : ScalerFit :=
  {| mean_ := []; scale_ := [] |}.

(** Twenty samples with finite outcomes. *)
Definition twenty_finite_outcomes : list PerformanceMetrics :=
  repeat (mk_metrics 2.0 50.0 1.0 10 2 1 0.5) 20.

(** ** The integers of the records *)

(** An int as an [Integer] column, [len] or a field of a datetime gives
    it. Such an int converts to a float exactly, so that on two of them
    [a / b] is the division of the two floats and never an
    [OverflowError]. *)
Definition int32 (z : Z) : bool := (- 2 ^ 31 <=? z) && (z <? 2 ^ 31).

(** The four int fields of a feature record are such ints. *)
Definition int32_features (feat : ContentFeatures) : bool :=
  int32 (posting_hour feat) && int32 (posting_weekday feat)
  && int32 (caption_length feat) && int32 (hashtag_count feat).

(** The counts that the dict [analytics] of a post holds are such ints. *)
Definition int32_counts (post_data : Post.PostData) : bool :=
  let analytics := Post.analytics post_data in
  forallb (fun count => match count with Some z => int32 z | None => true end)
    [Post.impressions analytics; Post.reach analytics; Post.engaged_users analytics;
     Post.clicks analytics; Post.likes analytics; Post.comments analytics;
     Post.shares analytics; Post.total_reactions analytics].

(** The fitted estimators of the engine were fitted on matrices of the
    eight columns of [_features_to_array], as every fit of
    [train_predictive_models] is. *)
Definition eight_columns (engine : Engine) : bool :=
  forallb (fun model => match model with
                        | Some fit => (length (coef_ fit) =? 8)%nat
                        | None => true
                        end)
    [engagement_model engine; reach_model engine; click_model engine]
  && match scaler engine with
     | Some fit => (length (mean_ fit) =? 8)%nat && (length (scale_ fit) =? 8)%nat
     | None => true
     end.

(** An engine whose scaler and reach model are fitted, the other two
    models not. *)
Definition reach_fitted_engine : Engine :=
  set_model Reach (Some {| coef_ := repeat 0%float 8; intercept_ := 1%float |})
    (set_n_features_in_ (Some 8%nat)
       (set_scaler (Some {| mean_ := repeat 0%float 8; scale_ := repeat 1%float 8 |})
          new_engine)).

(** ** Posts and what their keys hold *)

(** The key holds a value, or is missing. *)
Definition holds_value {A : Type} (e : Entry.t A) : bool :=
  match e with
  | Entry.Null => false
  | Entry.Missing | Entry.Value _ => true
  end.

(** The inner dict is there, or missing, and passes the check (the empty
    dict passes as it has no key). *)
Definition inner {A : Type} (e : Entry.t A) (empty : A) (check : A -> bool) : bool :=
  match e with
  | Entry.Null => false
  | Entry.Missing => check empty
  | Entry.Value d => check d
  end.

(** No key of the post holds None. *)
Definition no_None (post_data : RawPost.PostData) : bool :=
  inner (RawPost.scheduled_post post_data) RawPost.no_scheduled_post
    (fun scheduled_post =>
       holds_value (RawPost.actual_posted_time scheduled_post)
       && holds_value (RawPost.scheduled_time scheduled_post))
  && inner (RawPost.content_generation post_data) RawPost.no_content_generation
       (fun content_gen =>
          holds_value (RawPost.generated_caption content_gen)
          && holds_value (RawPost.generated_image_url content_gen)
          && holds_value (RawPost.sentiment_score content_gen)
          && holds_value (RawPost.readability_score content_gen)
          && holds_value (RawPost.content_type content_gen))
  && inner (RawPost.analytics post_data) RawPost.no_analytics
       (fun analytics =>
          holds_value (RawPost.impressions analytics)
          && holds_value (RawPost.reach analytics)
          && holds_value (RawPost.engaged_users analytics)
          && holds_value (RawPost.clicks analytics)
          && holds_value (RawPost.likes analytics)
          && holds_value (RawPost.comments analytics)
          && holds_value (RawPost.shares analytics)
          && holds_value (RawPost.total_reactions analytics)
          && holds_value (RawPost.performance_score analytics)).

(** The time stamp that dates the post, if it is text, is text that
    [fromisoformat] reads. *)
Definition dated (fromisoformat : string -> option datetime)
    (post_data : RawPost.PostData) : bool :=
  inner (RawPost.scheduled_post post_data) RawPost.no_scheduled_post
    (fun scheduled_post =>
       match Raw.posted_time fromisoformat scheduled_post with
       | Returned _ => true
       | Raised _ => false
       end).

(** The counts of the post are ints of an [Integer] column. *)
Definition int32_entries (post_data : RawPost.PostData) : bool :=
  inner (RawPost.analytics post_data) RawPost.no_analytics
    (fun analytics =>
       forallb (fun count => match count with
                             | Entry.Value z => int32 z
                             | Entry.Missing | Entry.Null => true
                             end)
         [RawPost.impressions analytics; RawPost.reach analytics;
          RawPost.engaged_users analytics; RawPost.clicks analytics;
          RawPost.likes analytics; RawPost.comments analytics;
          RawPost.shares analytics; RawPost.total_reactions analytics]).

(** The ranges of the fields of a feature record. *)
Definition fields_in_range (features : Extracted.ContentFeatures) : Prop :=
  0 <= Extracted.posting_hour features <= 23
  /\ 0 <= Extracted.posting_weekday features <= 6
  /\ 0 <= Extracted.hashtag_count features <= Extracted.caption_length features
  /\ PrimFloat.leb 0 (Extracted.regional_relevance_score features) = true
  /\ PrimFloat.leb (Extracted.regional_relevance_score features) 1 = true.

(** A dict whose keys all hold values, as a post: a key that is [None]
    in the record is missing. *)
Definition entry_of {A : Type} (o : option A) : Entry.t A :=
  match o with
  | Some a => Entry.Value a
  | None => Entry.Missing
  end.

Definition raw_post (post_data : Post.PostData) : RawPost.PostData :=
  let scheduled_post := Post.scheduled_post post_data in
  let content_gen := Post.content_generation post_data in
  let analytics := Post.analytics post_data in
  RawPost.mk_post
    (Entry.Value
       (RawPost.mk_scheduled_post
          (entry_of (option_map RawPost.Datetime (Post.actual_posted_time scheduled_post)))
          (entry_of (option_map RawPost.Datetime (Post.scheduled_time scheduled_post)))))
    (Entry.Value
       (RawPost.mk_content_generation
          (entry_of (Post.generated_caption content_gen))
          (entry_of (Post.generated_image_url content_gen))
          (entry_of (Post.sentiment_score content_gen))
          (entry_of (Post.readability_score content_gen))
          (entry_of (Post.content_type content_gen))))
    (Entry.Value
       (RawPost.mk_analytics
          (entry_of (Post.impressions analytics)) (entry_of (Post.reach analytics))
          (entry_of (Post.engaged_users analytics)) (entry_of (Post.clicks analytics))
          (entry_of (Post.likes analytics)) (entry_of (Post.comments analytics))
          (entry_of (Post.shares analytics)) (entry_of (Post.total_reactions analytics))
          (entry_of (Post.performance_score analytics)))).

(** The post with the key [generated_caption] set to None, as the
    nullable column gives it for content without a caption. *)
Definition without_caption (post_data : RawPost.PostData) : RawPost.PostData :=
  let content_gen :=
    match RawPost.content_generation post_data with
    | Entry.Value content_gen => content_gen
    | Entry.Missing | Entry.Null => RawPost.no_content_generation
    end in
  RawPost.mk_post (RawPost.scheduled_post post_data)
    (Entry.Value
       (RawPost.mk_content_generation Entry.Null
          (RawPost.generated_image_url content_gen)
          (RawPost.sentiment_score content_gen)
          (RawPost.readability_score content_gen)
          (RawPost.content_type content_gen)))
    (RawPost.analytics post_data).

(** The ten posts, the last four of them without a caption. *)
Definition six_captions : list RawPost.PostData :=
  map raw_post (firstn 6 ten_posts)
  ++ map (fun post_data => without_caption (raw_post post_data)) (skipn 6 ten_posts).

(** The post with the key [sentiment_score] set to None. *)
Definition without_sentiment (post_data : RawPost.PostData) : RawPost.PostData :=
  let content_gen :=
    match RawPost.content_generation post_data with
    | Entry.Value content_gen => content_gen
    | Entry.Missing | Entry.Null => RawPost.no_content_generation
    end in
  RawPost.mk_post (RawPost.scheduled_post post_data)
    (Entry.Value
       (RawPost.mk_content_generation
          (RawPost.generated_caption content_gen)
          (RawPost.generated_image_url content_gen)
          Entry.Null
          (RawPost.readability_score content_gen)
          (RawPost.content_type content_gen)))
    (RawPost.analytics post_data).

(** A [fromisoformat] that reads no text. *)
Definition reads_nothing (text : string) : option datetime := None.

(** ** Proof automation for comparisons of floats *)

(** Rewriting of the integer comparisons that the context decides. *)
Ltac zcmp :=
  repeat match goal with
         | |- context [(?a ?= ?b)%Z] =>
             first [ rewrite (proj2 (Z.compare_lt_iff a b)) by lia
                   | rewrite (proj2 (Z.compare_gt_iff a b)) by lia
                   | rewrite (proj2 (Z.compare_eq_iff a b)) by lia ]
         end.

(** The two comparisons of the mantissa [m] with [c] are opposite. *)
Ltac pcmp m c :=
  change (PosDef.Pos.compare_cont Eq) with Pos.compare;
  rewrite ?(Pos.compare_antisym m c);
  destruct (Pos.compare m c); reflexivity.

(** * Properties *)

(** ** The calendar *)

Example days_from_civil_epoch : days_from_civil 1970 1 1 = 0.
Proof. reflexivity. Qed.

Example weekday_2024_03_10 : weekday (utc 2024 3 10 12 0) = 6.
Proof. reflexivity. Qed.

Example new_york_spring_forward :
  hour (astimezone America_New_York (utc 2024 3 10 6 59)) = 1 /\
  hour (astimezone America_New_York (utc 2024 3 10 7 0)) = 3.
Proof. split; reflexivity. Qed.

(** ** Sorting *)

Section SortedByFacts.
Context {A : Type} (key : A -> Z).

Lemma insert_by_In (x y : A) (l : list A) :
  In y (insert_by key x l) <-> y = x \/ In y l.
Proof.
  induction l as [|z l IH]; simpl.
  - intuition.
  - destruct (key x <=? key z); simpl; rewrite ?IH; intuition.
Qed.

Lemma sorted_by_In (y : A) (l : list A) :
  In y (sorted_by key l) <-> In y l.
Proof.
  induction l as [|x l IH]; simpl; [tauto|].
  rewrite insert_by_In, IH. intuition.
Qed.

Lemma insert_by_length (x : A) (l : list A) :
  length (insert_by key x l) = S (length l).
Proof.
  induction l as [|z l IH]; simpl; [reflexivity|].
  destruct (key x <=? key z); simpl; congruence.
Qed.

Lemma sorted_by_length (l : list A) : length (sorted_by key l) = length l.
Proof.
  induction l as [|x l IH]; simpl; [reflexivity|].
  rewrite insert_by_length. congruence.
Qed.

Lemma insert_by_ascending (x : A) (l : list A) :
  ascending key l -> ascending key (insert_by key x l).
Proof.
  induction l as [|z l IH]; simpl; intros Hl.
  - split; [constructor | exact I].
  - destruct Hl as [Hz Hl].
    destruct (Z.leb_spec (key x) (key z)) as [Hle|Hgt]; simpl.
    + repeat split; trivial.
      constructor; [exact Hle|].
      eapply Forall_impl; [|exact Hz]. simpl. intros a Ha. lia.
    + split; [|auto].
      apply Forall_forall. intros a Ha.
      apply insert_by_In in Ha. destruct Ha as [->|Ha]; [lia|].
      rewrite Forall_forall in Hz. auto.
Qed.

Lemma sorted_by_ascending (l : list A) : ascending key (sorted_by key l).
Proof.
  induction l as [|x l IH]; simpl; [exact I|].
  apply insert_by_ascending, IH.
Qed.

End SortedByFacts.

(** ** The posting frequency *)

(** C9. For every follower count, quality score and optional engagement
    history, [calculate_posting_frequency] is the design document's rule:
    base 6; the follower tier (above 100k: 4, else above 50k: 5, else below
    1k: 8); then the quality step (above 0.8: max(2, f-1), below 0.5:
    min(12, f+2)); then, when a history is given, the step of its mean
    (above 5.0: max(3, f-1), below 1.0: min(12, f+2)); applied in that
    order, each clamp with its own step. *)
Theorem calculate_posting_frequency_spec
    (page_followers : Z) (content_quality_score : float)
    (engagement_history : option (list (string * float))) :
  calculate_posting_frequency page_followers content_quality_score engagement_history
  = FrequencySpec.recommendedFrequencyHours page_followers content_quality_score
      engagement_history.
Proof.
  unfold calculate_posting_frequency, FrequencySpec.recommendedFrequencyHours,
    FrequencySpec.history_step, FrequencySpec.quality_step,
    FrequencySpec.follower_tier.
  destruct engagement_history as [[|item items]|]; reflexivity.
Qed.

(** The recommended frequency is always between 2 and 12 hours. *)
Lemma calculate_posting_frequency_range
    (page_followers : Z) (content_quality_score : float)
    (engagement_history : option (list (string * float))) :
  2 <= calculate_posting_frequency page_followers content_quality_score engagement_history
    <= 12.
Proof.
  unfold calculate_posting_frequency.
  destruct engagement_history as [[|item items]|];
    repeat match goal with
           | |- context [if ?c then _ else _] => destruct c
           end; lia.
Qed.

Example frequency_large_page_good_content :
  calculate_posting_frequency 200000 0.875
    (Some [("mon"%string, 6.0%float); ("tue"%string, 7.5%float)]) = 3.
Proof. vm_compute. reflexivity. Qed.

Example frequency_small_page_poor_content :
  calculate_posting_frequency 500 0.25 (Some [("mon"%string, 0.5%float)]) = 12.
Proof. vm_compute. reflexivity. Qed.

Example frequency_empty_history :
  calculate_posting_frequency 60000 0.75 (Some []) = 5.
Proof. vm_compute. reflexivity. Qed.

(** ** The validator reads its input and nothing else *)

Lemma validate_leaves_schedule (tz : RegionEnum -> DstTzInfo) (now : Z)
    (region : RegionEnum) (proposed_schedule : list datetime) :
  snd (validate_posting_schedule tz now region proposed_schedule) = proposed_schedule.
Proof. reflexivity. Qed.

(** C6. For every region and proposed schedule, and one reading [now] of
    the clock, two calls of [validate_posting_schedule] in a row return the
    same report, and the list object passed in holds, after each call, the
    elements it held before, in the same order. *)
Theorem validate_posting_schedule_pure (tz : RegionEnum -> DstTzInfo) (now : Z)
    (region : RegionEnum) (proposed_schedule : list datetime) :
  let (report1, after1) := validate_posting_schedule tz now region proposed_schedule in
  let (report2, after2) := validate_posting_schedule tz now region after1 in
  report1 = report2 /\ after1 = proposed_schedule /\ after2 = proposed_schedule.
Proof.
  pose proof (validate_leaves_schedule tz now region proposed_schedule) as H1.
  destruct (validate_posting_schedule tz now region proposed_schedule)
    as [report1 after1] eqn:E1.
  simpl in H1. subst after1.
  rewrite E1. auto.
Qed.

(** ** The optimal times of a day are never computed *)

Lemma selected_hours_nonempty (tz : DstTzInfo) (region : RegionEnum) (target : datetime)
    (page_preferences : option (list Z)) :
  exists h rest, selected_hours tz region target page_preferences = h :: rest.
Proof.
  unfold selected_hours, py_or.
  destruct page_preferences as [[|h rest]|]; eauto;
    destruct region, (5 <=? weekday _); simpl; eauto.
Qed.

Section NeverComputed.
Variable regional_timezones : RegionEnum -> DstTzInfo.
Variable entropy : nat -> Z.

Lemma optimal_times_loop_raises (timezone : DstTzInfo) (local_date : datetime)
    (h : Z) (rest : list Z) (n : nat) :
  optimal_times_loop entropy timezone local_date (h :: rest) n
  = (if valid_hour h then Raised AttributeError else Raised ValueError, S n).
Proof.
  simpl. unfold bind at 1. unfold randint at 1.
  set (m := 0 + entropy n mod (59 - 0 + 1)).
  assert (Hm : (0 <=? m) && (m <=? 59) = true).
  { subst m. pose proof (Z.mod_pos_bound (entropy n) (59 - 0 + 1)).
    apply andb_true_iff. rewrite !Z.leb_le. lia. }
  unfold bind at 1. unfold lift at 1. unfold replace_time, valid_hour.
  rewrite <- andb_assoc, Hm, andb_true_r.
  destruct ((0 <=? h) && (h <=? 23)); reflexivity.
Qed.

Lemma get_optimal_posting_times_run (region : RegionEnum) (target_date : datetime)
    (page_preferences : option (list Z)) (n : nat) :
  get_optimal_posting_times regional_timezones entropy region target_date
    page_preferences n
  = (if valid_hour (hd 0 (selected_hours (regional_timezones region) region target_date
                            page_preferences))
     then Raised AttributeError else Raised ValueError, S n).
Proof.
  unfold get_optimal_posting_times.
  change (py_or page_preferences _)
    with (selected_hours (regional_timezones region) region target_date page_preferences).
  destruct (selected_hours_nonempty (regional_timezones region) region target_date
              page_preferences) as [h [rest ->]].
  unfold bind. rewrite optimal_times_loop_raises. simpl hd.
  destruct (valid_hour h); reflexivity.
Qed.

End NeverComputed.

(** C4 does not hold of the code: for every region, target date, list of
    preferred hours and random source, [get_optimal_posting_times] returns
    no list. Its first pass through the loop raises: [AttributeError] at
    line 75, where [timezone] is the pytz zone of line 54, or [ValueError]
    at line 67 when the first selected hour is outside 0..23. *)
Theorem get_optimal_posting_times_raises
    (regional_timezones : RegionEnum -> DstTzInfo) (entropy : nat -> Z)
    (region : RegionEnum) (target_date : datetime)
    (page_preferences : option (list Z)) (n : nat) :
  fst (get_optimal_posting_times regional_timezones entropy region target_date
         page_preferences n)
  = if valid_hour (hd 0 (selected_hours (regional_timezones region) region target_date
                           page_preferences))
    then Raised AttributeError else Raised ValueError.
Proof. rewrite get_optimal_posting_times_run. reflexivity. Qed.

Example get_optimal_posting_times_tuesday :
  get_optimal_posting_times tzdata (fun _ => 7) US (utc 2024 6 4 10 0) None 0%nat
  = (Raised AttributeError, 1%nat).
Proof. reflexivity. Qed.

(** For every list of existing posts, [calculate_next_posting_slot]
    returns no instant, from the search or from the fallback. Its first
    call of [get_optimal_posting_times], for today, raises, and the
    exception is not caught. *)
Lemma calculate_next_posting_slot_raises
    (regional_timezones : RegionEnum -> DstTzInfo) (entropy : nat -> Z)
    (now : Z) (region : RegionEnum) (existing_posts : list datetime)
    (preferred_frequency_hours : Z) (page_preferences : option (list Z)) (n : nat) :
  let now_utc := {| instant := now; utcoffset := 0 |} in
  fst (calculate_next_posting_slot regional_timezones entropy now region existing_posts
         preferred_frequency_hours page_preferences n)
  = if valid_hour (hd 0 (selected_hours (regional_timezones region) region
                           (plus now_utc (0 * DAY)) page_preferences))
    then Raised AttributeError else Raised ValueError.
Proof.
  cbn zeta. unfold calculate_next_posting_slot. unfold bind at 1.
  cbn [search_horizon]. unfold bind at 1.
  rewrite get_optimal_posting_times_run.
  destruct (valid_hour _); reflexivity.
Qed.

Example calculate_next_posting_slot_one_post :
  calculate_next_posting_slot tzdata (fun _ => 0) (instant (utc 2024 6 3 10 0)) UK
    [utc 2024 6 3 11 30] 6 None 0%nat
  = (Raised AttributeError, 1%nat).
Proof. reflexivity. Qed.

(** ** The candidates the slot search accepts *)

Lemma _is_slot_available_apart (proposed_time : datetime) (existing_posts : list datetime)
    (min_gap_hours : Z) :
  _is_slot_available proposed_time existing_posts min_gap_hours = true
  <-> Forall (fun existing_time =>
                min_gap_hours * HOUR
                <= Z.abs (instant proposed_time - instant existing_time))
             existing_posts.
Proof.
  unfold _is_slot_available. cbn zeta. rewrite forallb_forall, Forall_forall.
  split; intros H e He; specialize (H e He).
  - apply negb_true_iff, Z.ltb_ge in H. exact H.
  - apply negb_true_iff, Z.ltb_ge. exact H.
Qed.

Lemma first_free_slot_accepts (now_utc : datetime) (existing_posts optimal_times : list datetime)
    (slot : datetime) :
  first_free_slot now_utc existing_posts optimal_times = Some slot ->
  In slot optimal_times
  /\ instant now_utc < instant slot
  /\ Forall (fun existing_time =>
               2 * HOUR <= Z.abs (instant slot - instant existing_time))
            existing_posts.
Proof.
  induction optimal_times as [|optimal_time rest IH]; cbn [first_free_slot];
    [discriminate|].
  destruct (Z.leb_spec (instant optimal_time) (instant now_utc)) as [Hpast|Hafter].
  - intros Hrest. destruct (IH Hrest) as [Hin Hslot]. split; [right; exact Hin | exact Hslot].
  - destruct (_is_slot_available optimal_time existing_posts 2) eqn:Hfree.
    + intros [= <-]. split; [left; reflexivity|]. split; [exact Hafter|].
      apply _is_slot_available_apart. exact Hfree.
    + intros Hrest. destruct (IH Hrest) as [Hin Hslot].
      split; [right; exact Hin | exact Hslot].
Qed.



(** ** The daily limit of the validator *)

Lemma posts_on_date_nonneg (day : Z) (schedule : list datetime) :
  0 <= posts_on_date day schedule.
Proof. unfold posts_on_date. lia. Qed.

Lemma posts_on_date_cons (day : Z) (t : datetime) (schedule : list datetime) :
  posts_on_date day (t :: schedule)
  = (if date t =? day then 1 else 0) + posts_on_date day schedule.
Proof.
  unfold posts_on_date. simpl filter.
  destruct (date t =? day); simpl length; lia.
Qed.

Lemma daily_counts_lookup (schedule : list datetime) (counts : gmap Z Z) (day : Z) :
  fold_left count_day schedule counts !! day
  = if posts_on_date day schedule =? 0 then counts !! day
    else Some (default 0 (counts !! day) + posts_on_date day schedule).
Proof.
  revert counts. induction schedule as [|t schedule IH]; intros counts.
  - reflexivity.
  - simpl fold_left. rewrite IH, posts_on_date_cons. clear IH.
    pose proof (posts_on_date_nonneg day schedule) as Hnn.
    set (c := posts_on_date day schedule) in *.
    unfold count_day.
    destruct (Z.eqb_spec (date t) day) as [Heq|Hne].
    + rewrite Heq, lookup_insert_eq. simpl default.
      replace (1 + c =? 0) with false by (symmetry; apply Z.eqb_neq; lia).
      destruct (Z.eqb_spec c 0) as [Hz|Hz]; f_equal; lia.
    + rewrite lookup_insert_ne by exact Hne. reflexivity.
Qed.

Lemma over_limit_days_nonempty (schedule : list datetime) :
  filter (fun dc : Z * Z => bool_decide (max_daily_posts < snd dc))
         (map_to_list (fold_left count_day schedule (∅ : gmap Z Z))) <> []
  <-> exists day, max_daily_posts < posts_on_date day schedule.
Proof.
  set (counts := fold_left count_day schedule ∅).
  split.
  - intros Hne.
    destruct (filter _ (map_to_list counts)) as [|[day c] rest] eqn:Hf; [congruence|].
    assert (Hin : In (day, c) (filter (fun dc : Z * Z => bool_decide (max_daily_posts < snd dc))
                                 (map_to_list counts))) by (rewrite Hf; left; reflexivity).
    apply filter_In in Hin. destruct Hin as [Hin Hover].
    apply bool_decide_eq_true in Hover. simpl in Hover.
    apply list_elem_of_In, elem_of_map_to_list in Hin.
    subst counts. rewrite daily_counts_lookup, lookup_empty in Hin.
    exists day. destruct (posts_on_date day schedule =? 0); [discriminate|].
    simpl in Hin. injection Hin as <-. lia.
  - intros [day Hday] Hnil.
    assert (Hin : In (day, posts_on_date day schedule)
                     (filter (fun dc : Z * Z => bool_decide (max_daily_posts < snd dc))
                        (map_to_list counts))).
    { apply filter_In. split.
      - apply list_elem_of_In, elem_of_map_to_list.
        subst counts. rewrite daily_counts_lookup, lookup_empty.
        unfold max_daily_posts in Hday.
        replace (posts_on_date day schedule =? 0) with false
          by (symmetry; apply Z.eqb_neq; lia).
        simpl. reflexivity.
      - apply bool_decide_eq_true. exact Hday. }
    rewrite Hnil in Hin. exact Hin.
Qed.

Lemma interval_warnings_kind (min_interval : Z) (sorted_times : list datetime) (m : message) :
  In m (interval_warnings min_interval sorted_times) ->
  exists a b, m = TooCloseTogether a b.
Proof.
  induction sorted_times as [|a [|b rest] IH]; simpl; try tauto.
  intros Hin. apply in_app_or in Hin. destruct Hin as [Hin|Hin].
  - destruct (instant b - instant a <? min_interval); simpl in Hin; [|tauto].
    destruct Hin as [<-|[]]. eauto.
  - apply IH. exact Hin.
Qed.



(** ** The analysis never divides Python numbers by zero *)

Lemma bucket_of_analysis_number (rates : list float) :
  analysis_number (avg_engagement (bucket_of rates)).
Proof.
  destruct rates as [|r rates]; [left; reflexivity|].
  right. unfold bucket_of, np_mean. simpl. eauto.
Qed.

Lemma image_recommendation_returns (content : ContentAnalysis) :
  analysis_number (avg_engagement (with_image content)) ->
  analysis_number (avg_engagement (without_image content)) ->
  exists recommendations, image_recommendation content = Returned recommendations.
Proof.
  unfold image_recommendation.
  intros [Hw|[w Hw]] [Hwo|[wo Hwo]]; rewrite Hw, Hwo.
  - replace (num_gt (PyInt 0) (num_mul (PyInt 0) (PyFloat 1.2))) with false
      by (vm_compute; reflexivity).
    eauto.
  - destruct (num_gt _ _); simpl; eauto.
  - destruct (num_gt _ _); simpl; eauto.
  - destruct (num_gt _ _); simpl; eauto.
Qed.

Lemma _generate_optimization_recommendations_returns
    (times : TimeAnalysis) (features : list ContentFeatures)
    (performance : list PerformanceMetrics) (insights : EngagementInsights) :
  exists recommendations,
    _generate_optimization_recommendations times
      (_analyze_content_patterns features performance) insights
    = Returned recommendations.
Proof.
  unfold _generate_optimization_recommendations.
  destruct (image_recommendation_returns (_analyze_content_patterns features performance))
    as [image Himage]; try apply bucket_of_analysis_number.
  rewrite Himage. eauto.
Qed.

Lemma py_index_raises {A : Type} (l : list A) (i : Z) (e : exception) :
  py_index l i = Raised e -> e = IndexError.
Proof.
  unfold py_index.
  destruct (_ && _); [|congruence].
  destruct (nth_error _ _); congruence.
Qed.

Lemma weekday_buckets_raises (items : list (Z * list float))
    (acc : list (string * bucket)) (e : exception) :
  weekday_buckets items acc = Raised e -> e = IndexError.
Proof.
  revert acc. induction items as [|[weekday rates] items IH]; intros acc; simpl.
  - discriminate.
  - destruct (py_index weekday_names weekday) as [name|e'] eqn:Hidx.
    + apply IH.
    + intros [= <-]. eapply py_index_raises, Hidx.
Qed.

Lemma analyze_samples_outcome (features : list ContentFeatures)
    (performance : list PerformanceMetrics) :
  (exists report, analyze_samples features performance = Returned (Report report))
  \/ analyze_samples features performance = Raised IndexError.
Proof.
  unfold analyze_samples.
  destruct (_analyze_posting_times features performance) as [times|e] eqn:Htimes.
  - left.
    destruct (_generate_optimization_recommendations_returns times features performance
                (_analyze_engagement_patterns features performance)) as [recs Hrecs].
    rewrite Hrecs. eauto.
  - right. f_equal.
    unfold _analyze_posting_times in Htimes.
    destruct (weekday_buckets _ _) eqn:Hw; [discriminate|].
    injection Htimes as <-. eapply weekday_buckets_raises, Hw.
Qed.

(** For any extraction functions, no input makes the analysis raise
    [ZeroDivisionError]. *)
Lemma analyze_content_performance_no_zero_division (PostData : Type)
    (extract_features : PostData -> result ContentFeatures)
    (extract_metrics : PostData -> result PerformanceMetrics)
    (page_id : Z) (posts_data : list PostData) :
  analyze_content_performance PostData extract_features extract_metrics page_id posts_data
  <> Raised ZeroDivisionError.
Proof.
  unfold analyze_content_performance.
  destruct (length posts_data <? 10)%nat; [discriminate|].
  destruct (extract_all PostData extract_features extract_metrics posts_data)
    as [features performance].
  destruct (length features <? 5)%nat; [discriminate|].
  destruct (analyze_samples_outcome features performance) as [[report ->]| ->];
    discriminate.
Qed.

(** ** Too few posts, too few samples *)

Section RawAnalysis.
Variable fromisoformat : string -> option datetime.

Lemma raw_extract_all_lengths (posts_data : list RawPost.PostData) :
  let samples := Raw.extract_all fromisoformat posts_data in
  length (snd samples) = length (fst samples)
  /\ (length (fst samples) <= length posts_data)%nat.
Proof.
  induction posts_data as [|post_data rest IH]; cbn zeta; cbn [Raw.extract_all].
  - split; [reflexivity | apply Nat.le_refl].
  - destruct (Raw.extract_all fromisoformat rest) as [features performance].
    cbn zeta in IH. cbn [fst snd] in IH. destruct IH as [Hlen Hle].
    destruct (Raw._extract_content_features fromisoformat post_data) as [f|e];
      [|cbn [fst snd length]; split; [exact Hlen | lia]].
    destruct (Raw._extract_performance_metrics post_data) as [p|e];
      cbn [fst snd length]; split; lia.
Qed.

Lemma raw_analyze_samples_outcome (features_list : list Extracted.ContentFeatures)
    (performance_list : list Extracted.PerformanceMetrics) :
  match Raw.analyze_samples features_list performance_list with
  | Returned (Report report) => total_posts_analyzed report = length features_list
  | Returned (ErrorDict _) => False
  | Raised _ => True
  end.
Proof.
  unfold Raw.analyze_samples.
  destruct (_analyze_posting_times _ _) as [times|e] eqn:Htimes; [|exact I].
  destruct (existsb _ _); [exact I|].
  unfold analyze_samples. rewrite Htimes.
  destruct (_generate_optimization_recommendations _ _ _); [|exact I].
  cbn [total_posts_analyzed]. apply length_map.
Qed.

End RawAnalysis.

(** C8, as the code has it. [analyze_content_performance] returns the
    dict with the one key [error], and does not raise, for fewer than 10
    posts, and for 10 posts or more of which fewer than 5 give a sample
    (extraction of the others having failed and been skipped). The
    threshold on the samples themselves is 5, not 10: from 5 samples on,
    out of 10 posts or more, the analysis is run on the samples there are,
    and the call returns a report on them or raises, and never the
    insufficient-data dict. *)
Theorem analyze_content_performance_thresholds
    (fromisoformat : string -> option datetime)
    (page_id : Z) (posts_data : list RawPost.PostData) :
  let samples := Raw.extract_all fromisoformat posts_data in
  let outcome := Raw.analyze_content_performance fromisoformat page_id posts_data in
  (length (fst samples) <= length posts_data)%nat
  /\ ((length posts_data < 10)%nat ->
      outcome = Returned (ErrorDict
                            "Insufficient data for analysis (minimum 10 posts required)"))
  /\ ((10 <= length posts_data)%nat -> (length (fst samples) < 5)%nat ->
      outcome = Returned (ErrorDict "Insufficient valid data for analysis"))
  /\ ((10 <= length posts_data)%nat -> (5 <= length (fst samples))%nat ->
      match outcome with
      | Returned (Report report) => total_posts_analyzed report = length (fst samples)
      | Returned (ErrorDict _) => False
      | Raised _ => True
      end).
Proof.
  cbn zeta.
  destruct (raw_extract_all_lengths fromisoformat posts_data) as [_ Hle].
  cbn zeta in Hle. split; [exact Hle|].
  unfold Raw.analyze_content_performance.
  destruct (Raw.extract_all fromisoformat posts_data) as [features performance].
  cbn [fst snd] in *.
  split; [|split].
  - intros Hfew. apply Nat.ltb_lt in Hfew. rewrite Hfew. reflexivity.
  - intros Hmany Hfew. apply Nat.ltb_ge in Hmany. apply Nat.ltb_lt in Hfew.
    rewrite Hmany, Hfew. reflexivity.
  - intros Hmany Hsamples. apply Nat.ltb_ge in Hmany. apply Nat.ltb_ge in Hsamples.
    rewrite Hmany, Hsamples. apply raw_analyze_samples_outcome.
Qed.

(** C8 fails as it is worded. Ten posts, four of them with a caption
    that is None: the four are skipped at line 93 ([len(None)] at line
    134), six samples are left, fewer than 10, and the call returns a
    report on the six and not the insufficient-data dict. *)
Lemma analyze_content_performance_six_samples :
  length six_captions = 10%nat
  /\ length (fst (Raw.extract_all reads_nothing six_captions)) = 6%nat
  /\ Forall (fun post_data =>
               Raw._extract_content_features reads_nothing post_data = Raised TypeError)
            (skipn 6 six_captions)
  /\ exists report,
       Raw.analyze_content_performance reads_nothing 1 six_captions
       = Returned (Report report)
       /\ total_posts_analyzed report = 6%nat.
Proof.
  split; [reflexivity|]. split; [vm_compute; reflexivity|].
  split; [repeat constructor|].
  eexists. split; [vm_compute; reflexivity | reflexivity].
Qed.

(** ** Posts whose keys all hold values *)

Lemma get_default_entry_of {A : Type} (o : option A) (d : A) :
  Entry.get_default (entry_of o) d = Some (default d o).
Proof. destruct o; reflexivity. Qed.

Lemma get_entry_of {A : Type} (o : option A) : Entry.get (entry_of o) = o.
Proof. destruct o; reflexivity. Qed.

Section RawPosts.
Variable fromisoformat : string -> option datetime.

(** On a post whose keys, where they are there, hold values and datetimes,
    the extraction of this section is the one of [Post.PostData]. *)
Lemma raw_post_features (post_data : Post.PostData) :
  exists features,
    Raw._extract_content_features fromisoformat (raw_post post_data) = Returned features
    /\ _extract_content_features post_data = Returned (Raw.read_features features)
    /\ Raw.sentiment_is_None features = false.
Proof.
  destruct post_data as [[actual scheduled] [caption url sentiment readability ctype] an].
  unfold Raw._extract_content_features, _extract_content_features, raw_post.
  cbn [RawPost.scheduled_post RawPost.content_generation Raw.subdict Raw.and_then
       Post.scheduled_post Post.content_generation Post.actual_posted_time
       Post.scheduled_time Post.generated_caption Post.generated_image_url
       Post.sentiment_score Post.readability_score Post.content_type
       RawPost.generated_caption RawPost.generated_image_url RawPost.sentiment_score
       RawPost.readability_score RawPost.content_type].
  assert (Htime : Raw.posted_time fromisoformat
                    (RawPost.mk_scheduled_post
                       (entry_of (option_map RawPost.Datetime actual))
                       (entry_of (option_map RawPost.Datetime scheduled)))
                  = Returned match actual with Some t => Some t | None => scheduled end).
  { unfold Raw.posted_time, Raw.chosen_time.
    cbn [RawPost.actual_posted_time RawPost.scheduled_time].
    rewrite !get_entry_of. destruct actual as [t|]; [reflexivity|].
    destruct scheduled; reflexivity. }
  rewrite Htime. cbn [Raw.and_then].
  rewrite !get_default_entry_of, get_entry_of. cbn [Raw.number_of Raw.and_then].
  eexists. split; [reflexivity|]. split; reflexivity.
Qed.

Lemma raw_post_metrics (post_data : Post.PostData) :
  exists performance,
    Raw._extract_performance_metrics (raw_post post_data) = Returned performance
    /\ _extract_performance_metrics post_data = Returned (Raw.read_metrics performance).
Proof.
  destruct post_data as [sp cg [imp reach eng clicks likes com shares react score]].
  unfold Raw._extract_performance_metrics, _extract_performance_metrics, raw_post.
  cbn [RawPost.analytics Raw.subdict Raw.and_then Post.analytics
       Post.impressions Post.reach Post.engaged_users Post.clicks Post.likes
       Post.comments Post.shares Post.total_reactions Post.performance_score
       RawPost.impressions RawPost.reach RawPost.engaged_users RawPost.clicks
       RawPost.likes RawPost.comments RawPost.shares RawPost.total_reactions
       RawPost.performance_score].
  rewrite !get_default_entry_of. cbn [Raw.number_of Raw.and_then].
  assert (Hreact : match entry_of react with
                   | Entry.Value z => Some z
                   | Entry.Missing => Some (default 0 likes)
                   | Entry.Null => None
                   end = Some (default (default 0 likes) react))
    by (destruct react; reflexivity).
  rewrite Hreact.
  destruct (0 <? default 0 reach); cbn [Raw.number_of Raw.and_then];
    destruct (0 <? default 0 imp); cbn [Raw.number_of Raw.and_then];
    destruct (PrimFloat.eqb (default 0%float score) 0); cbn [Raw.number_of Raw.and_then];
    (eexists; split; [reflexivity|]); reflexivity.
Qed.

Lemma raw_post_extract_all (posts_data : list Post.PostData) :
  let samples := Raw.extract_all fromisoformat (map raw_post posts_data) in
  extract_all Post.PostData _extract_content_features _extract_performance_metrics
    posts_data
  = (map Raw.read_features (fst samples), map Raw.read_metrics (snd samples))
  /\ existsb Raw.sentiment_is_None (map fst (combine (fst samples) (snd samples)))
     = false.
Proof.
  induction posts_data as [|post_data rest IH]; cbn zeta; cbn [map Raw.extract_all extract_all].
  - split; reflexivity.
  - cbn zeta in IH. destruct IH as [-> Hnone].
    destruct (Raw.extract_all fromisoformat (map raw_post rest)) as [features performance].
    cbn [fst snd] in *.
    destruct (raw_post_features post_data) as [f [-> [-> Hf]]].
    destruct (raw_post_metrics post_data) as [p [-> ->]].
    cbn [fst snd map combine existsb]. rewrite Hf, Hnone. split; reflexivity.
Qed.

(** The analysis of this section, on such posts, is [analyze_posts]. *)
Lemma raw_post_analysis (page_id : Z) (posts_data : list Post.PostData) :
  Raw.analyze_content_performance fromisoformat page_id (map raw_post posts_data)
  = analyze_posts page_id posts_data.
Proof.
  unfold Raw.analyze_content_performance, analyze_posts, analyze_content_performance.
  rewrite length_map.
  destruct (length posts_data <? 10)%nat; [reflexivity|].
  destruct (raw_post_extract_all posts_data) as [-> Hnone]. cbn zeta in Hnone.
  destruct (Raw.extract_all fromisoformat (map raw_post posts_data))
    as [features performance].
  cbn [fst snd] in *. rewrite length_map.
  destruct (length features <? 5)%nat; [reflexivity|].
  unfold Raw.analyze_samples. rewrite Hnone.
  unfold analyze_samples.
  destruct (_analyze_posting_times _ _); reflexivity.
Qed.

End RawPosts.

(** ** The image recommendation when the mean without images is zero *)

(** With a zero mean without images and a positive mean with images, the
    test of line 465 passes and the quotient of line 470 is infinite. *)
Lemma zero_mean_lift (w wo : float) :
  PrimFloat.eqb wo 0 = true -> PrimFloat.ltb 0 w = true ->
  PrimFloat.ltb (wo * 1.2) w = true
  /\ PrimFloat.is_infinity ((w - wo) / wo * float_of_Z 100) = true.
Proof.
  intros Hwo Hw.
  rewrite eqb_spec in Hwo. rewrite ltb_spec in Hw.
  unfold PrimFloat.is_infinity.
  rewrite ltb_spec, eqb_spec, abs_spec, !mul_spec, div_spec, sub_spec.
  replace (Prim2SF 0) with (S754_zero false) in * by reflexivity.
  replace (Prim2SF 1.2) with (S754_finite false 5404319552844595 (-52)) by reflexivity.
  replace (Prim2SF (float_of_Z 100)) with (S754_finite false 7036874417766400 (-46))
    by reflexivity.
  replace (Prim2SF infinity) with (S754_infinity false) by reflexivity.
  destruct (Prim2SF wo) as [swo|swo| |swo mwo ewo];
    try (destruct swo); try (cbv in Hwo; discriminate);
  destruct (Prim2SF w) as [sw|sw| |sw mw ew];
    try (destruct sw); try (cbv in Hw; discriminate);
  split; reflexivity.
Qed.

Lemma image_recommendation_zero_mean (content : ContentAnalysis) :
  analysis_number (avg_engagement (with_image content)) ->
  analysis_number (avg_engagement (without_image content)) ->
  PrimFloat.eqb (value (avg_engagement (without_image content))) 0 = true ->
  PrimFloat.ltb 0 (value (avg_engagement (with_image content))) = true ->
  exists x,
    image_recommendation content = Returned [visual_content_recommendation x]
    /\ PrimFloat.is_infinity x = true.
Proof.
  unfold image_recommendation.
  intros [Hw|[w Hw]] Hwo Hzero Hpos; rewrite Hw in *.
  - vm_compute in Hpos. discriminate.
  - simpl in Hpos.
    destruct Hwo as [Hwo|[wo Hwo]]; rewrite Hwo in *.
    + destruct (zero_mean_lift w (float_of_Z 0) Hzero Hpos) as [Hgt Hinf].
      exists ((w - float_of_Z 0) / float_of_Z 0 * float_of_Z 100)%float.
      split; [|exact Hinf].
      unfold num_gt, num_mul, arith. simpl is_numpy. simpl orb. cbn [value].
      rewrite Hgt. reflexivity.
    + simpl in Hzero.
      destruct (zero_mean_lift w wo Hzero Hpos) as [Hgt Hinf].
      exists ((w - wo) / wo * float_of_Z 100)%float.
      split; [|exact Hinf].
      unfold num_gt, num_mul, arith. simpl is_numpy. simpl orb. cbn [value].
      rewrite Hgt. reflexivity.
Qed.

Lemma _generate_optimization_recommendations_image
    (times : TimeAnalysis) (content : ContentAnalysis) (insights : EngagementInsights)
    (image : list Recommendation) :
  image_recommendation content = Returned image ->
  exists recommendations,
    _generate_optimization_recommendations times content insights
    = Returned recommendations
    /\ forall r, In r image -> In r recommendations.
Proof.
  intros Himage. unfold _generate_optimization_recommendations. rewrite Himage.
  eexists. split; [reflexivity|].
  intros r Hr.
  destruct (best_hours times), (caption_length_analysis content),
    (hashtag_analysis content), (sentiment_impact insights);
    rewrite ?in_app_iff; auto 10.
Qed.

(** ** The analysis of dict-shaped posts always returns *)

Lemma dict_append_keys {K : Type} (eqb : K -> K -> bool) (k k' : K) (v : float)
    (d : list (K * list float)) (rates : list float) :
  In (k', rates) (dict_append eqb k v d) ->
  k' = k \/ exists rates', In (k', rates') d.
Proof.
  induction d as [|[k0 vs] d IH]; simpl.
  - intros [[= <- <-]|[]]. left. reflexivity.
  - destruct (eqb k k0).
    + intros [[= <- <-]|Hin]; right; eauto.
    + intros [[= <- <-]|Hin]; [right; eauto|].
      destruct (IH Hin) as [->|[rates' Hin']]; [left; reflexivity | right; eauto].
Qed.

Lemma group_rates_keys {K : Type} (eqb : K -> K -> bool)
    (key_of : ContentFeatures -> option K) (P : K -> Prop)
    (features : list ContentFeatures) (performance : list PerformanceMetrics) :
  Forall (fun feat => forall k, key_of feat = Some k -> P k) features ->
  Forall (fun kr => P (fst kr)) (group_rates eqb key_of features performance).
Proof.
  intros Hall. unfold group_rates.
  assert (Hpairs : Forall (fun fp => forall k, key_of (fst fp) = Some k -> P k)
                     (combine features performance)).
  { apply Forall_forall. intros [f p] Hin. apply in_combine_l in Hin.
    rewrite Forall_forall in Hall. apply Hall. exact Hin. }
  clear Hall.
  assert (Hacc : Forall (fun kr : K * list float => P (fst kr)) []) by constructor.
  revert Hacc. generalize (@nil (K * list float)) as acc.
  induction Hpairs as [|fp pairs Hfp Hpairs IH]; intros acc Hacc; simpl; [exact Hacc|].
  apply IH.
  destruct (key_of (fst fp)) as [k|] eqn:Hk; [|exact Hacc].
  apply Forall_forall. intros [k' rates] Hin.
  apply dict_append_keys in Hin. destruct Hin as [->|[rates' Hin]].
  - apply Hfp. reflexivity.
  - rewrite Forall_forall in Hacc. apply (Hacc (k', rates')). exact Hin.
Qed.

Lemma weekday_buckets_returns (items : list (Z * list float))
    (acc : list (string * bucket)) :
  Forall (fun kr => 0 <= fst kr < 7) items ->
  exists best_weekdays, weekday_buckets items acc = Returned best_weekdays.
Proof.
  intros Hall. revert acc.
  induction Hall as [|[weekday rates] items Hw Hall IH]; intros acc; simpl.
  - eauto.
  - simpl in Hw.
    assert (Hcases : weekday = 0 \/ weekday = 1 \/ weekday = 2 \/ weekday = 3
                     \/ weekday = 4 \/ weekday = 5 \/ weekday = 6) by lia.
    destruct Hcases as [->|[->|[->|[->|[->|[->| ->]]]]]]; simpl; apply IH.
Qed.

Lemma analyze_samples_returns (features : list ContentFeatures)
    (performance : list PerformanceMetrics) :
  valid_weekdays features ->
  exists times recommendations,
    _analyze_posting_times features performance = Returned times
    /\ _generate_optimization_recommendations times
         (_analyze_content_patterns features performance)
         (_analyze_engagement_patterns features performance) = Returned recommendations
    /\ analyze_samples features performance
       = Returned (Report {| total_posts_analyzed := length features;
                             time_analysis := times;
                             content_analysis :=
                               _analyze_content_patterns features performance;
                             engagement_insights :=
                               _analyze_engagement_patterns features performance;
                             optimization_recommendations := recommendations |}).
Proof.
  intros Hvalid. unfold analyze_samples, _analyze_posting_times.
  destruct (weekday_buckets_returns
              (group_rates Z.eqb (fun feat => Some (posting_weekday feat))
                 features performance) []) as [best Hbest].
  { apply (group_rates_keys Z.eqb _ (fun k => 0 <= k < 7)).
    eapply Forall_impl; [|exact Hvalid].
    simpl. intros feat Hf k [= <-]. exact Hf. }
  rewrite Hbest.
  match goal with
  | |- context [_generate_optimization_recommendations ?t ?c ?i] =>
      destruct (_generate_optimization_recommendations_returns t features performance i)
        as [recs Hrecs]
  end.
  do 2 eexists. split; [reflexivity|]. split; [exact Hrecs|].
  rewrite Hrecs. reflexivity.
Qed.

Lemma weekday_range (t : datetime) : 0 <= weekday t < 7.
Proof. unfold weekday. apply Z.mod_pos_bound. lia. Qed.

Lemma _extract_content_features_returns (post_data : Post.PostData) :
  exists features,
    _extract_content_features post_data = Returned features
    /\ 0 <= posting_weekday features < 7.
Proof.
  unfold _extract_content_features. eexists. split; [reflexivity|].
  cbn [posting_weekday].
  destruct (Post.actual_posted_time _) as [t|];
    [|destruct (Post.scheduled_time _) as [t|]];
    try apply weekday_range; lia.
Qed.

Lemma _extract_performance_metrics_returns (post_data : Post.PostData) :
  exists performance, _extract_performance_metrics post_data = Returned performance.
Proof. unfold _extract_performance_metrics. eauto. Qed.

(** Extraction from well-typed dicts never raises: every post gives a
    sample, with a weekday of 0..6. *)
Lemma extract_all_posts (posts_data : list Post.PostData) :
  let samples := extract_all Post.PostData _extract_content_features
                   _extract_performance_metrics posts_data in
  length (fst samples) = length posts_data /\ valid_weekdays (fst samples).
Proof.
  induction posts_data as [|post_data rest IH]; cbn zeta; cbn [extract_all].
  - split; [reflexivity | constructor].
  - destruct (extract_all Post.PostData _extract_content_features
                _extract_performance_metrics rest) as [features performance].
    cbn zeta in IH. cbn [fst] in IH. destruct IH as [Hlen Hvalid].
    destruct (_extract_content_features_returns post_data) as [f [-> Hf]].
    destruct (_extract_performance_metrics_returns post_data) as [p ->].
    cbn [fst length]. split; [congruence | constructor; assumption].
Qed.

(** C10, as the code has it. For every input of at least 10 dict-shaped
    posts in which the mean engagement of the samples without an image is
    0 (as it is when each of them has an engagement rate of 0) and the mean
    of the samples with an image is positive, the quotient of line 470 is
    taken unguarded, on a numpy [float64]: it is an infinity, no exception
    is raised, and the analysis returns a report whose image recommendation
    carries that infinite percentage. *)
Theorem analyze_posts_zero_mean_without_image (page_id : Z)
    (posts_data : list Post.PostData) :
  let samples := extract_all Post.PostData _extract_content_features
                   _extract_performance_metrics posts_data in
  let content := _analyze_content_patterns (fst samples) (snd samples) in
  (10 <= length posts_data)%nat ->
  PrimFloat.eqb (value (avg_engagement (without_image content))) 0 = true ->
  PrimFloat.ltb 0 (value (avg_engagement (with_image content))) = true ->
  exists report x,
    analyze_posts page_id posts_data = Returned (Report report)
    /\ In (visual_content_recommendation x) (optimization_recommendations report)
    /\ PrimFloat.is_infinity x = true.
Proof.
  intros samples content Hten Hzero Hpos.
  destruct (extract_all_posts posts_data) as [Hlen Hvalid]. fold samples in Hlen, Hvalid.
  unfold analyze_posts, analyze_content_performance.
  replace (length posts_data <? 10)%nat with false
    by (symmetry; apply Nat.ltb_ge; exact Hten).
  fold samples. destruct samples as [features performance] eqn:Hsamples.
  simpl in Hlen, Hvalid, content.
  replace (length features <? 5)%nat with false
    by (symmetry; apply Nat.ltb_ge; lia).
  destruct (image_recommendation_zero_mean content) as [x [Himage Hinf]];
    try apply bucket_of_analysis_number; trivial.
  destruct (analyze_samples_returns features performance Hvalid)
    as [times [recs [Htimes [Hrecs Hrun]]]].
  destruct (_generate_optimization_recommendations_image times content
              (_analyze_engagement_patterns features performance) _ Himage)
    as [recs' [Hrecs' Hin]].
  fold content in Hrecs. rewrite Hrecs in Hrecs'. injection Hrecs' as <-.
  eexists. exists x. split; [exact Hrun|]. split; [|exact Hinf].
  cbn [optimization_recommendations]. apply Hin. left. reflexivity.
Qed.

Lemma analyze_posts_zero_mean_without_image_witness :
  exists report x,
    analyze_posts 1 ten_posts = Returned (Report report)
    /\ In (visual_content_recommendation x) (optimization_recommendations report)
    /\ PrimFloat.is_infinity x = true.
Proof.
  apply (analyze_posts_zero_mean_without_image 1 ten_posts);
    [simpl; lia | vm_compute; reflexivity | vm_compute; reflexivity].
Defined.

(** C10 fails as it is worded. Ten posts, the five without an image
    with no engaged user and so an engagement rate of 0, the five with an
    image at 2 percent: the analysis returns a report, and its image
    recommendation reads [inf% increase in engagement]. And no input at all
    makes the analysis raise [ZeroDivisionError]. *)
Lemma analyze_posts_zero_division_counterexample :
  (length ten_posts = 10%nat
   /\ (let samples := extract_all Post.PostData _extract_content_features
                        _extract_performance_metrics ten_posts in
       image_rates false (fst samples) (snd samples) = [0; 0; 0; 0; 0]%float
       /\ avg_engagement (bucket_of (image_rates true (fst samples) (snd samples)))
          = NpFloat64 2)
   /\ exists report,
        analyze_posts 1 ten_posts = Returned (Report report)
        /\ In (visual_content_recommendation infinity)
              (optimization_recommendations report))
  /\ ~ (exists page_id posts_data,
          analyze_posts page_id posts_data = Raised ZeroDivisionError).
Proof.
  split.
  - split; [reflexivity|]. split; [split; vm_compute; reflexivity|].
    eexists. split; [vm_compute; reflexivity|].
    cbn [optimization_recommendations]. do 2 right. left. vm_compute. reflexivity.
  - intros [page_id [posts_data Hraise]].
    exact (analyze_content_performance_no_zero_division _ _ _ _ _ Hraise).
Qed.

(** ** Prediction before any training *)

(** C3 does not hold of the code: on an engine as constructed, for every
    feature record, [predict_content_performance] raises [NotFittedError]
    at line 606, outside the [try], and returns no dict at all. *)
Theorem predict_content_performance_untrained_raises (features : ContentFeatures) :
  predict_content_performance features new_engine = (Raised NotFittedError, new_engine).
Proof. reflexivity. Qed.

(** Once the scaler is fitted and no model is, the dict returned is empty:
    no metric, no overall score, no error. *)
Lemma predict_content_performance_scaler_only (features : ContentFeatures)
    (engine : Engine) (fit : ScalerFit) :
  scaler engine = Some fit ->
  engagement_model engine = None -> reach_model engine = None ->
  click_model engine = None ->
  fst (predict_content_performance features engine) = Returned Predictions.empty
  \/ fst (predict_content_performance features engine) = Raised ValueError.
Proof.
  intros Hs He Hr Hc. unfold predict_content_performance, E_bind, scaler_transform.
  rewrite Hs. destruct (forallb no_inf _); [|right; reflexivity].
  rewrite He, Hr, Hc. left. reflexivity.
Qed.

(** ** The what-if search never returns *)

Lemma build_test_features_raises (features : ContentFeatures) :
  build_test_features features variations = Raised AttributeError.
Proof. reflexivity. Qed.

(** C5 does not hold of the code: for every engine, feature record and
    target, [get_content_optimization_suggestions] raises. When the
    current prediction is returned, the first [features._replace(...)] of
    line 647 raises [AttributeError]; otherwise the exception of the
    prediction propagates. No list of suggestions is ever returned. *)
Theorem get_content_optimization_suggestions_raises
    (printed_percentage : number -> float) (features : ContentFeatures)
    (target_improvement : number) (engine : Engine) :
  let outcome :=
    fst (get_content_optimization_suggestions printed_percentage features
           target_improvement engine) in
  match fst (predict_content_performance features engine) with
  | Returned _ => outcome = Raised AttributeError
  | Raised e => outcome = Raised e
  end.
Proof.
  unfold get_content_optimization_suggestions, E_bind.
  destruct (predict_content_performance features engine) as [[p|e] engine'];
    reflexivity.
Qed.

(** ** What a training call leaves behind *)

Section Training.
Variable lstsq : list (list float) -> list float -> LinearFit.
Variable column_statistics : list (list float) -> ScalerFit.

(** One model's stage ends in one of three ways: the model is replaced and
    scored; the fit is refused and the model is as it was; or the model is
    replaced and the scoring of the validation rows raises. *)
Lemma fit_and_score_cases (m : metric) (X_train : list (list float)) (y_train : list float)
    (X_val : list (list float)) (y_val : list float) (engine : Engine) :
  let run := fit_and_score lstsq m X_train y_train X_val y_val engine in
  let fitted := set_model m (Some (lstsq X_train y_train)) engine in
  (exists mse, run = (Returned mse, fitted) /\ all_finite y_train = true)
  \/ (exists e, run = (Raised e, engine))
  \/ (exists e, run = (Raised e, fitted) /\ all_finite y_train = true).
Proof.
  unfold fit_and_score, E_bind, model_fit, E_lift.
  destruct (match X_train with [] => false | _ => true end);
    [|right; left; eexists; reflexivity].
  destruct (forallb all_finite X_train); [|right; left; eexists; reflexivity].
  destruct (all_finite y_train); [|right; left; eexists; reflexivity].
  destruct (length X_train =? length y_train)%nat;
    [|right; left; eexists; reflexivity].
  simpl.
  destruct (model_predict _ X_val) as [pred|e];
    [|right; right; eexists; split; reflexivity].
  destruct (mean_squared_error y_val pred) as [mse|e].
  - left. eexists. split; reflexivity.
  - right; right. eexists. split; reflexivity.
Qed.

(** Every way a training call can end. *)
Lemma train_predictive_models_cases (now : Z) (features_data : list ContentFeatures)
    (performance_data : list PerformanceMetrics) (engine : Engine) :
  let run := train_predictive_models lstsq column_statistics now features_data
               performance_data engine in
  let after m := refitted lstsq column_statistics m features_data performance_data
                   engine in
  ((length features_data < 20)%nat
   /\ run = (Returned (mk_training_report None None None (Some NeedMoreData)), engine))
  \/ ((20 <= length features_data)%nat
      /\ forallb no_inf (_features_to_array features_data) = false
      /\ run = (Raised ValueError, set_scaler None engine))
  \/ ((20 <= length features_data)%nat /\
      ((exists e,
          fst run = Returned (mk_training_report None None None (Some (ExceptionMessage e)))
          /\ (snd run = refitted_scaler column_statistics features_data engine
              \/ snd run = after Engagement))
       \/ (exists e mse1,
             fst run = Returned (mk_training_report (Some mse1) None None
                                   (Some (ExceptionMessage e)))
             /\ (snd run = after Engagement
                 \/ (snd run = after Reach
                     /\ finite_targets column_statistics Reach features_data performance_data)))
       \/ (exists e mse1 mse2,
             fst run = Returned (mk_training_report (Some mse1) (Some mse2) None
                                   (Some (ExceptionMessage e)))
             /\ finite_targets column_statistics Reach features_data performance_data
             /\ (snd run = after Reach \/ snd run = after Click))
       \/ (exists mse1 mse2 mse3,
             fst run = Returned (mk_training_report (Some mse1) (Some mse2) (Some mse3) None)
             /\ finite_targets column_statistics Reach features_data performance_data
             /\ snd run = set_performance
                            {| accuracy := accuracy_of mse1; last_trained := Some now |}
                            {| accuracy := accuracy_of mse2; last_trained := Some now |}
                            {| accuracy := accuracy_of mse3; last_trained := Some now |}
                            (after Click)))).
Proof.
  cbn zeta. unfold train_predictive_models.
  destruct (Nat.ltb_spec (length features_data) 20) as [Hfew|Hmany].
  { left. split; [exact Hfew | reflexivity]. }
  right. unfold E_bind, scaler_fit_transform.
  assert (Hrows : match _features_to_array features_data with
                  | [] => false
                  | _ => true
                  end = true).
  { destruct features_data; [simpl in Hmany; lia | reflexivity]. }
  rewrite Hrows. cbn [andb].
  destruct (forallb no_inf (_features_to_array features_data)) eqn:Hinf.
  2:{ left. split; [exact Hmany | split; reflexivity]. }
  right. split; [exact Hmany|].
  fold (scaled_matrix column_statistics features_data).
  fold (refitted_scaler column_statistics features_data engine).
  set (e0 := refitted_scaler column_statistics features_data engine).
  set (Xs := scaled_matrix column_statistics features_data).
  set (k := split_index (length Xs)).
  pose proof (fit_and_score_cases Engagement (firstn k Xs)
                (firstn k (map engagement_rate performance_data))
                (skipn k Xs) (skipn k (map engagement_rate performance_data)) e0) as H1.
  cbn zeta in H1.
  destruct H1 as [[mse1 [-> _]]|[[e ->]|[e [-> _]]]].
  2:{ left. exists e. split; [reflexivity | left; reflexivity]. }
  2:{ left. exists e. split; [reflexivity | right; reflexivity]. }
  right.
  set (e1 := set_model Engagement _ e0).
  pose proof (fit_and_score_cases Reach (firstn k Xs)
                (firstn k (map reach_rate performance_data))
                (skipn k Xs) (skipn k (map reach_rate performance_data)) e1) as H2.
  cbn zeta in H2.
  destruct H2 as [[mse2 [-> Hfin]]|[[e ->]|[e [-> Hfin]]]].
  2:{ left. exists e, mse1. split; [reflexivity | left; reflexivity]. }
  2:{ left. exists e, mse1. split; [reflexivity | right; split; [reflexivity | exact Hfin]]. }
  right.
  set (e2 := set_model Reach _ e1).
  pose proof (fit_and_score_cases Click (firstn k Xs)
                (firstn k (map click_through_rate performance_data))
                (skipn k Xs) (skipn k (map click_through_rate performance_data)) e2) as H3.
  cbn zeta in H3.
  destruct H3 as [[mse3 [-> _]]|[[e ->]|[e [-> _]]]].
  - right. exists mse1, mse2, mse3. split; [reflexivity|]. split; [exact Hfin | reflexivity].
  - left. exists e, mse1, mse2. split; [reflexivity|]. split; [exact Hfin | left; reflexivity].
  - left. exists e, mse1, mse2. split; [reflexivity|]. split; [exact Hfin | right; reflexivity].
Qed.

End Training.



(** * Further properties of the scheduler *)

(** ** The range of the posting frequency *)

(** The frequency [calculate_posting_frequency] recommends is between 3
    and 12 hours for every follower count, quality score and history, and
    both ends are reached: the lower clamp at 2 of line 373 never binds. *)
Theorem calculate_posting_frequency_bounds :
  (forall (page_followers : Z) (content_quality_score : float)
          (engagement_history : option (list (string * float))),
      3 <= calculate_posting_frequency page_followers content_quality_score
             engagement_history <= 12)
  /\ calculate_posting_frequency 200000 0.875 None = 3
  /\ calculate_posting_frequency 500 0.25 (Some [("mon"%string, 0.5%float)]) = 12.
Proof.
  split; [|split; vm_compute; reflexivity].
  intros page_followers content_quality_score engagement_history.
  unfold calculate_posting_frequency.
  destruct engagement_history as [[|item items]|];
    repeat match goal with
           | |- context [if ?c then _ else _] => destruct c
           end; lia.
Qed.

(** ** Every path that asks for the optimal times of a day raises *)

Lemma DAY_pos : 0 < DAY.
Proof. reflexivity. Qed.

Lemma selected_hours_plus_zero (tz : DstTzInfo) (region : RegionEnum) (d : datetime)
    (page_preferences : option (list Z)) :
  selected_hours tz region (plus d (Z.of_nat 0 * DAY)) page_preferences
  = selected_hours tz region d page_preferences.
Proof.
  unfold selected_hours, astimezone, plus. simpl instant.
  replace (instant d + Z.of_nat 0 * DAY) with (instant d) by (simpl; lia).
  reflexivity.
Qed.

Lemma schedule_days_empty (start_date end_date : datetime) :
  instant end_date < instant start_date -> schedule_days start_date end_date = [].
Proof.
  intros Hlt. unfold schedule_days.
  assert (Hq : (instant end_date - instant start_date) / DAY < 0).
  { apply Z.div_lt_upper_bound; [exact DAY_pos | lia]. }
  replace (Z.to_nat _) with 0%nat by lia. reflexivity.
Qed.

Lemma schedule_days_first (start_date end_date : datetime) :
  instant start_date <= instant end_date ->
  exists rest,
    schedule_days start_date end_date = plus start_date (Z.of_nat 0 * DAY) :: rest.
Proof.
  intros Hle. unfold schedule_days.
  assert (Hq : 0 <= (instant end_date - instant start_date) / DAY).
  { apply Z.div_pos; [lia | exact DAY_pos]. }
  destruct (Z.to_nat _) as [|k] eqn:Hk; [lia|].
  simpl. eauto.
Qed.

(** [generate_posting_schedule] returns a schedule only for an empty range
    of dates, and then the empty one, without a draw: when [end_date] is
    before [start_date]. For every other input its first pass through the
    loop raises, from the call of [get_optimal_posting_times] for
    [start_date]: [AttributeError], or [ValueError] when the first
    preferred hour is outside 0..23. *)
Theorem generate_posting_schedule_outcome
    (regional_timezones : RegionEnum -> DstTzInfo) (entropy : nat -> Z)
    (choose : list datetime -> nat -> M (list datetime))
    (region : RegionEnum) (start_date end_date : datetime) (posts_per_day : Z)
    (page_preferences : option Preferences.t) (n : nat) :
  let optimal_hours :=
    match page_preferences with
    | Some preferences => Preferences.optimal_posting_times preferences
    | None => None
    end in
  generate_posting_schedule regional_timezones entropy choose region start_date end_date
    posts_per_day page_preferences n
  = if instant end_date <? instant start_date
    then (Returned [], n)
    else (if valid_hour (hd 0 (selected_hours (regional_timezones region) region
                                 start_date optimal_hours))
          then Raised AttributeError else Raised ValueError, S n).
Proof.
  cbn zeta. unfold generate_posting_schedule.
  destruct (Z.ltb_spec (instant end_date) (instant start_date)) as [Hlt|Hle].
  - rewrite schedule_days_empty by exact Hlt. reflexivity.
  - destruct (schedule_days_first start_date end_date Hle) as [rest ->].
    unfold bind at 1. cbn [schedule_loop]. unfold bind at 1.
    rewrite get_optimal_posting_times_run, selected_hours_plus_zero.
    destruct (valid_hour _); reflexivity.
Qed.

(** [_adjust_to_optimal_time] never returns the nearest optimal time: for
    every base time it raises, from its call of
    [get_optimal_posting_times]. *)
Theorem _adjust_to_optimal_time_raises
    (regional_timezones : RegionEnum -> DstTzInfo) (entropy : nat -> Z)
    (base_time : datetime) (region : RegionEnum)
    (page_preferences : option (list Z)) (n : nat) :
  _adjust_to_optimal_time regional_timezones entropy base_time region page_preferences n
  = (if valid_hour (hd 0 (selected_hours (regional_timezones region) region base_time
                            page_preferences))
     then Raised AttributeError else Raised ValueError, S n).
Proof.
  unfold _adjust_to_optimal_time, bind.
  rewrite get_optimal_posting_times_run.
  destruct (valid_hour _); reflexivity.
Qed.

(** The scheduling endpoint stores the time of the request as it is, and
    without one it fails: the slot computation raises for every page and
    every list of existing posts. *)
Theorem schedule_time_of_outcome
    (regional_timezones : RegionEnum -> DstTzInfo) (entropy : nat -> Z)
    (now : Z) (schedule_time : option datetime) (region : RegionEnum)
    (existing_times : list datetime) (posting_frequency_hours : Z)
    (page_optimal_posting_times : option (list Z)) (n : nat) :
  fst (schedule_time_of regional_timezones entropy now schedule_time region
         existing_times posting_frequency_hours page_optimal_posting_times n)
  = match schedule_time with
    | Some t => Returned t
    | None =>
        if valid_hour (hd 0 (selected_hours (regional_timezones region) region
                               {| instant := now; utcoffset := 0 |}
                               page_optimal_posting_times))
        then Raised AttributeError else Raised ValueError
    end.
Proof.
  destruct schedule_time as [t|]; [reflexivity|].
  unfold schedule_time_of, calculate_next_posting_slot. unfold bind at 1.
  cbn [search_horizon]. unfold bind at 1.
  rewrite get_optimal_posting_times_run.
  replace (0 * DAY) with (Z.of_nat 0 * DAY) by reflexivity.
  rewrite selected_hours_plus_zero.
  destruct (valid_hour _); reflexivity.
Qed.

(** ** Human-like variance *)

Lemma insert_by_Permutation {A : Type} (key : A -> Z) (x : A) (l : list A) :
  Permutation (insert_by key x l) (x :: l).
Proof.
  induction l as [|y l IH]; simpl; [reflexivity|].
  destruct (key x <=? key y); [reflexivity|].
  rewrite IH. apply perm_swap.
Qed.

Lemma sorted_by_Permutation {A : Type} (key : A -> Z) (l : list A) :
  Permutation (sorted_by key l) l.
Proof.
  induction l as [|x l IH]; simpl; [reflexivity|].
  rewrite insert_by_Permutation, IH. reflexivity.
Qed.

Lemma randint_run (entropy : nat -> Z) (a b : Z) (n : nat) :
  a <= b ->
  exists v, randint entropy a b n = (Returned v, S n) /\ a <= v <= b.
Proof.
  intros Hab. unfold randint. eexists. split; [reflexivity|].
  pose proof (Z.mod_pos_bound (entropy n) (b - a + 1)). lia.
Qed.

Lemma add_timedelta_clear (margin delta : Z) (d : datetime) :
  clear_of_ends margin (wall d) = true -> - margin <= delta <= margin ->
  add_timedelta d delta = Returned (plus d delta).
Proof.
  intros Hclear Hdelta.
  assert (Hin : in_datetime_range (wall (plus d delta)) = true).
  { unfold clear_of_ends, in_datetime_range in *. unfold wall, plus in *.
    cbn [instant utcoffset] in *.
    apply andb_true_iff in Hclear. destruct Hclear as [Hlow Hhigh].
    apply andb_true_iff in Hlow. apply andb_true_iff in Hhigh.
    destruct Hlow as [Hlow _]. destruct Hhigh as [_ Hhigh].
    apply Z.leb_le in Hlow. apply Z.ltb_lt in Hhigh.
    apply andb_true_iff. split; [apply Z.leb_le | apply Z.ltb_lt]; lia. }
  unfold add_timedelta. cbn zeta. rewrite Hin. reflexivity.
Qed.

Section VarianceFacts.
Variable entropy : nat -> Z.
Variable clock : nat -> Z.

Hypothesis clock_clear : forall k, clear_of_ends (15 * MINUTE) (clock k) = true.

Lemma variance_loop_run (scheduled_times : list datetime) (i n : nat) :
  forallb (fun s => clear_of_ends (30 * MINUTE) (wall s)) scheduled_times = true ->
  exists moved n',
    variance_loop entropy clock i scheduled_times n = (Returned moved, n')
    /\ length moved = length scheduled_times
    /\ forall k s, nth_error scheduled_times k = Some s ->
         exists t, nth_error moved k = Some t /\ varied_from (clock (i + k)) s t.
Proof.
  revert i n. induction scheduled_times as [|s rest IH]; intros i n Hclear.
  - exists [], n. split; [reflexivity|]. split; [reflexivity|].
    intros [|k] s' Hk; discriminate.
  - cbn [forallb] in Hclear. apply andb_true_iff in Hclear.
    destruct Hclear as [Hs Hrest].
    cbn [variance_loop]. unfold bind at 1.
    destruct (randint_run entropy (-30) 30 n) as [v [-> Hv]]; [lia|].
    unfold bind at 1, lift at 1.
    rewrite (add_timedelta_clear (30 * MINUTE) (v * MINUTE) s Hs)
      by (unfold MINUTE, SECOND; lia).
    unfold bind at 1.
    assert (Hone : exists t n1,
               (if instant (plus s (v * MINUTE))
                   <=? instant {| instant := clock i; utcoffset := 0 |}
                then minutes <- randint entropy 5 15 ;;
                     lift (add_timedelta {| instant := clock i; utcoffset := 0 |}
                             (minutes * MINUTE))
                else ret (plus s (v * MINUTE))) (S n) = (Returned t, n1)
               /\ varied_from (clock i) s t).
    { cbn [instant plus].
      destruct (Z.leb_spec (instant s + v * MINUTE) (clock i)) as [Hle|Hgt].
      - unfold bind.
        destruct (randint_run entropy 5 15 (S n)) as [w [-> Hw]]; [lia|].
        unfold lift.
        rewrite (add_timedelta_clear (15 * MINUTE) (w * MINUTE)
                   {| instant := clock i; utcoffset := 0 |});
          [| unfold wall; cbn [instant utcoffset]; rewrite Z.add_0_r; apply clock_clear
           | unfold MINUTE, SECOND; lia].
        do 2 eexists. split; [reflexivity|].
        unfold varied_from, MINUTE, SECOND. cbn [instant utcoffset plus]. lia.
      - do 2 eexists. split; [reflexivity|].
        unfold varied_from, MINUTE, SECOND in *. cbn [instant utcoffset plus]. lia. }
    destruct Hone as [t [n1 [-> Ht]]].
    destruct (IH (S i) n1 Hrest) as [moved [n' [Hrun [Hlen Hnth]]]].
    unfold bind. rewrite Hrun.
    exists (t :: moved), n'. split; [reflexivity|]. split; [simpl; congruence|].
    intros [|k] s' Hk.
    + injection Hk as <-. exists t. split; [reflexivity|].
      replace (i + 0)%nat with i by lia. exact Ht.
    + destruct (Hnth k s' Hk) as [t' [Ht' Hfrom]].
      exists t'. split; [exact Ht'|].
      replace (i + S k)%nat with (S i + k)%nat by lia. exact Hfrom.
Qed.

End VarianceFacts.

(** For slots and clock readings that are not within an hour of the ends
    of the range of [datetime] (slots 30 minutes, readings 15 minutes),
    [add_human_like_variance] returns one time for each slot it is given,
    in ascending order. The slot of index [k] gives a time after the clock
    reading made for it: the slot moved by at most 30 minutes, or, where
    that would not be after the reading, a UTC time 5 to 15 minutes after
    the reading. *)
Theorem add_human_like_variance_slots (entropy : nat -> Z) (clock : nat -> Z)
    (scheduled_times : list datetime) (n : nat) :
  (forall k, clear_of_ends (15 * MINUTE) (clock k) = true) ->
  forallb (fun s => clear_of_ends (30 * MINUTE) (wall s)) scheduled_times = true ->
  exists varied_times moved,
    fst (add_human_like_variance entropy clock scheduled_times n) = Returned varied_times
    /\ ascending instant varied_times
    /\ Permutation moved varied_times
    /\ length moved = length scheduled_times
    /\ forall k s, nth_error scheduled_times k = Some s ->
         exists t, nth_error moved k = Some t /\ varied_from (clock k) s t.
Proof.
  intros Hclock Hslots.
  destruct (variance_loop_run entropy clock Hclock scheduled_times 0 n Hslots)
    as [moved [n' [Hrun [Hlen Hnth]]]].
  exists (sorted_by instant moved), moved.
  unfold add_human_like_variance, bind. rewrite Hrun.
  split; [reflexivity|].
  split; [apply sorted_by_ascending|].
  split; [symmetry; apply sorted_by_Permutation|].
  split; [exact Hlen | exact Hnth].
Qed.

Lemma add_human_like_variance_slots_witness :
  exists varied_times moved,
    fst (add_human_like_variance (fun _ => 7) (fun k => instant (utc 2024 6 3 9 10))
           [utc 2024 6 3 9 0; utc 2024 6 3 13 0] 0%nat) = Returned varied_times
    /\ ascending instant varied_times
    /\ Permutation moved varied_times
    /\ length moved = 2%nat
    /\ forall k s, nth_error [utc 2024 6 3 9 0; utc 2024 6 3 13 0] k = Some s ->
         exists t, nth_error moved k = Some t
                   /\ varied_from (instant (utc 2024 6 3 9 10)) s t.
Proof.
  apply (add_human_like_variance_slots (fun _ => 7)
           (fun k => instant (utc 2024 6 3 9 10))
           [utc 2024 6 3 9 0; utc 2024 6 3 13 0] 0%nat).
  - intros k. vm_compute. reflexivity.
  - vm_compute. reflexivity.
Defined.

(** When no reading of the clock is earlier than the first one (and slots
    and readings are not within an hour of the ends of the range of
    [datetime]), every time [add_human_like_variance] returns is after
    that first reading: no returned slot lies at or before the start of
    the call. *)
Theorem add_human_like_variance_after_start (entropy : nat -> Z) (clock : nat -> Z)
    (scheduled_times : list datetime) (n : nat) :
  (forall k, clear_of_ends (15 * MINUTE) (clock k) = true) ->
  forallb (fun s => clear_of_ends (30 * MINUTE) (wall s)) scheduled_times = true ->
  (forall k, clock 0%nat <= clock k) ->
  exists varied_times,
    fst (add_human_like_variance entropy clock scheduled_times n) = Returned varied_times
    /\ length varied_times = length scheduled_times
    /\ Forall (fun t => clock 0%nat < instant t) varied_times.
Proof.
  intros Hclear Hslots Hclock.
  destruct (variance_loop_run entropy clock Hclear scheduled_times 0 n Hslots)
    as [moved [n' [Hrun [Hlen Hnth]]]].
  exists (sorted_by instant moved).
  unfold add_human_like_variance, bind. rewrite Hrun.
  split; [reflexivity|].
  split; [rewrite sorted_by_length; exact Hlen|].
  apply Forall_forall. intros t Ht.
  apply sorted_by_In in Ht.
  apply In_nth_error in Ht. destruct Ht as [k Hk].
  assert (Hlt : (k < length scheduled_times)%nat).
  { rewrite <- Hlen. apply nth_error_Some. congruence. }
  destruct (nth_error scheduled_times k) as [s|] eqn:Hs;
    [|apply nth_error_None in Hs; lia].
  destruct (Hnth k s Hs) as [t' [Ht' [Hafter _]]].
  simpl in Hafter. rewrite Hk in Ht'. injection Ht' as <-.
  specialize (Hclock k). lia.
Qed.

Lemma add_human_like_variance_after_start_witness :
  exists varied_times,
    fst (add_human_like_variance (fun _ => 7)
           (fun k => instant (utc 2024 6 3 9 10) + Z.of_nat (Nat.min k 5))
           [utc 2024 6 3 9 0; utc 1980 1 1 0 0] 0%nat) = Returned varied_times
    /\ length varied_times = 2%nat
    /\ Forall (fun t => instant (utc 2024 6 3 9 10) + Z.of_nat (Nat.min 0 5) < instant t)
              varied_times.
Proof.
  apply (add_human_like_variance_after_start (fun _ => 7)
           (fun k => instant (utc 2024 6 3 9 10) + Z.of_nat (Nat.min k 5))
           [utc 2024 6 3 9 0; utc 1980 1 1 0 0] 0%nat).
  - intros k. unfold clear_of_ends, in_datetime_range.
    assert (Hk : 0 <= Z.of_nat (Nat.min k 5) <= 5) by lia.
    revert Hk. generalize (Z.of_nat (Nat.min k 5)). intros z Hz.
    change (instant (utc 2024 6 3 9 10)) with 1717405800000000.
    change MINYEAR_start with (-62135596800000000).
    change MAXYEAR_end with 253402300800000000.
    change (15 * MINUTE) with 900000000.
    apply andb_true_iff; split; apply andb_true_iff; split;
      first [apply Z.leb_le; lia | apply Z.ltb_lt; lia].
  - vm_compute. reflexivity.
  - intros k. lia.
Defined.

(** ** The schedule moved to the best hours *)

Lemma hour_range (d : datetime) : 0 <= hour d <= 23.
Proof.
  unfold hour.
  pose proof (Z.mod_pos_bound (wall d) DAY DAY_pos) as Hm.
  assert (Hq : 0 <= wall d mod DAY / HOUR < 24).
  { split.
    - apply Z.div_pos; [lia | reflexivity].
    - apply Z.div_lt_upper_bound; [reflexivity|].
      change (HOUR * 24) with DAY. lia. }
  lia.
Qed.

Lemma insert_by_score_cons (x : Z * float) (l : list (Z * float)) :
  exists y l', insert_by_score x l = y :: l'.
Proof. destruct l as [|y l]; simpl; [eauto|]. destruct (PrimFloat.ltb _ _); eauto. Qed.

Lemma top_hours_cons (item : Z * float) (items : list (Z * float)) :
  exists h rest, top_hours (item :: items) = h :: rest.
Proof.
  unfold top_hours. simpl fold_right.
  destruct (insert_by_score_cons item (fold_right insert_by_score [] items))
    as [y [l' ->]].
  simpl. eauto.
Qed.

Lemma closest_hour_nearest (current_hour : Z) (first : Z) (rest : list Z) :
  exists h,
    closest_hour current_hour (first :: rest) = Returned h
    /\ In h (first :: rest)
    /\ Forall (fun h' => Z.abs (h - current_hour) <= Z.abs (h' - current_hour))
              (first :: rest).
Proof.
  unfold closest_hour. eexists. split; [reflexivity|].
  set (step := fun best h : Z =>
                 if Z.abs (h - current_hour) <? Z.abs (best - current_hour)
                 then h else best).
  assert (Hgen : forall l best seen,
             In best seen ->
             Forall (fun h' => Z.abs (best - current_hour) <= Z.abs (h' - current_hour)) seen ->
             In (fold_left step l best) (seen ++ l)
             /\ Forall (fun h' => Z.abs (fold_left step l best - current_hour)
                                  <= Z.abs (h' - current_hour)) (seen ++ l)).
  { induction l as [|h l IH]; intros best seen Hin Hmin; simpl.
    - rewrite app_nil_r. auto.
    - replace (seen ++ h :: l) with ((seen ++ [h]) ++ l)
        by (rewrite <- app_assoc; reflexivity).
      apply IH.
      + unfold step. destruct (Z.ltb_spec (Z.abs (h - current_hour))
                                          (Z.abs (best - current_hour)));
          apply in_or_app; [right; left; reflexivity | left; exact Hin].
      + apply Forall_app. unfold step.
        destruct (Z.ltb_spec (Z.abs (h - current_hour)) (Z.abs (best - current_hour)))
          as [Hlt|Hge]; split.
        * eapply Forall_impl; [|exact Hmin]. simpl. intros a Ha. lia.
        * constructor; [lia | constructor].
        * exact Hmin.
        * constructor; [lia | constructor]. }
  apply (Hgen rest first [first]).
  - left. reflexivity.
  - constructor; [lia | constructor].
Qed.

Lemma replace_hour_minute_shows (d : datetime) (h m : Z) :
  0 <= h <= 23 -> 0 <= m <= 59 ->
  exists t,
    replace_hour_minute d h m = Returned t
    /\ utcoffset t = utcoffset d
    /\ date t = date d
    /\ hour t = h.
Proof.
  intros Hh Hm. unfold replace_hour_minute.
  replace ((0 <=? h) && (h <=? 23) && (0 <=? m) && (m <=? 59)) with true
    by (symmetry; rewrite !andb_true_iff, !Z.leb_le; lia).
  eexists. split; [reflexivity|]. split; [reflexivity|].
  pose proof (Z.mod_pos_bound (wall d) MINUTE eq_refl) as Hr.
  set (r := wall d mod MINUTE) in *.
  unfold date at 1, hour, wall at 1 2. cbn [instant utcoffset].
  replace (date d * DAY + h * HOUR + m * MINUTE + r - utcoffset d + utcoffset d)
    with (h * HOUR + m * MINUTE + r + date d * DAY) by lia.
  assert (Hsmall : 0 <= h * HOUR + m * MINUTE + r < DAY).
  { unfold DAY, HOUR, MINUTE, SECOND in *. lia. }
  split.
  - rewrite Z.div_add by (unfold DAY, HOUR, MINUTE, SECOND; lia).
    rewrite Z.div_small by exact Hsmall. lia.
  - rewrite Z.mod_add by (unfold DAY, HOUR, MINUTE, SECOND; lia).
    rewrite Z.mod_small by exact Hsmall.
    symmetry. apply (Z.div_unique _ _ _ (m * MINUTE + r)); [|lia].
    left. unfold HOUR, MINUTE, SECOND in *. lia.
Qed.

Section OptimizeScheduleFacts.
Variable entropy : nat -> Z.

Lemma optimize_loop_run (tz : DstTzInfo) (top : list Z) (base_schedule : list datetime)
    (n : nat) :
  top <> [] -> forallb valid_hour top = true ->
  exists moved n',
    optimize_loop entropy tz top base_schedule n = (Returned moved, n')
    /\ Forall2 (optimized_from tz top) base_schedule moved.
Proof.
  intros Hne Hvalid. revert n.
  induction base_schedule as [|s rest IH]; intros n.
  - exists [], n. split; [reflexivity | constructor].
  - cbn [optimize_loop]. unfold bind at 1.
    set (local_time := astimezone tz s).
    assert (Hone : exists t n1,
               (if negb (existsb (Z.eqb (hour local_time)) top)
                   && match top with [] => false | _ => true end
                then
                  closest <- lift (closest_hour (hour local_time) top) ;;
                  minute <- randint entropy 0 59 ;;
                  optimized_local_time <-
                    lift (replace_hour_minute local_time closest minute) ;;
                  ret (astimezone UTC optimized_local_time)
                else ret s) n = (Returned t, n1)
               /\ optimized_from tz top s t).
    { destruct (existsb (Z.eqb (hour local_time)) top) eqn:Hin.
      - exists s, n. split; [reflexivity|].
        apply existsb_exists in Hin. destruct Hin as [h [Hh Heq]].
        apply Z.eqb_eq in Heq. subst h.
        unfold optimized_from. cbn zeta. fold local_time.
        replace {| instant := instant s; utcoffset := utcoffset local_time |}
          with local_time by reflexivity.
        repeat split; auto.
        apply Forall_forall. intros h' _. lia.
      - destruct top as [|first others]; [congruence|].
        cbn [negb andb].
        destruct (closest_hour_nearest (hour local_time) first others)
          as [h [Hclosest [Hh Hnear]]].
        unfold bind at 1. unfold lift at 1. rewrite Hclosest.
        unfold bind at 1.
        destruct (randint_run entropy 0 59 n) as [m [-> Hm]]; [lia|].
        assert (Hhv : 0 <= h <= 23).
        { rewrite forallb_forall in Hvalid. specialize (Hvalid h Hh).
          unfold valid_hour in Hvalid. apply andb_true_iff in Hvalid.
          rewrite !Z.leb_le in Hvalid. exact Hvalid. }
        destruct (replace_hour_minute_shows local_time h m Hhv Hm)
          as [t' [Hrep [Hoff [Hdate Hhour]]]].
        unfold bind, lift. rewrite Hrep.
        exists (astimezone UTC t'), (S n). split; [reflexivity|].
        unfold optimized_from. cbn zeta. fold local_time.
        replace {| instant := instant (astimezone UTC t');
                   utcoffset := utcoffset local_time |} with t'
          by (destruct t'; simpl in *; subst; reflexivity).
        rewrite Hdate, Hhour.
        split; [reflexivity|]. split; [exact Hh|]. split; [exact Hnear|].
        right. split; [|reflexivity].
        intros Habs.
        assert (Hex : existsb (Z.eqb (hour local_time)) (first :: others) = true).
        { apply existsb_exists. exists (hour local_time).
          split; [exact Habs | apply Z.eqb_refl]. }
        congruence. }
    destruct Hone as [t [n1 [-> Ht]]].
    destruct (IH n1) as [moved [n' [Hrun Hall]]].
    unfold bind. rewrite Hrun.
    exists (t :: moved), n'. split; [reflexivity|].
    constructor; assumption.
Qed.

Lemma optimize_loop_invalid (tz : DstTzInfo) (top : list Z) (s : datetime)
    (rest : list datetime) (n : nat) :
  top <> [] -> Forall (fun h => valid_hour h = false) top ->
  optimize_loop entropy tz top (s :: rest) n = (Raised ValueError, S n).
Proof.
  intros Hne Hinvalid. cbn [optimize_loop]. unfold bind at 1.
  set (local_time := astimezone tz s).
  assert (Hout : existsb (Z.eqb (hour local_time)) top = false).
  { destruct (existsb _ top) eqn:Hin; [|reflexivity].
    apply existsb_exists in Hin. destruct Hin as [h [Hh Heq]].
    apply Z.eqb_eq in Heq. subst h.
    rewrite Forall_forall in Hinvalid. specialize (Hinvalid _ Hh).
    pose proof (hour_range local_time) as Hr.
    unfold valid_hour in Hinvalid.
    apply andb_false_iff in Hinvalid. rewrite !Z.leb_gt in Hinvalid. lia. }
  rewrite Hout.
  destruct top as [|first others]; [congruence|].
  cbn [negb andb].
  destruct (closest_hour_nearest (hour local_time) first others)
    as [h [Hclosest [Hh _]]].
  unfold bind at 1. unfold lift at 1. rewrite Hclosest.
  unfold bind at 1. unfold randint at 1.
  unfold bind at 1. unfold lift at 1.
  rewrite Forall_forall in Hinvalid. specialize (Hinvalid _ Hh).
  unfold replace_hour_minute. unfold valid_hour in Hinvalid. rewrite Hinvalid.
  reflexivity.
Qed.

End OptimizeScheduleFacts.

(** With a history that is not empty, whose scores are comparable (none
    is NaN) and whose five best hours are hours of the day, and for slots
    that are not within two days of the ends of the range of [datetime]
    (where the conversions between the zones overflow),
    [optimize_schedule_for_engagement] returns one time for each slot of
    the base schedule, in ascending order. A slot already at one of the
    best hours (in the region's zone) is kept; any other is moved, within
    its date on the wall clock of the UTC offset it has in that zone, to the
    best hour nearest to its own. *)
Theorem optimize_schedule_for_engagement_hours
    (regional_timezones : RegionEnum -> DstTzInfo) (entropy : nat -> Z)
    (region : RegionEnum) (base_schedule : list datetime)
    (item : Z * float) (items : list (Z * float)) (n : nat) :
  Forall (fun hs => PrimFloat.is_nan (snd hs) = false) (item :: items) ->
  forallb valid_hour (top_hours (item :: items)) = true ->
  offsets_in_range (regional_timezones region) = true ->
  forallb (fun s => clear_of_ends (2 * DAY) (instant s)) base_schedule = true ->
  exists optimized_schedule moved,
    fst (optimize_schedule_for_engagement regional_timezones entropy region base_schedule
           (Some (item :: items)) n) = Returned optimized_schedule
    /\ ascending instant optimized_schedule
    /\ Permutation moved optimized_schedule
    /\ Forall2 (optimized_from (regional_timezones region) (top_hours (item :: items)))
               base_schedule moved.
Proof.
  intros _ Hvalid _ _.
  destruct (top_hours_cons item items) as [h [rest Htop]].
  destruct (optimize_loop_run entropy (regional_timezones region)
              (top_hours (item :: items)) base_schedule n)
    as [moved [n' [Hrun Hall]]]; [rewrite Htop; discriminate | exact Hvalid |].
  exists (sorted_by instant moved), moved.
  unfold optimize_schedule_for_engagement, bind. rewrite Hrun.
  split; [reflexivity|].
  split; [apply sorted_by_ascending|].
  split; [symmetry; apply sorted_by_Permutation | exact Hall].
Qed.

Lemma optimize_schedule_for_engagement_hours_witness :
  exists optimized_schedule moved,
    fst (optimize_schedule_for_engagement tzdata (fun _ => 7) US
           [utc 2024 6 4 10 0; utc 2024 6 4 13 0]
           (Some [(9, 2.5%float); (18, 4.0%float)]) 0%nat) = Returned optimized_schedule
    /\ ascending instant optimized_schedule
    /\ Permutation moved optimized_schedule
    /\ Forall2 (optimized_from (tzdata US) (top_hours [(9, 2.5%float); (18, 4.0%float)]))
               [utc 2024 6 4 10 0; utc 2024 6 4 13 0] moved.
Proof.
  apply (optimize_schedule_for_engagement_hours tzdata (fun _ => 7) US
           [utc 2024 6 4 10 0; utc 2024 6 4 13 0] (9, 2.5%float) [(18, 4.0%float)] 0%nat).
  - repeat constructor.
  - vm_compute. reflexivity.
  - vm_compute. reflexivity.
  - vm_compute. reflexivity.
Defined.



(** ** The interval and weekly checks of the validator *)

Lemma ForallOrdPairs_Permutation {A : Type} (R : A -> A -> Prop) (l l' : list A) :
  (forall a b, R a b -> R b a) ->
  Permutation l l' -> ForallOrdPairs R l -> ForallOrdPairs R l'.
Proof.
  intros Hsym Hperm. induction Hperm as [|x l l' Hperm IH|x y l|l l' l'' H1 IH1 H2 IH2];
    intros Hl.
  - exact Hl.
  - inversion Hl as [|a l0 Hx Hrest]; subst. constructor; [|auto].
    rewrite Forall_forall in *. intros b Hb. apply Hx.
    eapply Permutation_in; [symmetry; exact Hperm | exact Hb].
  - inversion Hl as [|a l0 Hy Hrest]; subst.
    inversion Hrest as [|a l0 Hx Hrest']; subst.
    inversion Hy as [|a l0 Hyx Hy']; subst.
    constructor; [constructor; [apply Hsym; exact Hyx | exact Hx]|].
    constructor; assumption.
  - auto.
Qed.

Lemma apart_sym (a b : datetime) : apart a b -> apart b a.
Proof. unfold apart. lia. Qed.

Lemma interval_warnings_ascending (sorted_times : list datetime) :
  ascending instant sorted_times ->
  interval_warnings (min_interval_hours * HOUR) sorted_times = []
  <-> ForallOrdPairs apart sorted_times.
Proof.
  induction sorted_times as [|a l IH]; intros Hasc.
  - split; [constructor | reflexivity].
  - destruct l as [|b rest].
    + split; [repeat constructor | reflexivity].
    + destruct Hasc as [Ha Hasc]. specialize (IH Hasc).
      inversion Ha as [|b' rest' Hab Harest]; subst.
      change (interval_warnings (min_interval_hours * HOUR) (a :: b :: rest))
        with ((if instant b - instant a <? min_interval_hours * HOUR
               then [TooCloseTogether a b] else [])
              ++ interval_warnings (min_interval_hours * HOUR) (b :: rest)).
      split.
      * intros Hnil. apply app_eq_nil in Hnil. destruct Hnil as [Hhead Htail].
        destruct (Z.ltb_spec (instant b - instant a) (min_interval_hours * HOUR))
          as [Hlt|Hge]; [discriminate|].
        apply IH in Htail.
        constructor; [|exact Htail].
        constructor; [unfold apart; lia|].
        inversion Htail as [|b' rest' Hb Hrest]; subst.
        rewrite Forall_forall in *. intros z Hz.
        specialize (Hb z Hz). specialize (Harest z Hz).
        destruct Hasc as [Hbz _]. rewrite Forall_forall in Hbz. specialize (Hbz z Hz).
        unfold apart in *. lia.
      * intros Hall. inversion Hall as [|a' l' Hfa Htail]; subst.
        apply IH in Htail. rewrite Htail.
        inversion Hfa as [|b' rest' Hab' _]; subst.
        unfold apart in Hab'.
        destruct (Z.ltb_spec (instant b - instant a) (min_interval_hours * HOUR));
          [lia | reflexivity].
Qed.

Lemma interval_warnings_slots (min_interval : Z) (sorted_times : list datetime)
    (a b : datetime) :
  ascending instant sorted_times ->
  In (TooCloseTogether a b) (interval_warnings min_interval sorted_times) ->
  In a sorted_times /\ In b sorted_times /\ 0 <= instant b - instant a < min_interval.
Proof.
  induction sorted_times as [|x l IH]; [simpl; tauto|].
  destruct l as [|y rest]; [simpl; tauto|].
  change (interval_warnings min_interval (x :: y :: rest))
    with ((if instant y - instant x <? min_interval then [TooCloseTogether x y] else [])
          ++ interval_warnings min_interval (y :: rest)).
  intros [Hx Hasc] Hin. apply in_app_or in Hin. destruct Hin as [Hin|Hin].
  - destruct (Z.ltb_spec (instant y - instant x) min_interval) as [Hlt|Hge];
      [|destruct Hin].
    destruct Hin as [[= <- <-]|[]].
    inversion Hx as [|y' rest' Hxy _]; subst.
    simpl. repeat split; auto; lia.
  - destruct (IH Hasc Hin) as [Ha [Hb Hlt]]. simpl in *. tauto.
Qed.

Lemma ForallOrdPairs_sorted (proposed_schedule : list datetime) :
  ForallOrdPairs apart (sorted_by instant proposed_schedule)
  <-> ForallOrdPairs apart proposed_schedule.
Proof.
  split; apply ForallOrdPairs_Permutation;
    try exact apart_sym; [|symmetry]; apply sorted_by_Permutation.
Qed.

(** The warnings of the report, by origin (scheduler.py:258-281). *)
Lemma validate_warnings (tz : RegionEnum -> DstTzInfo) (now : Z) (region : RegionEnum)
    (proposed_schedule : list datetime) :
  exists daily weekly,
    warnings (fst (validate_posting_schedule tz now region proposed_schedule))
    = daily
      ++ interval_warnings (min_interval_hours * HOUR) (sorted_by instant proposed_schedule)
      ++ weekly
    /\ (daily = [] \/ exists k, daily = [DailyLimitExceeded k max_daily_posts])
    /\ (daily = [] <-> forall day, posts_on_date day proposed_schedule <= max_daily_posts)
    /\ (weekly = [] \/ weekly = [WeeklyLimit max_weekly_posts])
    /\ (weekly = [] <-> posts_until (now + WEEK) proposed_schedule <= max_weekly_posts).
Proof.
  unfold validate_posting_schedule, V_bind, iterate, sorted_copy, V_ret.
  cbn [fst warnings].
  pose proof (over_limit_days_nonempty proposed_schedule) as Hover.
  set (over := filter (fun dc : Z * Z => bool_decide (max_daily_posts < snd dc))
                 (map_to_list (fold_left count_day proposed_schedule ∅))) in *.
  fold (posts_until (now + WEEK) proposed_schedule).
  exists (match over with
          | [] => []
          | _ => [DailyLimitExceeded (length over) max_daily_posts]
          end),
         (if max_weekly_posts <? posts_until (now + WEEK) proposed_schedule
          then [WeeklyLimit max_weekly_posts] else []).
  split; [|split; [|split; [|split]]].
  - destruct (max_weekly_posts <? _).
    + rewrite <- app_assoc. reflexivity.
    + rewrite app_nil_r. reflexivity.
  - destruct over; [left; reflexivity | right; eauto].
  - split.
    + intros Hnil day.
      destruct (Z.le_gt_cases (posts_on_date day proposed_schedule) max_daily_posts)
        as [Hle|Hgt]; [exact Hle|].
      assert (Hne : over <> []) by (apply Hover; exists day; lia).
      destruct over; [congruence | discriminate].
    + intros Hall. destruct over as [|dc over'] eqn:Hov; [reflexivity|].
      assert (Hne : dc :: over' <> []) by discriminate.
      apply Hover in Hne. destruct Hne as [day Hday]. specialize (Hall day). lia.
  - destruct (max_weekly_posts <? _); auto.
  - destruct (Z.ltb_spec max_weekly_posts (posts_until (now + WEEK) proposed_schedule));
      split; intros; try reflexivity; try discriminate; lia.
Qed.



(** * Further properties of the analysis *)

(** ** Comparisons of floats *)

Lemma ltb_leb (x y : float) : PrimFloat.ltb x y = true -> PrimFloat.leb x y = true.
Proof.
  rewrite ltb_spec, leb_spec. unfold SFltb, SFleb.
  destruct (SFcompare _ _) as [[]|]; congruence.
Qed.

(** [min(1.0, x)] is at most 1.0, and 1.0 when [x] is NaN. *)
Lemma py_min_float_one (x : float) : PrimFloat.leb (py_min_float 1.0 x) 1.0 = true.
Proof.
  unfold py_min_float.
  destruct (PrimFloat.ltb x 1.0) eqn:Hlt; [apply ltb_leb; exact Hlt | reflexivity].
Qed.

(** ** The sum of numpy *)

(** The depth of the splitting never exhausts the fuel: any fuel of at
    least the length of the list gives the same sum. *)
Lemma pairwise_sum_fuel (fuel fuel' : nat) (a : list float) :
  (length a <= fuel)%nat -> (length a <= fuel')%nat ->
  pairwise_sum fuel a = pairwise_sum fuel' a.
Proof.
  revert fuel' a. induction fuel as [|fuel IH]; intros fuel' a Hf Hf'.
  - destruct a; [|simpl in Hf; lia]. destruct fuel'; reflexivity.
  - destruct fuel' as [|fuel'].
    + destruct a; [|simpl in Hf'; lia]. reflexivity.
    + cbn [pairwise_sum].
      destruct (Nat.ltb_spec (length a) 8); [reflexivity|].
      destruct (Nat.leb_spec (length a) 128); [reflexivity|].
      assert (Hhalf : (0 < length a / 2 - (length a / 2) mod 8 < length a)%nat).
      { pose proof (Nat.mod_upper_bound (length a / 2) 8).
        pose proof (Nat.Div0.div_lt_upper_bound (length a) 2 (length a)).
        assert (64 <= length a / 2)%nat by (apply Nat.div_le_lower_bound; lia).
        lia. }
      f_equal; apply IH; rewrite ?length_firstn, ?length_skipn; lia.
Qed.

(** Ten rates of 0.1 have the mean 0.1, where adding them from the left
    gives 0.09999999999999999. *)
Example np_mean_ten_tenths :
  np_mean (repeat 0.1%float 10) = NpFloat64 0.1
  /\ (fold_left PrimFloat.add (repeat 0.1%float 10) 0 / 10)%float
     = 0.09999999999999999%float.
Proof. split; vm_compute; reflexivity. Qed.

(** ** The scores of the extraction *)

(** NaN is absorbing in the arithmetic of floats. *)
Lemma div_nan (y : float) : (nan / y)%float = nan.
Proof.
  apply Prim2SF_inj. rewrite div_spec.
  change (Prim2SF nan) with S754_nan. destruct (Prim2SF y); reflexivity.
Qed.

Lemma mul_nan (x : float) : (x * nan)%float = nan.
Proof.
  apply Prim2SF_inj. rewrite mul_spec.
  change (Prim2SF nan) with S754_nan. destruct (Prim2SF x); reflexivity.
Qed.

Lemma add_nan_l (y : float) : (nan + y)%float = nan.
Proof.
  apply Prim2SF_inj. rewrite add_spec.
  change (Prim2SF nan) with S754_nan. destruct (Prim2SF y); reflexivity.
Qed.

Lemma add_nan_r (x : float) : (x + nan)%float = nan.
Proof.
  apply Prim2SF_inj. rewrite add_spec.
  change (Prim2SF nan) with S754_nan. destruct (Prim2SF x); reflexivity.
Qed.

(** [_calculate_performance_score] never exceeds 1.0 and is never NaN,
    whatever rates it is given, with the counts of a database row. A rate
    that is NaN does not make the score NaN: [min(1.0, nan)] is 1.0, so
    the post gets the best score there is. *)
Theorem _calculate_performance_score_at_most_one
    (engagement_rate reach_rate ctr : float) (reactions comments shares : Z) :
  int32 reactions && int32 comments && int32 shares = true ->
  let score := _calculate_performance_score engagement_rate reach_rate ctr
                 reactions comments shares in
  PrimFloat.leb score 1.0 = true
  /\ (engagement_rate = nan \/ reach_rate = nan \/ ctr = nan -> score = 1.0%float).
Proof.
  intros _. cbn zeta. unfold _calculate_performance_score.
  split; [apply py_min_float_one|].
  intros Hnan.
  match goal with
  | |- py_min_float _ ?score = _ => assert (Hscore : score = nan)
  end.
  { destruct Hnan as [-> | [-> | ->]];
      rewrite div_nan, mul_nan, ?add_nan_r, ?add_nan_l; reflexivity. }
  rewrite Hscore. reflexivity.
Qed.

Lemma _calculate_performance_score_at_most_one_witness :
  let score := _calculate_performance_score 2.5 nan 1.5 40 3 1 in
  PrimFloat.leb score 1.0 = true
  /\ ((2.5 = nan \/ nan = nan \/ 1.5 = nan)%float -> score = 1.0%float).
Proof.
  apply (_calculate_performance_score_at_most_one 2.5 nan 1.5 40 3 1).
  reflexivity.
Defined.

Lemma sevenths (k : nat) :
  (k <= 7)%nat ->
  py_min_float 1.0 (float_of_nat k / float_of_nat 7) = (float_of_nat k / 7)%float
  /\ PrimFloat.leb 0 (float_of_nat k / 7) = true
  /\ PrimFloat.leb (float_of_nat k / 7) 1 = true.
Proof.
  intros Hk.
  do 8 (destruct k as [|k]; [repeat split; vm_compute; reflexivity|]).
  lia.
Qed.

Lemma _calculate_regional_relevance_sevenths (caption : string) :
  exists k, (k <= 7)%nat
    /\ _calculate_regional_relevance caption = (float_of_nat k / 7)%float.
Proof.
  unfold _calculate_regional_relevance.
  set (us := length (filter _ us_keywords)).
  set (uk := length (filter _ uk_keywords)).
  assert (Hus : (us <= 7)%nat) by (subst us; apply (filter_length_le _ us_keywords)).
  assert (Huk : (uk <= 7)%nat) by (subst uk; apply (filter_length_le _ uk_keywords)).
  exists (Nat.max us uk). split; [lia|].
  change (Nat.max (length us_keywords) (length uk_keywords)) with 7%nat.
  cbn [Nat.ltb Nat.leb].
  apply sevenths. lia.
Qed.

(** The regional relevance of a caption is one of the eight values k/7,
    k = 0..7: the greater of the numbers of US and of UK keywords found,
    out of 7. It lies between 0 and 1, so the cap of line 219 never
    binds. *)
Theorem _calculate_regional_relevance_range (caption : string) :
  exists k, (k <= 7)%nat
    /\ _calculate_regional_relevance caption = (float_of_nat k / 7)%float
    /\ PrimFloat.leb 0 (_calculate_regional_relevance caption) = true
    /\ PrimFloat.leb (_calculate_regional_relevance caption) 1 = true.
Proof.
  destruct (_calculate_regional_relevance_sevenths caption) as [k [Hk ->]].
  exists k. split; [exact Hk|]. split; [reflexivity|].
  apply sevenths. exact Hk.
Qed.

Lemma count_char_length (c : ascii) (s : string) :
  0 <= count_char c s <= Z.of_nat (String.length s).
Proof.
  induction s as [|c' s IH]; simpl String.length; cbn [count_char]; [lia|].
  destruct (Ascii.eqb c c'); lia.
Qed.

(** ** What extraction makes of a post *)

(** Every record [_extract_content_features] returns has an hour of
    0..23, a weekday of 0..6, a number of hashtags between 0 and the length
    of the caption, and a regional relevance between 0 and 1. When it
    raises, it is for one of three reasons and no other: [AttributeError]
    when [scheduled_post] or [content_generation] is None, [ValueError]
    when the time stamp that dates the post is text that [fromisoformat]
    does not read, [TypeError] when the caption is None. *)
Theorem _extract_content_features_outcome (fromisoformat : string -> option datetime)
    (post_data : RawPost.PostData) :
  match Raw._extract_content_features fromisoformat post_data with
  | Returned features => fields_in_range features
  | Raised e =>
      (e = AttributeError
       /\ (RawPost.scheduled_post post_data = Entry.Null
           \/ RawPost.content_generation post_data = Entry.Null))
      \/ (e = ValueError
          /\ exists scheduled_post text,
               Raw.subdict (RawPost.scheduled_post post_data) RawPost.no_scheduled_post
               = Returned scheduled_post
               /\ Raw.chosen_time scheduled_post = Some (RawPost.Text text)
               /\ fromisoformat (Raw.replace_Z text) = None)
      \/ (e = TypeError
          /\ exists content_gen,
               Raw.subdict (RawPost.content_generation post_data)
                 RawPost.no_content_generation = Returned content_gen
               /\ RawPost.generated_caption content_gen = Entry.Null)
  end.
Proof.
  unfold Raw._extract_content_features.
  destruct (RawPost.scheduled_post post_data) as [| |scheduled_post] eqn:Hsp;
    cbn [Raw.subdict Raw.and_then]; [| left; split; [reflexivity | left; reflexivity] |].
  all: match goal with
       | |- context [Raw.posted_time ?parse ?sp] =>
           assert (Htime : match Raw.posted_time parse sp with
                           | Returned (Some t) => True
                           | Returned None => True
                           | Raised e =>
                               e = ValueError
                               /\ exists text,
                                    Raw.chosen_time sp = Some (RawPost.Text text)
                                    /\ parse (Raw.replace_Z text) = None
                           end);
           [ unfold Raw.posted_time;
             destruct (Raw.chosen_time sp) as [[t|text]|]; try exact I;
             destruct (parse (Raw.replace_Z text)) eqn:Hparse; [exact I|];
             split; [reflexivity | eauto]
           | destruct (Raw.posted_time parse sp) as [posted|e] eqn:Hposted;
             cbn [Raw.and_then];
             [ clear Htime
             | destruct Htime as [-> [text [Hchosen Hparse]]];
               right; left; split; [reflexivity|]; eauto ] ]
       end.
  all: destruct (RawPost.content_generation post_data) as [| |content_gen] eqn:Hcg;
    cbn [Raw.subdict Raw.and_then];
    try (left; split; [reflexivity | right; reflexivity]).
  all: match goal with
       | |- context [RawPost.generated_caption ?cg] =>
           destruct (RawPost.generated_caption cg) as [| |caption] eqn:Hcaption;
           cbn [Entry.get_default Raw.number_of Raw.and_then];
           try (right; right; split; [reflexivity|]; eexists; split; [reflexivity|];
                first [exact Hcaption | reflexivity])
       end.
  all: unfold fields_in_range;
    cbn [Extracted.posting_hour Extracted.posting_weekday Extracted.hashtag_count
         Extracted.caption_length Extracted.regional_relevance_score].
  all: (split; [destruct posted as [t|]; [apply hour_range | lia]|]);
    (split; [destruct posted as [t|]; [pose proof (weekday_range t); lia | lia]|]);
    (split; [apply count_char_length|]).
  all: match goal with
       | |- context [_calculate_regional_relevance ?c] =>
           destruct (_calculate_regional_relevance_sevenths c) as [k [Hk ->]];
           apply sevenths; exact Hk
       end.
Qed.

(** ** Grouping the samples into buckets *)

Lemma dict_append_total {K : Type} (eqb : K -> K -> bool) (k : K) (v : float)
    (d : list (K * list float)) :
  rates_total (dict_append eqb k v d) = S (rates_total d).
Proof.
  unfold rates_total. induction d as [|[k' vs] d IH]; simpl; [reflexivity|].
  destruct (eqb k k'); simpl.
  - rewrite length_app. simpl. lia.
  - rewrite IH. lia.
Qed.

Lemma buckets_of_total {K : Type} (d : list (K * list float)) :
  bucket_total (buckets_of d) = rates_total d.
Proof.
  unfold bucket_total, rates_total, buckets_of. rewrite map_map. reflexivity.
Qed.

Lemma group_rates_total {K : Type} (eqb : K -> K -> bool)
    (key_of : ContentFeatures -> option K)
    (features : list ContentFeatures) (performance : list PerformanceMetrics) :
  rates_total (group_rates eqb key_of features performance)
  = samples_where (has_key key_of) features performance.
Proof.
  unfold group_rates, samples_where.
  set (step := fun d (fp : ContentFeatures * PerformanceMetrics) =>
                 match key_of (fst fp) with
                 | Some k => dict_append eqb k (engagement_rate (snd fp)) d
                 | None => d
                 end).
  assert (Hgen : forall samples acc,
             rates_total (fold_left step samples acc)
             = (rates_total acc
                + length (filter (fun fp => has_key key_of (fst fp)) samples))%nat).
  { induction samples as [|fp samples IH]; intros acc; simpl; [lia|].
    rewrite IH. unfold step, has_key.
    destruct (key_of (fst fp)); simpl; [rewrite dict_append_total|]; lia. }
  rewrite Hgen. reflexivity.
Qed.

Lemma samples_where_ext (p q : ContentFeatures -> bool)
    (features : list ContentFeatures) (performance : list PerformanceMetrics) :
  (forall feat, p feat = q feat) ->
  samples_where p features performance = samples_where q features performance.
Proof.
  intros Hpq. unfold samples_where. f_equal.
  apply filter_ext. intros fp. apply Hpq.
Qed.

(** *** What a key holds *)

Section Lookup.
Context {K : Type} (eqb : K -> K -> bool).
Hypothesis eqb_eq : forall a b, eqb a b = true <-> a = b.

Lemma eqb_refl (a : K) : eqb a a = true.
Proof. apply eqb_eq. reflexivity. Qed.

Lemma eqb_neq (a b : K) : a <> b -> eqb a b = false.
Proof.
  intros Hne. destruct (eqb a b) eqn:He; [|reflexivity].
  apply eqb_eq in He. contradiction.
Qed.

Lemma rates_of_dict_append (k k' : K) (v : float) (d : list (K * list float)) :
  rates_of eqb k' (dict_append eqb k v d)
  = if eqb k' k then rates_of eqb k d ++ [v] else rates_of eqb k' d.
Proof.
  induction d as [|[k0 vs] d IH]; simpl.
  - destruct (eqb k' k); reflexivity.
  - destruct (eqb k k0) eqn:Hk0; simpl.
    + apply eqb_eq in Hk0. subst k0.
      destruct (eqb k' k); reflexivity.
    + rewrite IH. destruct (eqb k' k0) eqn:Hk'0; [|reflexivity].
      apply eqb_eq in Hk'0. subst k0.
      destruct (eqb k' k) eqn:Hk'k; [|reflexivity].
      apply eqb_eq in Hk'k. subst k'. rewrite eqb_refl in Hk0. discriminate.
Qed.

Lemma dict_append_keys_NoDup (k : K) (v : float) (d : list (K * list float)) :
  NoDup (map fst d) -> NoDup (map fst (dict_append eqb k v d)).
Proof.
  intros Hnd.
  assert (Hkeys : map fst (dict_append eqb k v d) = map fst d
                  \/ (~ In k (map fst d)
                      /\ map fst (dict_append eqb k v d) = map fst d ++ [k])).
  { clear Hnd. induction d as [|[k0 vs] d IH]; simpl.
    - right. split; [tauto | reflexivity].
    - destruct (eqb k k0) eqn:Hk0; simpl; [left; reflexivity|].
      destruct IH as [->|[Hnot ->]]; [left; reflexivity|].
      right. split; [|reflexivity].
      intros [Heq|Hin]; [|contradiction].
      subst k0. rewrite eqb_refl in Hk0. discriminate. }
  destruct Hkeys as [->|[Hnot ->]]; [exact Hnd|].
  apply NoDup_app; [exact Hnd | repeat constructor; simpl; tauto |].
  intros a Ha [<-|[]]. contradiction.
Qed.

Lemma dict_append_nonempty (k : K) (v : float) (d : list (K * list float)) :
  Forall (fun kr => snd kr <> []) d ->
  Forall (fun kr => snd kr <> []) (dict_append eqb k v d).
Proof.
  induction 1 as [|[k0 vs] d Hvs Hd IH]; simpl.
  - repeat constructor. discriminate.
  - destruct (eqb k k0); constructor; auto.
    simpl. destruct vs; discriminate.
Qed.

Lemma rates_of_In (k : K) (rates : list float) (d : list (K * list float)) :
  NoDup (map fst d) -> In (k, rates) d -> rates_of eqb k d = rates.
Proof.
  induction d as [|[k0 vs] d IH]; simpl; [tauto|].
  intros Hnd [[= -> ->]|Hin].
  - rewrite eqb_refl. reflexivity.
  - inversion Hnd as [|a l Hnot Hnd']; subst.
    rewrite eqb_neq; [auto|].
    intros ->. apply Hnot. apply (in_map fst) in Hin. exact Hin.
Qed.

Variable key_of : ContentFeatures -> option K.

Lemma group_rates_buckets (features : list ContentFeatures)
    (performance : list PerformanceMetrics) :
  let d := group_rates eqb key_of features performance in
  NoDup (map fst d)
  /\ Forall (fun kr => snd kr <> []) d
  /\ forall k, rates_of eqb k d = rates_where (keyed eqb key_of k) features performance.
Proof.
  unfold group_rates, rates_where.
  set (step := fun d (fp : ContentFeatures * PerformanceMetrics) =>
                 match key_of (fst fp) with
                 | Some k => dict_append eqb k (engagement_rate (snd fp)) d
                 | None => d
                 end).
  assert (Hgen : forall samples acc,
             NoDup (map fst acc) -> Forall (fun kr => snd kr <> []) acc ->
             NoDup (map fst (fold_left step samples acc))
             /\ Forall (fun kr => snd kr <> []) (fold_left step samples acc)
             /\ forall k,
                  rates_of eqb k (fold_left step samples acc)
                  = rates_of eqb k acc
                    ++ map (fun fp => engagement_rate (snd fp))
                         (filter (fun fp => keyed eqb key_of k (fst fp)) samples)).
  { induction samples as [|fp samples IH]; intros acc Hnd Hne; simpl.
    - split; [exact Hnd|]. split; [exact Hne|]. intros k. rewrite app_nil_r. reflexivity.
    - destruct (IH (step acc fp)) as [H1 [H2 H3]].
      + unfold step. destruct (key_of (fst fp)); [apply dict_append_keys_NoDup|]; exact Hnd.
      + unfold step. destruct (key_of (fst fp)); [apply dict_append_nonempty|]; exact Hne.
      + split; [exact H1|]. split; [exact H2|].
        intros k. rewrite H3. unfold step, keyed.
        destruct (key_of (fst fp)) as [k'|]; [|reflexivity].
        rewrite rates_of_dict_append.
        destruct (eqb k k') eqn:Hk; [|reflexivity].
        apply eqb_eq in Hk. subst k'. simpl. rewrite <- app_assoc. reflexivity. }
  cbn zeta. apply (Hgen (combine features performance) []); constructor.
Qed.

Lemma group_rates_In (features : list ContentFeatures)
    (performance : list PerformanceMetrics) (k : K) (rates : list float) :
  In (k, rates) (group_rates eqb key_of features performance) ->
  rates = rates_where (keyed eqb key_of k) features performance /\ rates <> [].
Proof.
  intros Hin.
  destruct (group_rates_buckets features performance) as [Hnd [Hne Hrates]].
  split.
  - rewrite <- Hrates. symmetry. apply rates_of_In; assumption.
  - rewrite Forall_forall in Hne. apply (Hne (k, rates) Hin).
Qed.

(** A key some sample has is a key of the dict. *)
Lemma group_rates_complete (features : list ContentFeatures)
    (performance : list PerformanceMetrics) (fp : ContentFeatures * PerformanceMetrics)
    (k : K) :
  In fp (combine features performance) -> key_of (fst fp) = Some k ->
  In k (map fst (group_rates eqb key_of features performance)).
Proof.
  intros Hin Hk.
  destruct (group_rates_buckets features performance) as [_ [_ Hrates]].
  specialize (Hrates k).
  assert (Hne : rates_where (keyed eqb key_of k) features performance <> []).
  { unfold rates_where.
    assert (Hf : In fp (filter (fun fp => keyed eqb key_of k (fst fp)) (combine features performance))).
    { apply filter_In. split; [exact Hin|]. unfold keyed. rewrite Hk. apply eqb_refl. }
    intros Hnil. apply map_eq_nil in Hnil. rewrite Hnil in Hf. exact Hf. }
  rewrite <- Hrates in Hne. clear Hrates.
  set (d := group_rates eqb key_of features performance) in *.
  clearbody d. induction d as [|[k0 vs] d IH]; simpl in *; [congruence|].
  destruct (eqb k k0) eqn:Hk0; [left; symmetry; apply eqb_eq; exact Hk0|].
  right. apply IH. exact Hne.
Qed.

End Lookup.

(** ** Which samples the bucket analyses count *)

(** Intervals whose bounds differ in sign or in exponent partition the
    interval of the outer bounds, whatever the mantissas: for the bounds
    [-c1*2^-52 < -c2*2^-54 < c2*2^-54 < c1*2^-52] of the sentiment buckets
    and [0 < c3*2^-54 < c4*2^-53 < c1*2^-52] of the relevance buckets. *)
Lemma sentiment_finite (c1 c2 m : positive) (s : bool) (e : Z) :
  let x := S754_finite s m e in
  (if SFleb (S754_finite true c1 (-52)) x && SFltb x (S754_finite true c2 (-54))
   then true
   else if SFleb (S754_finite true c2 (-54)) x && SFltb x (S754_finite false c2 (-54))
   then true
   else if SFleb (S754_finite false c2 (-54)) x && SFltb x (S754_finite false c1 (-52))
   then true else false)
  = SFleb (S754_finite true c1 (-52)) x && SFltb x (S754_finite false c1 (-52)).
Proof.
  cbn zeta. unfold SFleb, SFltb, SFcompare.
  assert (Hcases : e < -54 \/ e = -54 \/ -54 < e < -52 \/ e = -52 \/ -52 < e) by lia.
  destruct s; destruct Hcases as [H|[H|[H|[H|H]]]]; try subst e; zcmp;
    try reflexivity; try (pcmp m c2); try (pcmp m c1).
Qed.

Lemma relevance_finite (c1 c3 c4 m : positive) (s : bool) (e : Z) :
  let x := S754_finite s m e in
  (if SFleb (S754_zero false) x && SFltb x (S754_finite false c3 (-54))
   then true
   else if SFleb (S754_finite false c3 (-54)) x && SFltb x (S754_finite false c4 (-53))
   then true
   else if SFleb (S754_finite false c4 (-53)) x && SFltb x (S754_finite false c1 (-52))
   then true else false)
  = SFleb (S754_zero false) x && SFltb x (S754_finite false c1 (-52)).
Proof.
  cbn zeta. unfold SFleb, SFltb, SFcompare.
  assert (Hcases : e < -54 \/ e = -54 \/ e = -53 \/ e = -52 \/ -52 < e) by lia.
  destruct s; destruct Hcases as [H|[H|[H|[H|H]]]]; try subst e; zcmp;
    try reflexivity; try (pcmp m c3); try (pcmp m c4); try (pcmp m c1).
Qed.

(** The three sentiment intervals cover the scores from -1.0 up to, and
    not including, 1.0; the three relevance intervals those from 0.0 up to,
    and not including, 1.0. *)
Lemma sentiment_intervals (x : float) :
  (if in_range (-1.0) (-0.3) x then true
   else if in_range (-0.3) 0.3 x then true
   else if in_range 0.3 1.0 x then true else false)
  = in_range (-1.0) 1.0 x.
Proof.
  unfold in_range. rewrite !leb_spec, !ltb_spec.
  replace (Prim2SF (-1.0)) with (S754_finite true 4503599627370496 (-52)) by reflexivity.
  replace (Prim2SF (-0.3)) with (S754_finite true 5404319552844595 (-54)) by reflexivity.
  replace (Prim2SF 0.3) with (S754_finite false 5404319552844595 (-54)) by reflexivity.
  replace (Prim2SF 1.0) with (S754_finite false 4503599627370496 (-52)) by reflexivity.
  destruct (Prim2SF x) as [[|]|[|]| |s m e]; try reflexivity.
  exact (sentiment_finite 4503599627370496 5404319552844595 m s e).
Qed.

Lemma relevance_intervals (x : float) :
  (if in_range 0.0 0.3 x then true
   else if in_range 0.3 0.7 x then true
   else if in_range 0.7 1.0 x then true else false)
  = in_range 0.0 1.0 x.
Proof.
  unfold in_range. rewrite !leb_spec, !ltb_spec.
  replace (Prim2SF 0.0) with (S754_zero false) by reflexivity.
  replace (Prim2SF 0.3) with (S754_finite false 5404319552844595 (-54)) by reflexivity.
  replace (Prim2SF 0.7) with (S754_finite false 6305039478318694 (-53)) by reflexivity.
  replace (Prim2SF 1.0) with (S754_finite false 4503599627370496 (-52)) by reflexivity.
  destruct (Prim2SF x) as [[|]|[|]| |s m e]; try reflexivity.
  exact (relevance_finite 4503599627370496 5404319552844595 6305039478318694 m s e).
Qed.

Lemma sentiment_bucket_range (feat : ContentFeatures) :
  has_key sentiment_bucket feat = in_range (-1.0) 1.0 (sentiment_score feat).
Proof.
  rewrite <- sentiment_intervals. unfold has_key, sentiment_bucket. cbn zeta.
  destruct (in_range (-1.0) (-0.3) (sentiment_score feat)),
           (in_range (-0.3) 0.3 (sentiment_score feat)),
           (in_range 0.3 1.0 (sentiment_score feat)); reflexivity.
Qed.

Lemma relevance_bucket_range (feat : ContentFeatures) :
  has_key relevance_bucket feat = in_range 0.0 1.0 (regional_relevance_score feat).
Proof.
  rewrite <- relevance_intervals. unfold has_key, relevance_bucket. cbn zeta.
  destruct (in_range 0.0 0.3 (regional_relevance_score feat)),
           (in_range 0.3 0.7 (regional_relevance_score feat)),
           (in_range 0.7 1.0 (regional_relevance_score feat)); reflexivity.
Qed.

Lemma length_bucket_range (feat : ContentFeatures) :
  has_key length_bucket feat
  = (0 <=? caption_length feat) && (caption_length feat <? 1000).
Proof.
  unfold has_key, length_bucket. cbn zeta.
  destruct (Z.leb_spec 0 (caption_length feat)),
           (Z.ltb_spec (caption_length feat) 100),
           (Z.leb_spec 100 (caption_length feat)),
           (Z.ltb_spec (caption_length feat) 200),
           (Z.leb_spec 200 (caption_length feat)),
           (Z.ltb_spec (caption_length feat) 300),
           (Z.leb_spec 300 (caption_length feat)),
           (Z.ltb_spec (caption_length feat) 1000);
    try reflexivity; exfalso; lia.
Qed.

Lemma filter_split_length {A : Type} (p : A -> bool) (l : list A) :
  (length (filter p l) + length (filter (fun a => negb (p a)) l) = length l)%nat.
Proof.
  induction l as [|a l IH]; simpl; [reflexivity|].
  destruct (p a); simpl; lia.
Qed.

Lemma image_rates_length (features : list ContentFeatures)
    (performance : list PerformanceMetrics) :
  (length (image_rates true features performance)
   + length (image_rates false features performance)
   = length (combine features performance))%nat.
Proof.
  unfold image_rates. rewrite !length_map.
  rewrite <- (filter_split_length (fun fp => Bool.eqb (has_image (fst fp)) true)
                (combine features performance)).
  f_equal. f_equal. apply filter_ext. intros fp.
  destruct (has_image (fst fp)); reflexivity.
Qed.

(** [_analyze_content_patterns] counts every sample of
    [zip(features, performance)] once in the image analysis and once in the
    hashtag analysis, whose keys never exceed 10; the caption-length
    analysis counts the samples with a caption of fewer than 1000
    characters, and leaves the others out. *)
Theorem _analyze_content_patterns_counts (features : list ContentFeatures)
    (performance : list PerformanceMetrics) :
  let content := _analyze_content_patterns features performance in
  let samples := length (combine features performance) in
  (post_count (with_image content) + post_count (without_image content))%nat = samples
  /\ bucket_total (hashtag_analysis content) = samples
  /\ Forall (fun kb => fst kb <= 10) (hashtag_analysis content)
  /\ bucket_total (caption_length_analysis content)
     = samples_where (fun feat => (0 <=? caption_length feat)
                                  && (caption_length feat <? 1000))
         features performance.
Proof.
  cbn zeta. unfold _analyze_content_patterns.
  cbn [with_image without_image hashtag_analysis caption_length_analysis].
  split; [|split; [|split]].
  - unfold bucket_of. cbn [post_count]. apply image_rates_length.
  - rewrite buckets_of_total, group_rates_total. unfold samples_where.
    rewrite (filter_ext _ (fun _ => true)) by reflexivity.
    clear. induction (combine features performance) as [|fp l IH]; simpl; congruence.
  - unfold buckets_of. apply Forall_map. cbn [fst].
    apply (group_rates_keys Z.eqb _ (fun k => k <= 10)).
    apply Forall_forall. intros feat _ k [= <-]. lia.
  - rewrite buckets_of_total, group_rates_total.
    apply samples_where_ext, length_bucket_range.
Qed.

(** [_analyze_engagement_patterns] counts in its sentiment buckets the
    samples whose sentiment score is at least -1.0 and less than 1.0, and
    in its relevance buckets those whose regional relevance is at least 0.0
    and less than 1.0, each of them once. A score of exactly 1.0, the top
    of either scale, is counted in no bucket. *)
Theorem _analyze_engagement_patterns_counts (features : list ContentFeatures)
    (performance : list PerformanceMetrics) :
  let insights := _analyze_engagement_patterns features performance in
  bucket_total (sentiment_impact insights)
  = samples_where (fun feat => in_range (-1.0) 1.0 (sentiment_score feat))
      features performance
  /\ bucket_total (regional_relevance_impact insights)
     = samples_where (fun feat => in_range 0.0 1.0 (regional_relevance_score feat))
         features performance
  /\ in_range (-1.0) 1.0 1.0 = false
  /\ in_range 0.0 1.0 1.0 = false.
Proof.
  cbn zeta. unfold _analyze_engagement_patterns.
  cbn [sentiment_impact regional_relevance_impact].
  rewrite !buckets_of_total, !group_rates_total.
  split; [apply samples_where_ext, sentiment_bucket_range|].
  split; [apply samples_where_ext, relevance_bucket_range|].
  split; reflexivity.
Qed.

(** ** The analysis of posting times *)

Lemma py_index_weekday_names (weekday : Z) :
  (-7 <= weekday <= 6 /\ exists name, py_index weekday_names weekday = Returned name)
  \/ ((weekday < -7 \/ 6 < weekday) /\ py_index weekday_names weekday = Raised IndexError).
Proof.
  unfold py_index. change (Z.of_nat (length weekday_names)) with 7.
  destruct (Z.ltb_spec weekday 0) as [Hneg|Hpos].
  - destruct (Z.leb_spec 0 (weekday + 7)) as [Hlo|Hlo];
      destruct (Z.ltb_spec (weekday + 7) 7) as [Hhi|Hhi]; cbn [andb];
      try (right; split; [lia | reflexivity]).
    left. split; [lia|].
    destruct (nth_error weekday_names (Z.to_nat (weekday + 7))) as [name|] eqn:Hn;
      [eauto|].
    apply nth_error_None in Hn. simpl in Hn. lia.
  - destruct (Z.leb_spec 0 weekday) as [Hlo|Hlo];
      destruct (Z.ltb_spec weekday 7) as [Hhi|Hhi]; cbn [andb];
      try (right; split; [lia | reflexivity]).
    left. split; [lia|].
    destruct (nth_error weekday_names (Z.to_nat weekday)) as [name|] eqn:Hn; [eauto|].
    apply nth_error_None in Hn. simpl in Hn. lia.
Qed.

Lemma weekday_buckets_cases (items : list (Z * list float))
    (acc : list (string * bucket)) :
  match weekday_buckets items acc with
  | Returned _ => Forall (fun kr => -7 <= fst kr <= 6) items
  | Raised e =>
      e = IndexError /\ Exists (fun kr => fst kr < -7 \/ 6 < fst kr) items
  end.
Proof.
  revert acc. induction items as [|[weekday rates] items IH]; intros acc; simpl.
  - constructor.
  - destruct (py_index_weekday_names weekday) as [[Hin [name ->]]|[Hout ->]].
    + specialize (IH (dict_set name {| avg_engagement := np_mean rates;
                                      post_count := length rates |} acc)).
      destruct (weekday_buckets items _) as [best|e].
      * constructor; [exact Hin | exact IH].
      * destruct IH as [-> Hex]. split; [reflexivity|]. right. exact Hex.
    + split; [reflexivity|]. left. exact Hout.
Qed.

Lemma Z_eqb_eq (a b : Z) : Z.eqb a b = true <-> a = b.
Proof. apply Z.eqb_eq. Qed.

(** [_analyze_posting_times] raises exactly when some sample has a
    weekday that is not an index of [weekday_names], Python's negative
    indices included: a weekday below -7 or above 6. The exception is an
    [IndexError], from line 287; weekdays -7..-1 are counted from Sunday
    backwards. *)
Theorem _analyze_posting_times_index_error (features : list ContentFeatures)
    (performance : list PerformanceMetrics) :
  match _analyze_posting_times features performance with
  | Returned _ =>
      Forall (fun fp => -7 <= posting_weekday (fst fp) <= 6) (combine features performance)
  | Raised e =>
      e = IndexError
      /\ Exists (fun fp => posting_weekday (fst fp) < -7 \/ 6 < posting_weekday (fst fp))
                (combine features performance)
  end.
Proof.
  unfold _analyze_posting_times.
  set (key_of := fun feat : ContentFeatures => Some (posting_weekday feat)).
  pose proof (weekday_buckets_cases (group_rates Z.eqb key_of features performance) [])
    as Hcases.
  destruct (weekday_buckets _ _) as [best|e].
  - apply Forall_forall. intros fp Hfp.
    pose proof (group_rates_complete Z.eqb Z_eqb_eq key_of features performance fp
                  (posting_weekday (fst fp)) Hfp eq_refl) as Hkey.
    apply in_map_iff in Hkey. destruct Hkey as [[k rates] [Hk Hin]].
    simpl in Hk. subst k.
    rewrite Forall_forall in Hcases. apply (Hcases _ Hin).
  - destruct Hcases as [-> Hex]. split; [reflexivity|].
    apply Exists_exists in Hex. destruct Hex as [[k rates] [Hin Hout]].
    simpl in Hout.
    destruct (group_rates_In Z.eqb Z_eqb_eq key_of features performance k rates Hin)
      as [Hrates Hne].
    unfold rates_where in Hrates.
    destruct (filter (fun fp => keyed Z.eqb key_of k (fst fp))
                (combine features performance)) as [|fp l] eqn:Hf;
      [subst rates; simpl in Hne; congruence|].
    assert (Hfp : In fp (filter (fun fp => keyed Z.eqb key_of k (fst fp))
                           (combine features performance)))
      by (rewrite Hf; left; reflexivity).
    apply filter_In in Hfp. destruct Hfp as [Hfp Hkeyed].
    unfold keyed, key_of in Hkeyed. apply Z.eqb_eq in Hkeyed.
    apply Exists_exists. exists fp. split; [exact Hfp | lia].
Qed.

Lemma insert_desc_Permutation {K : Type} (x : K * bucket) (l : list (K * bucket)) :
  Permutation (insert_desc x l) (x :: l).
Proof.
  induction l as [|y l IH]; simpl; [reflexivity|].
  destruct (num_gt _ _); [|reflexivity].
  rewrite IH. apply perm_swap.
Qed.

Lemma sorted_desc_Permutation {K : Type} (l : list (K * bucket)) :
  Permutation (sorted_desc l) l.
Proof.
  induction l as [|x l IH]; simpl; [reflexivity|].
  rewrite insert_desc_Permutation, IH. reflexivity.
Qed.

Lemma firstn_In {A : Type} (n : nat) (l : list A) (a : A) :
  In a (firstn n l) -> In a l.
Proof.
  intros Hin. rewrite <- (firstn_skipn n l). apply in_or_app. left. exact Hin.
Qed.

Lemma firstn_NoDup {A : Type} (n : nat) (l : list A) : NoDup l -> NoDup (firstn n l).
Proof.
  revert n. induction l as [|a l IH]; intros [|n] Hnd; simpl; try constructor.
  - inversion Hnd as [|a' l' Hnot Hnd']; subst.
    intros Hin. apply Hnot. apply (firstn_In n l a). exact Hin.
  - inversion Hnd; subst. auto.
Qed.

Lemma rates_where_ext (p q : ContentFeatures -> bool)
    (features : list ContentFeatures) (performance : list PerformanceMetrics) :
  (forall feat, p feat = q feat) ->
  rates_where p features performance = rates_where q features performance.
Proof.
  intros Hpq. unfold rates_where. f_equal. apply filter_ext. intros fp. apply Hpq.
Qed.

(** The hours [_analyze_posting_times] reports as best are at most five,
    all different, and each one comes with the number and the numpy mean
    of the engagement rates of the samples posted at that hour, of which
    there is at least one. *)
Theorem _analyze_posting_times_best_hours (features : list ContentFeatures)
    (performance : list PerformanceMetrics) (times : TimeAnalysis) :
  _analyze_posting_times features performance = Returned times ->
  (length (best_hours times) <= 5)%nat
  /\ NoDup (map fst (best_hours times))
  /\ Forall (fun hb =>
               let rates :=
                 rates_where (fun feat => posting_hour feat =? fst hb)
                   features performance in
               rates <> []
               /\ snd hb = {| avg_engagement := np_mean rates;
                              post_count := length rates |})
            (best_hours times).
Proof.
  unfold _analyze_posting_times.
  set (key_of := fun feat : ContentFeatures => Some (posting_hour feat)).
  set (d := group_rates Z.eqb key_of features performance).
  set (entries := map (fun hr : Z * list float =>
                         (fst hr, {| avg_engagement := np_mean (snd hr);
                                     post_count := length (snd hr) |})) d).
  destruct (weekday_buckets _ _) as [best|e]; [|discriminate].
  intros [= <-]. cbn [best_hours].
  destruct (group_rates_buckets Z.eqb Z_eqb_eq key_of features performance)
    as [Hnd _]. fold d in Hnd.
  split; [apply firstn_le_length|]. split.
  - rewrite <- firstn_map. apply firstn_NoDup.
    eapply Permutation_NoDup;
      [symmetry; apply Permutation_map, sorted_desc_Permutation|].
    unfold entries. rewrite map_map. exact Hnd.
  - apply Forall_forall. intros hb Hhb.
    apply firstn_In in Hhb.
    eapply Permutation_in in Hhb; [|apply sorted_desc_Permutation].
    unfold entries in Hhb. apply in_map_iff in Hhb.
    destruct Hhb as [[h rates] [<- Hin]]. cbn [fst snd].
    destruct (group_rates_In Z.eqb Z_eqb_eq key_of features performance h rates Hin)
      as [Hrates Hne].
    rewrite (rates_where_ext _ (keyed Z.eqb key_of h)).
    + rewrite <- Hrates. split; [exact Hne | reflexivity].
    + intros feat. unfold keyed, key_of. apply Z.eqb_sym.
Qed.

Lemma _analyze_posting_times_best_hours_witness :
  exists times,
    _analyze_posting_times (fst ten_samples) (snd ten_samples) = Returned times
    /\ (length (best_hours times) <= 5)%nat
    /\ NoDup (map fst (best_hours times))
    /\ Forall (fun hb =>
                 let rates :=
                   rates_where (fun feat => posting_hour feat =? fst hb)
                     (fst ten_samples) (snd ten_samples) in
                 rates <> []
                 /\ snd hb = {| avg_engagement := np_mean rates;
                                post_count := length rates |})
              (best_hours times).
Proof.
  destruct (_analyze_posting_times (fst ten_samples) (snd ten_samples))
    as [times|e] eqn:Hrun; [|vm_compute in Hrun; discriminate].
  exists times. split; [reflexivity|].
  apply (_analyze_posting_times_best_hours (fst ten_samples) (snd ten_samples) times).
  exact Hrun.
Defined.

(** When the samples cover at most three different hours, the hours
    [_analyze_posting_times] recommends to avoid are among those it
    recommends as optimal: the last two of the same ranking, of which the
    optimal hours are the whole. *)
Theorem _analyze_posting_times_few_hours (features : list ContentFeatures)
    (performance : list PerformanceMetrics) (times : TimeAnalysis) :
  _analyze_posting_times features performance = Returned times ->
  (0 < length (best_hours times) <= 3)%nat ->
  optimal_hours times = map fst (best_hours times)
  /\ avoid_hours times <> []
  /\ incl (avoid_hours times) (optimal_hours times).
Proof.
  unfold _analyze_posting_times.
  destruct (weekday_buckets _ _) as [best|e]; [|discriminate].
  intros [= <-]. cbn [best_hours optimal_hours avoid_hours].
  set (sorted_hours := sorted_desc _).
  rewrite length_firstn. intros Hlen.
  assert (Hn : (0 < length sorted_hours <= 3)%nat) by lia.
  rewrite !firstn_all2 by lia.
  split; [reflexivity|]. split.
  - intros Hnil. apply (f_equal (@length Z)) in Hnil.
    rewrite length_map, length_skipn in Hnil. simpl in Hnil. lia.
  - intros h Hh. apply in_map_iff in Hh. destruct Hh as [hb [<- Hin]].
    apply in_map. rewrite <- (firstn_skipn (length sorted_hours - 2) sorted_hours).
    apply in_or_app. right. exact Hin.
Qed.

Lemma _analyze_posting_times_few_hours_witness :
  exists times,
    _analyze_posting_times (fst ten_samples) (snd ten_samples) = Returned times
    /\ optimal_hours times = map fst (best_hours times)
    /\ avoid_hours times <> []
    /\ incl (avoid_hours times) (optimal_hours times).
Proof.
  destruct (_analyze_posting_times (fst ten_samples) (snd ten_samples))
    as [times|e] eqn:Hrun; [|vm_compute in Hrun; discriminate].
  exists times. split; [reflexivity|].
  apply (_analyze_posting_times_few_hours (fst ten_samples) (snd ten_samples) times Hrun).
  assert (Hlen : length (best_hours times) = 2%nat).
  { assert (Hsome : match _analyze_posting_times (fst ten_samples) (snd ten_samples) with
                    | Returned t => length (best_hours t)
                    | Raised _ => 0%nat
                    end = 2%nat) by (vm_compute; reflexivity).
    rewrite Hrun in Hsome. exact Hsome. }
  lia.
Defined.

(** ** The recommendations *)

Lemma image_recommendation_cases (content : ContentAnalysis) :
  image_recommendation content = Returned []
  \/ (exists r, image_recommendation content = Returned [r]
                /\ type r = "visual_content"%string)
  \/ image_recommendation content = Raised ZeroDivisionError.
Proof.
  unfold image_recommendation.
  destruct (num_gt _ _); [|left; reflexivity].
  unfold num_truediv.
  destruct (is_numpy _ || is_numpy _); [right; left; eexists; split; reflexivity|].
  destruct (PrimFloat.eqb _ 0); [right; right; reflexivity|].
  right; left; eexists; split; reflexivity.
Qed.

(** [_generate_optimization_recommendations] returns at most five
    recommendations, at most one of each type, in the fixed order
    posting_time, content_length, visual_content, hashtags, content_tone;
    the only exception it can raise is the [ZeroDivisionError] of the image
    recommendation. *)
Theorem _generate_optimization_recommendations_order
    (times : TimeAnalysis) (content : ContentAnalysis) (insights : EngagementInsights) :
  match _generate_optimization_recommendations times content insights with
  | Returned recommendations =>
      sublist (map type recommendations) recommendation_types
      /\ (length recommendations <= 5)%nat
  | Raised e => e = ZeroDivisionError
  end.
Proof.
  unfold _generate_optimization_recommendations, recommendation_types.
  destruct (image_recommendation_cases content) as [->|[[r [-> Hr]]| ->]];
    [| |reflexivity];
    destruct (best_hours times), (caption_length_analysis content),
      (hashtag_analysis content), (sentiment_impact insights);
    cbn [app map type length]; rewrite ?Hr;
    (split; [repeat (first [apply sublist_nil | apply sublist_skip | apply sublist_cons])
            | lia]).
Qed.

(** ** Every post whose keys hold values is analysed *)

Lemma group_rates_nonempty {K : Type} (eqb : K -> K -> bool)
    (key_of : ContentFeatures -> K)
    (features : list ContentFeatures) (performance : list PerformanceMetrics) :
  (forall a b, eqb a b = true <-> a = b) ->
  combine features performance <> [] ->
  group_rates eqb (fun feat => Some (key_of feat)) features performance <> [].
Proof.
  intros Heqb Hne Hnil.
  destruct (combine features performance) as [|fp l] eqn:Hc; [congruence|].
  pose proof (group_rates_complete eqb Heqb (fun feat => Some (key_of feat)) features
                performance fp (key_of (fst fp))) as Hin.
  rewrite Hc, Hnil in Hin. apply Hin; [left; reflexivity | reflexivity].
Qed.

Lemma sorted_desc_nonempty {K : Type} (l : list (K * bucket)) :
  l <> [] -> sorted_desc l <> [].
Proof.
  intros Hne Hnil. apply Hne.
  pose proof (sorted_desc_Permutation l) as Hp. rewrite Hnil in Hp.
  apply Permutation_nil in Hp. exact Hp.
Qed.

Lemma _analyze_posting_times_nonempty (features : list ContentFeatures)
    (performance : list PerformanceMetrics) (times : TimeAnalysis) :
  _analyze_posting_times features performance = Returned times ->
  combine features performance <> [] ->
  best_hours times <> [].
Proof.
  unfold _analyze_posting_times.
  destruct (weekday_buckets _ _) as [best|e]; [|discriminate].
  intros [= <-] Hne. cbn [best_hours].
  pose proof (group_rates_nonempty Z.eqb posting_hour features performance Z_eqb_eq Hne)
    as Hd.
  set (d := group_rates Z.eqb _ features performance) in *.
  assert (Hs : sorted_desc
                 (map (fun hr : Z * list float =>
                         (fst hr, {| avg_engagement := np_mean (snd hr);
                                     post_count := length (snd hr) |})) d) <> []).
  { apply sorted_desc_nonempty. destruct d; [congruence | discriminate]. }
  destruct (sorted_desc _); [congruence | discriminate].
Qed.

Lemma _generate_optimization_recommendations_always
    (times : TimeAnalysis) (content : ContentAnalysis) (insights : EngagementInsights)
    (recommendations : list Recommendation) :
  _generate_optimization_recommendations times content insights
  = Returned recommendations ->
  best_hours times <> [] -> hashtag_analysis content <> [] ->
  In "posting_time"%string (map type recommendations)
  /\ In "hashtags"%string (map type recommendations).
Proof.
  unfold _generate_optimization_recommendations.
  destruct (image_recommendation content) as [image|e]; [|discriminate].
  intros [= <-] Hhours Htags.
  destruct (best_hours times) as [|h hs]; [congruence|].
  destruct (hashtag_analysis content) as [|t ts]; [congruence|].
  destruct (caption_length_analysis content), (sentiment_impact insights);
    rewrite ?map_app, ?in_app_iff; cbn [map type In]; split; auto 10.
Qed.

Lemma holds_value_get_default {A : Type} (e : Entry.t A) (d : A) :
  holds_value e = true -> exists a, Entry.get_default e d = Some a.
Proof. destruct e; [eauto | discriminate | eauto]. Qed.

Section RawValues.
Variable fromisoformat : string -> option datetime.

Lemma raw_features_returned (post_data : RawPost.PostData) :
  no_None post_data = true -> dated fromisoformat post_data = true ->
  exists features,
    Raw._extract_content_features fromisoformat post_data = Returned features
    /\ 0 <= Extracted.posting_weekday features < 7
    /\ Raw.sentiment_is_None features = false.
Proof.
  unfold no_None, dated, Raw._extract_content_features.
  intros Hvalues Hdated.
  apply andb_true_iff in Hvalues. destruct Hvalues as [Hvalues _].
  apply andb_true_iff in Hvalues. destruct Hvalues as [_ Hcg].
  assert (Hsp : exists scheduled_post posted,
             Raw.subdict (RawPost.scheduled_post post_data) RawPost.no_scheduled_post
             = Returned scheduled_post
             /\ Raw.posted_time fromisoformat scheduled_post = Returned posted).
  { destruct (RawPost.scheduled_post post_data) as [| |scheduled_post];
      cbn [inner Raw.subdict] in *; [|discriminate|];
      match type of Hdated with
      | context [Raw.posted_time ?parse ?sp] =>
          destruct (Raw.posted_time parse sp) as [posted|e] eqn:Hposted;
          [|discriminate]
      end; eauto. }
  destruct Hsp as [scheduled_post [posted [-> Hposted]]].
  cbn [Raw.and_then]. rewrite Hposted. cbn [Raw.and_then].
  assert (Hcontent : exists content_gen caption sentiment,
             Raw.subdict (RawPost.content_generation post_data)
               RawPost.no_content_generation = Returned content_gen
             /\ Entry.get_default (RawPost.generated_caption content_gen) ""%string
                = Some caption
             /\ Entry.get_default (RawPost.sentiment_score content_gen) 0.0%float
                = Some sentiment).
  { destruct (RawPost.content_generation post_data) as [| |content_gen];
      cbn [inner Raw.subdict] in *; [|discriminate|].
    - do 3 eexists. split; [reflexivity|]. split; reflexivity.
    - repeat (apply andb_true_iff in Hcg; destruct Hcg as [Hcg ?]).
      destruct (holds_value_get_default (RawPost.generated_caption content_gen)
                  ""%string) as [caption Hcaption]; [assumption|].
      destruct (holds_value_get_default (RawPost.sentiment_score content_gen)
                  0.0%float) as [sentiment Hsentiment]; [assumption|].
      eauto 6. }
  destruct Hcontent as [content_gen [caption [sentiment [-> [Hcaption Hsentiment]]]]].
  cbn [Raw.and_then]. rewrite Hcaption. cbn [Raw.number_of Raw.and_then].
  eexists. split; [reflexivity|].
  unfold Raw.sentiment_is_None.
  cbn [Extracted.posting_weekday Extracted.sentiment_score].
  rewrite Hsentiment. split; [|reflexivity].
  destruct posted as [t|]; [apply weekday_range | lia].
Qed.

Lemma raw_metrics_returned (post_data : RawPost.PostData) :
  no_None post_data = true ->
  exists performance, Raw._extract_performance_metrics post_data = Returned performance.
Proof.
  unfold no_None, Raw._extract_performance_metrics.
  intros Hvalues.
  apply andb_true_iff in Hvalues. destruct Hvalues as [_ Han].
  assert (Hanalytics : exists analytics,
             Raw.subdict (RawPost.analytics post_data) RawPost.no_analytics
             = Returned analytics
             /\ holds_value (RawPost.impressions analytics) = true
             /\ holds_value (RawPost.reach analytics) = true
             /\ holds_value (RawPost.engaged_users analytics) = true
             /\ holds_value (RawPost.clicks analytics) = true
             /\ holds_value (RawPost.likes analytics) = true
             /\ holds_value (RawPost.comments analytics) = true
             /\ holds_value (RawPost.shares analytics) = true
             /\ holds_value (RawPost.total_reactions analytics) = true).
  { destruct (RawPost.analytics post_data) as [| |analytics];
      cbn [inner Raw.subdict] in *; [|discriminate|].
    - eexists. split; [reflexivity|]. repeat split; reflexivity.
    - repeat (apply andb_true_iff in Han; destruct Han as [Han ?]).
      eexists. split; [reflexivity|]. repeat split; assumption. }
  destruct Hanalytics
    as [analytics [-> [Himp [Hreach [Heng [Hclicks [Hlikes [Hcom [Hshares Hreact]]]]]]]]].
  cbn [Raw.and_then]. cbn zeta.
  destruct (holds_value_get_default (RawPost.impressions analytics) 0 Himp) as [i ->].
  destruct (holds_value_get_default (RawPost.reach analytics) 0 Hreach) as [r ->].
  destruct (holds_value_get_default (RawPost.engaged_users analytics) 0 Heng) as [u ->].
  destruct (holds_value_get_default (RawPost.clicks analytics) 0 Hclicks) as [c ->].
  destruct (holds_value_get_default (RawPost.likes analytics) 0 Hlikes) as [l ->].
  destruct (holds_value_get_default (RawPost.comments analytics) 0 Hcom) as [m ->].
  destruct (holds_value_get_default (RawPost.shares analytics) 0 Hshares) as [h ->].
  cbn [Raw.number_of Raw.and_then].
  destruct (0 <? r); cbn [Raw.number_of Raw.and_then];
    destruct (0 <? i); cbn [Raw.number_of Raw.and_then];
    destruct (Entry.get_default (RawPost.performance_score analytics) 0.0%float)
      as [score|]; cbn [Raw.and_then]; try (eexists; reflexivity);
    destruct (PrimFloat.eqb score 0.0); cbn [Raw.and_then Raw.number_of];
    try (eexists; reflexivity);
    destruct (RawPost.total_reactions analytics); try discriminate;
    cbn [Raw.and_then Raw.number_of]; eexists; reflexivity.
Qed.

Lemma raw_extract_all_values (posts_data : list RawPost.PostData) :
  forallb no_None posts_data = true ->
  forallb (dated fromisoformat) posts_data = true ->
  let samples := Raw.extract_all fromisoformat posts_data in
  length (fst samples) = length posts_data
  /\ length (snd samples) = length posts_data
  /\ valid_weekdays (map Raw.read_features (fst samples))
  /\ existsb Raw.sentiment_is_None (fst samples) = false.
Proof.
  induction posts_data as [|post_data rest IH]; cbn zeta; cbn [Raw.extract_all forallb].
  - intros _ _. repeat split. constructor.
  - intros Hvalues Hdated.
    apply andb_true_iff in Hvalues. destruct Hvalues as [Hpost Hrest].
    apply andb_true_iff in Hdated. destruct Hdated as [Hdpost Hdrest].
    specialize (IH Hrest Hdrest). cbn zeta in IH.
    destruct (Raw.extract_all fromisoformat rest) as [features performance].
    cbn [fst snd] in IH. destruct IH as [Hlen [Hlen' [Hweek Hsent]]].
    destruct (raw_features_returned post_data Hpost Hdpost) as [f [-> [Hf Hs]]].
    destruct (raw_metrics_returned post_data Hpost) as [p ->].
    cbn [fst snd length map existsb]. rewrite Hs, Hsent.
    split; [congruence|]. split; [congruence|]. split; [|reflexivity].
    constructor; [exact Hf | exact Hweek].
Qed.

End RawValues.

(** For every list of at least ten posts of which no key holds None,
    dated by a datetime or by text that [fromisoformat] reads, and with
    the counts of database rows, whatever keys the posts lack,
    [analyze_content_performance] returns a report: no post is skipped, and
    the report always holds a posting-time and a hashtag recommendation. *)
Theorem analyze_content_performance_reports_every_post
    (fromisoformat : string -> option datetime)
    (page_id : Z) (posts_data : list RawPost.PostData) :
  (10 <= length posts_data)%nat ->
  forallb no_None posts_data = true ->
  forallb (dated fromisoformat) posts_data = true ->
  forallb int32_entries posts_data = true ->
  exists report,
    Raw.analyze_content_performance fromisoformat page_id posts_data
    = Returned (Report report)
    /\ total_posts_analyzed report = length posts_data
    /\ In "posting_time"%string (map type (optimization_recommendations report))
    /\ In "hashtags"%string (map type (optimization_recommendations report)).
Proof.
  intros Hten Hvalues Hdated _.
  destruct (raw_extract_all_values fromisoformat posts_data Hvalues Hdated)
    as [Hlen [Hlen' [Hvalid Hsentiment]]].
  unfold Raw.analyze_content_performance.
  replace (length posts_data <? 10)%nat with false
    by (symmetry; apply Nat.ltb_ge; exact Hten).
  destruct (Raw.extract_all fromisoformat posts_data) as [features performance].
  cbn [fst snd] in *.
  replace (length features <? 5)%nat with false
    by (symmetry; apply Nat.ltb_ge; lia).
  unfold Raw.analyze_samples.
  assert (Hzip : map fst (combine features performance) = features).
  { clear - Hlen Hlen'. rewrite <- Hlen in Hlen'. clear Hlen.
    revert performance Hlen'.
    induction features as [|f features IH]; intros [|p performance] Hl;
      simpl in *; try reflexivity; try discriminate.
    f_equal. apply IH. congruence. }
  rewrite Hzip, Hsentiment.
  destruct (analyze_samples_returns (map Raw.read_features features)
              (map Raw.read_metrics performance) Hvalid)
    as [times [recs [Htimes [Hrecs Hrun]]]].
  rewrite Htimes, Hrun.
  eexists. split; [reflexivity|].
  cbn [total_posts_analyzed optimization_recommendations].
  split; [rewrite length_map; exact Hlen|].
  assert (Hne : combine (map Raw.read_features features)
                  (map Raw.read_metrics performance) <> []).
  { destruct features; [simpl in Hlen; lia|].
    destruct performance; [simpl in Hlen'; lia | discriminate]. }
  apply (_generate_optimization_recommendations_always _ _ _ _ Hrecs).
  - apply (_analyze_posting_times_nonempty (map Raw.read_features features)
             (map Raw.read_metrics performance)); assumption.
  - unfold _analyze_content_patterns. cbn [hashtag_analysis]. unfold buckets_of.
    pose proof (group_rates_nonempty Z.eqb (fun feat => Z.min (hashtag_count feat) 10)
                  (map Raw.read_features features) (map Raw.read_metrics performance)
                  Z_eqb_eq Hne) as Hd.
    destruct (group_rates Z.eqb _ _ _); [congruence | discriminate].
Qed.

(** One post of the ten with a sentiment score that is None: the post is
    not skipped, and the comparison of line 383 raises outside the [try]. *)
Example analyze_content_performance_sentiment_None :
  Raw.analyze_content_performance reads_nothing 1
    (map raw_post (firstn 9 ten_posts)
     ++ map (fun post_data => without_sentiment (raw_post post_data)) (skipn 9 ten_posts))
  = Raised TypeError.
Proof. vm_compute. reflexivity. Qed.

Lemma analyze_content_performance_reports_every_post_witness :
  exists report,
    Raw.analyze_content_performance reads_nothing 1 (map raw_post ten_posts)
    = Returned (Report report)
    /\ total_posts_analyzed report = length (map raw_post ten_posts)
    /\ In "posting_time"%string (map type (optimization_recommendations report))
    /\ In "hashtags"%string (map type (optimization_recommendations report)).
Proof.
  apply (analyze_content_performance_reports_every_post reads_nothing 1
           (map raw_post ten_posts));
    [simpl; lia | vm_compute; reflexivity ..].
Defined.

(** ** The analysis of ORM rows *)

Lemma extract_all_rows (posts_data : list Post.PostData) :
  extract_all Post.PostData _extract_content_features_of_rows
    _extract_performance_metrics_of_rows posts_data = ([], []).
Proof.
  induction posts_data as [|post_data rest IH]; cbn [extract_all]; [reflexivity|].
  rewrite IH. reflexivity.
Qed.

(** On the entries the analytics route builds, whose values are ORM rows,
    [analyze_content_performance] never returns a report: every post is
    skipped, its extraction raising [AttributeError] inside the [try] of
    line 87, and the call returns the dict of one of its two
    insufficient-data errors, however many posts there are. *)
Theorem analyze_rows_never_reports (page_id : Z) (posts_data : list Post.PostData) :
  analyze_rows page_id posts_data
  = Returned (ErrorDict
                (if (length posts_data <? 10)%nat
                 then "Insufficient data for analysis (minimum 10 posts required)"
                 else "Insufficient valid data for analysis")).
Proof.
  unfold analyze_rows, analyze_content_performance.
  destruct (length posts_data <? 10)%nat; [reflexivity|].
  rewrite extract_all_rows. reflexivity.
Qed.

(** * Further properties of the predictor *)

Lemma min_one_at_most_one (a : number) : PrimFloat.leb (value (min_one a)) 1.0 = true.
Proof.
  unfold min_one. destruct (PrimFloat.ltb (value a) 1.0) eqn:Hlt.
  - apply ltb_leb. exact Hlt.
  - reflexivity.
Qed.

(** The mean of one to three clipped metrics, normalised: line 622-623
    never raises on them. *)
Lemma overall_of_clipped (values : list number) :
  values <> [] -> (length values <= 3)%nat -> Forall clipped values ->
  exists o, overall_of values = Returned (Some o)
            /\ PrimFloat.leb (value o) 1.0 = true.
Proof.
  intros Hne Hlen Hall.
  destruct values as [|a [|b [|c [|d values]]]]; [congruence| | | |simpl in Hlen; lia];
    repeat match goal with
           | H : Forall clipped (_ :: _) |- _ =>
               let Hc := fresh in
               let Hr := fresh in
               inversion H as [|? ? Hc Hr]; subst; clear H;
               destruct Hc as [->|[? [-> _]]]
           end;
    (eexists; split; [reflexivity | apply min_one_at_most_one]).
Qed.

Lemma predict_metric_row (model : option LinearFit) (row : list float) :
  predict_metric model [row]
  = match model with
    | None => Returned None
    | Some fit =>
        if all_finite row
        then Returned (Some (let p := (dot row (coef_ fit) + intercept_ fit)%float in
                             if PrimFloat.ltb 0 p then NpFloat64 p else PyInt 0))
        else Raised ValueError
    end.
Proof.
  unfold predict_metric, model_predict.
  destruct model as [fit|]; [|reflexivity].
  cbn [forallb]. rewrite andb_true_r.
  destruct (all_finite row); reflexivity.
Qed.

Lemma clipped_max (p : float) :
  clipped (if PrimFloat.ltb 0 p then NpFloat64 p else PyInt 0).
Proof.
  destruct (PrimFloat.ltb 0 p) eqn:Hpos; [right; eauto | left; reflexivity].
Qed.

(** Every way a prediction can end. *)
Lemma predict_content_performance_cases (features : ContentFeatures) (engine : Engine) :
  let run := predict_content_performance features engine in
  snd run = engine
  /\ ((fst run = Raised NotFittedError
       /\ scaler engine = None /\ n_features_in_ engine = None)
      \/ (fst run = Raised AttributeError
          /\ scaler engine = None /\ is_Some (n_features_in_ engine)
          /\ forallb no_inf (_features_to_array [features]) = true)
      \/ (fst run = Raised ValueError
          /\ (is_Some (scaler engine) \/ is_Some (n_features_in_ engine))
          /\ forallb no_inf (_features_to_array [features]) = false)
      \/ (exists p, fst run = Returned p
            /\ is_Some (scaler engine)
            /\ Predictions.error p = Some (ExceptionMessage ValueError)
            /\ predicted_metrics p = [] /\ Predictions.overall_score p = None
            /\ some_model_fitted engine)
      \/ (exists p, fst run = Returned p
            /\ is_Some (scaler engine)
            /\ Predictions.error p = None
            /\ Forall clipped (predicted_metrics p)
            /\ (is_Some (Predictions.engagement_rate p)
                <-> is_Some (engagement_model engine))
            /\ (is_Some (Predictions.reach_rate p) <-> is_Some (reach_model engine))
            /\ (is_Some (Predictions.click_through_rate p)
                <-> is_Some (click_model engine))
            /\ match Predictions.overall_score p with
               | Some o => some_model_fitted engine
                           /\ PrimFloat.leb (value o) 1.0 = true
               | None => ~ some_model_fitted engine
               end)).
Proof.
  cbn zeta. unfold predict_content_performance, E_bind, scaler_transform.
  destruct (scaler engine) as [fit|] eqn:Hscaler.
  2:{ destruct (n_features_in_ engine) as [k|] eqn:Hseen;
        [|split; [reflexivity | left; repeat split; reflexivity]].
      destruct (forallb no_inf (_features_to_array [features])) eqn:Hinf;
        (split; [reflexivity|]); right;
        [left | right; left]; repeat split; eauto. }
  destruct (forallb no_inf (_features_to_array [features])) eqn:Hinf;
    [|split; [reflexivity | right; right; left; repeat split; eauto]].
  cbn [_features_to_array map].
  set (row := scale_row fit (feature_vector features)).
  rewrite !predict_metric_row.
  unfold some_model_fitted, predicted_metrics.
  destruct (engagement_model engine) as [f1|], (reach_model engine) as [f2|],
    (click_model engine) as [f3|], (all_finite row); cbn [present app fst snd].
  all: try match goal with
           | |- context [overall_of (?a :: ?l)] =>
               destruct (overall_of_clipped (a :: l)) as [o [-> Ho]];
                 [discriminate | simpl; lia
                 | repeat (apply Forall_cons; [apply clipped_max|]); apply Forall_nil |]
           end.
  all: cbn [overall_of fst snd]; (split; [reflexivity|]); right; right; right.
  all: first
         [ (* a fitted model refuses the scaled row *)
           left; eexists; split; [reflexivity|];
           cbn [Predictions.error Predictions.engagement_rate Predictions.reach_rate
                Predictions.click_through_rate Predictions.overall_score
                Predictions.empty present app];
           repeat split; unfold is_Some; solve [eauto 6]
         | (* the dict holds a metric for each fitted model *)
           right; eexists; split; [reflexivity|];
           cbn [Predictions.error Predictions.engagement_rate Predictions.reach_rate
                Predictions.click_through_rate Predictions.overall_score
                Predictions.empty present app];
           split; [unfold is_Some; eauto|]; split; [reflexivity|];
           split; [repeat (apply Forall_cons; [apply clipped_max|]); apply Forall_nil|];
           repeat split; unfold is_Some in *;
           try solve [eauto 6]; try exact Ho;
           try solve [intros [? H]; discriminate];
           try solve [intros [[? H]|[[? H]|[? H]]]; discriminate] ].
Qed.

(** [predict_content_performance] leaves the engine as it is. Every metric
    of a dict it returns is the integer 0 or a float greater than 0, never
    negative and never NaN, and the overall score, when there is one, is at
    most 1.0. On features whose ints convert to floats, the call raises
    only from the scaler: [NotFittedError] when it was never fitted,
    [AttributeError] when its last fit was refused after an earlier one
    had succeeded (and the features hold no infinity), [ValueError] when it
    refuses the features. *)
Theorem predict_content_performance_values (features : ContentFeatures) (engine : Engine) :
  int32_features features = true ->
  let run := predict_content_performance features engine in
  snd run = engine
  /\ match fst run with
     | Returned p =>
         Forall clipped (predicted_metrics p)
         /\ match Predictions.overall_score p with
            | Some o => PrimFloat.leb (value o) 1.0 = true
            | None => True
            end
     | Raised e =>
         (e = NotFittedError /\ scaler engine = None /\ n_features_in_ engine = None)
         \/ (e = AttributeError /\ scaler engine = None
             /\ is_Some (n_features_in_ engine)
             /\ forallb no_inf (_features_to_array [features]) = true)
         \/ (e = ValueError
             /\ (is_Some (scaler engine) \/ is_Some (n_features_in_ engine))
             /\ forallb no_inf (_features_to_array [features]) = false)
     end.
Proof.
  intros _. cbn zeta.
  destruct (predict_content_performance_cases features engine) as [Hengine Hcases].
  cbn zeta in Hengine, Hcases. split; [exact Hengine|].
  destruct Hcases
    as [[-> Hs]|[[-> Hs]|[[-> Hs]|[[p [-> [_ [_ [Hm [Ho _]]]]]]|[p [-> H]]]]]].
  - left. split; [reflexivity | exact Hs].
  - right; left. split; [reflexivity | exact Hs].
  - right; right. split; [reflexivity | exact Hs].
  - rewrite Hm, Ho. split; [constructor | exact I].
  - destruct H as [_ [_ [Hclipped [_ [_ [_ Ho]]]]]].
    split; [exact Hclipped|].
    destruct (Predictions.overall_score p); [apply Ho | exact I].
Qed.

Lemma predict_content_performance_values_witness :
  let run := predict_content_performance
               (mk_features 12 1 120 3 true 0.5 60.0 "image" 0.5)
               (set_scaler None reach_fitted_engine) in
  snd run = set_scaler None reach_fitted_engine
  /\ fst run = Raised AttributeError.
Proof.
  pose proof (predict_content_performance_values
                (mk_features 12 1 120 3 true 0.5 60.0 "image" 0.5)
                (set_scaler None reach_fitted_engine) eq_refl) as [Hengine Hraised].
  split; [exact Hengine|].
  destruct (fst (predict_content_performance
                   (mk_features 12 1 120 3 true 0.5 60.0 "image" 0.5)
                   (set_scaler None reach_fitted_engine))) as [p|e] eqn:Hrun;
    [vm_compute in Hrun; discriminate|].
  destruct Hraised as [[_ [_ Hnever]]|[[-> _]|[_ [_ Hinf]]]];
    [vm_compute in Hnever; discriminate | reflexivity
    | vm_compute in Hinf; discriminate].
Defined.

(** On an engine whose estimators were fitted on the eight feature
    columns, a dict [predict_content_performance] returns without the key
    [error] holds a metric for each model that is fitted and for no other,
    and the overall score exactly when some model is fitted. A dict with
    the key [error] holds no metric and no overall score: the first fitted
    model refused the scaled features with a [ValueError]. *)
Theorem predict_content_performance_keys (features : ContentFeatures) (engine : Engine)
    (p : Predictions.t) :
  int32_features features = true -> eight_columns engine = true ->
  fst (predict_content_performance features engine) = Returned p ->
  match Predictions.error p with
  | None =>
      (is_Some (Predictions.engagement_rate p) <-> is_Some (engagement_model engine))
      /\ (is_Some (Predictions.reach_rate p) <-> is_Some (reach_model engine))
      /\ (is_Some (Predictions.click_through_rate p) <-> is_Some (click_model engine))
      /\ (is_Some (Predictions.overall_score p) <-> some_model_fitted engine)
  | Some message =>
      message = ExceptionMessage ValueError
      /\ predicted_metrics p = [] /\ Predictions.overall_score p = None
      /\ some_model_fitted engine
  end.
Proof.
  intros _ _ Hrun.
  destruct (predict_content_performance_cases features engine) as [_ Hcases].
  cbn zeta in Hcases. rewrite Hrun in Hcases.
  destruct Hcases
    as [[H _]|[[H _]|[[H _]|[[p' [[= <-] [_ [-> H]]]]|[p' [[= <-] [_ [-> H]]]]]]]];
    try discriminate.
  - split; [reflexivity | exact H].
  - destruct H as [_ [He [Hr [Hc Ho]]]].
    split; [exact He|]. split; [exact Hr|]. split; [exact Hc|].
    destruct (Predictions.overall_score p) as [o|].
    + split; [intros _; apply Ho | intros _; eexists; reflexivity].
    + split; [intros [o Habs]; discriminate | intros Hf; contradiction].
Qed.

Lemma predict_content_performance_keys_witness :
  exists p,
    fst (predict_content_performance (mk_features 12 1 120 3 true 0.5 60.0 "image" 0.5)
           reach_fitted_engine) = Returned p
    /\ match Predictions.error p with
       | None =>
           (is_Some (Predictions.engagement_rate p)
            <-> is_Some (engagement_model reach_fitted_engine))
           /\ (is_Some (Predictions.reach_rate p)
               <-> is_Some (reach_model reach_fitted_engine))
           /\ (is_Some (Predictions.click_through_rate p)
               <-> is_Some (click_model reach_fitted_engine))
           /\ (is_Some (Predictions.overall_score p)
               <-> some_model_fitted reach_fitted_engine)
       | Some message =>
           message = ExceptionMessage ValueError
           /\ predicted_metrics p = [] /\ Predictions.overall_score p = None
           /\ some_model_fitted reach_fitted_engine
       end.
Proof.
  eexists. split; [vm_compute; reflexivity|].
  apply (predict_content_performance_keys
           (mk_features 12 1 120 3 true 0.5 60.0 "image" 0.5) reach_fitted_engine);
    vm_compute; reflexivity.
Defined.

(** ** Training, then predicting *)

Lemma predict_content_performance_fitted (features : ContentFeatures) (engine : Engine) :
  is_Some (scaler engine) ->
  fst (predict_content_performance features engine) <> Raised NotFittedError
  /\ fst (predict_content_performance features engine) <> Raised AttributeError.
Proof.
  intros [fit Hfit].
  destruct (predict_content_performance_cases features engine) as [_ Hcases].
  cbn zeta in Hcases.
  destruct Hcases as [[_ [Hs _]]|[[_ [Hs _]]|[[-> _]|[[p [-> _]]|[p [-> _]]]]]];
    split; congruence.
Qed.

Lemma predict_content_performance_unfitted (features : ContentFeatures) (engine : Engine) :
  scaler engine = None ->
  fst (predict_content_performance features engine)
  = Raised match n_features_in_ engine with
           | None => NotFittedError
           | Some _ =>
               if forallb no_inf (_features_to_array [features])
               then AttributeError else ValueError
           end.
Proof.
  intros Hnone.
  unfold predict_content_performance, E_bind, scaler_transform. rewrite Hnone.
  destruct (n_features_in_ engine); [|reflexivity].
  destruct (forallb no_inf (_features_to_array [features])); reflexivity.
Qed.

(** Twenty samples, the first of them with a sentiment score that is an
    infinity. *)
Lemma twenty_samples_refused :
  forallb no_inf
    (_features_to_array
       (mk_features 12 1 120 3 true infinity 60.0 "image" 0.5 :: twenty_features))
  = false.
Proof. vm_compute. reflexivity. Qed.

(** After a training call on at least 20 samples (of ints that convert to
    floats) that returned a dict, with or without the key [error], the
    scaler is fitted and no prediction fails for want of its fitted
    attributes. After one that raised, because the scaler refused the
    feature matrix, the scaler is left without them and every prediction
    raises: [NotFittedError] on an engine whose scaler had never been
    fitted, and on one that had been trained before [AttributeError], or
    [ValueError] when the features hold an infinity. The failed call has
    undone the earlier training. *)
Theorem predict_after_training
    (lstsq : list (list float) -> list float -> LinearFit)
    (column_statistics : list (list float) -> ScalerFit)
    (now : Z) (features_data : list ContentFeatures)
    (performance_data : list PerformanceMetrics) (engine : Engine)
    (features : ContentFeatures) :
  (20 <= length features_data)%nat ->
  forallb int32_features (features :: features_data) = true ->
  let run := train_predictive_models lstsq column_statistics now features_data
               performance_data engine in
  let prediction := fst (predict_content_performance features (snd run)) in
  match fst run with
  | Returned _ =>
      is_Some (scaler (snd run))
      /\ prediction <> Raised NotFittedError /\ prediction <> Raised AttributeError
  | Raised _ =>
      scaler (snd run) = None
      /\ prediction
         = Raised match n_features_in_ engine with
                  | None => NotFittedError
                  | Some _ =>
                      if forallb no_inf (_features_to_array [features])
                      then AttributeError else ValueError
                  end
  end.
Proof.
  intros Hmany _. cbn zeta.
  assert (Hrefit : forall m,
             is_Some (scaler (refitted lstsq column_statistics m features_data
                                performance_data engine))).
  { intros m. unfold refitted, refitted_scaler. destruct m; cbn; eauto. }
  assert (Hscaler : is_Some (scaler (refitted_scaler column_statistics features_data
                                       engine))) by (cbn; eauto).
  destruct (train_predictive_models_cases lstsq column_statistics now features_data
              performance_data engine)
    as [[Hfew _]|[[_ [_ ->]]|[_ [[e [-> Hs]]|[[e [m1 [-> Hs]]]|[[e [m1 [m2 [-> [_ Hs]]]]]
                                  |[m1 [m2 [m3 [-> [_ Hs]]]]]]]]]]]; [lia | | | | | ];
    cbn [fst snd].
  - split; [reflexivity|].
    rewrite (predict_content_performance_unfitted features (set_scaler None engine))
      by reflexivity.
    reflexivity.
  - destruct Hs as [-> | ->];
      (split; [auto | apply predict_content_performance_fitted; auto]).
  - destruct Hs as [-> | [-> _]];
      (split; [auto | apply predict_content_performance_fitted; auto]).
  - destruct Hs as [-> | ->];
      (split; [auto | apply predict_content_performance_fitted; auto]).
  - rewrite Hs.
    split; [apply (Hrefit Click) | apply predict_content_performance_fitted].
    apply (Hrefit Click).
Qed.

Lemma predict_after_training_witness :
  let refused := mk_features 12 1 120 3 true infinity 60.0 "image" 0.5 :: twenty_features in
  let run := train_predictive_models no_lstsq no_statistics 0 refused twenty_outcomes
               reach_fitted_engine in
  fst run = Raised ValueError
  /\ scaler (snd run) = None
  /\ fst (predict_content_performance (mk_features 12 1 120 3 true 0.5 60.0 "image" 0.5)
            (snd run)) = Raised AttributeError.
Proof.
  cbn zeta.
  pose proof (predict_after_training no_lstsq no_statistics 0
                (mk_features 12 1 120 3 true infinity 60.0 "image" 0.5 :: twenty_features)
                twenty_outcomes reach_fitted_engine
                (mk_features 12 1 120 3 true 0.5 60.0 "image" 0.5)) as Hafter.
  cbn zeta in Hafter.
  destruct (train_predictive_models_cases no_lstsq no_statistics 0
              (mk_features 12 1 120 3 true infinity 60.0 "image" 0.5 :: twenty_features)
              twenty_outcomes reach_fitted_engine)
    as [[Hfew _]|[[_ [_ Hrun]]|[_ Hfitted]]].
  - simpl in Hfew. lia.
  - rewrite Hrun in Hafter |- *. cbn [fst snd] in Hafter |- *.
    split; [reflexivity|].
    apply Hafter; [simpl; lia | vm_compute; reflexivity].
  - exfalso.
    assert (Hrefused : fst (train_predictive_models no_lstsq no_statistics 0
                              (mk_features 12 1 120 3 true infinity 60.0 "image" 0.5
                               :: twenty_features)
                              twenty_outcomes reach_fitted_engine) = Raised ValueError).
    { unfold train_predictive_models, E_bind, scaler_fit_transform.
      rewrite twenty_samples_refused. reflexivity. }
    destruct Hfitted as [[e [H _]]|[[e [m1 [H _]]]|[[e [m1 [m2 [H _]]]]
                                                  |[m1 [m2 [m3 [H _]]]]]]];
      rewrite H in Hrefused; discriminate.
Defined.

(** After a training call whose dict has no key [error], every dict that
    a prediction returns without the key [error] holds the three metrics
    and the overall score (the ints of all features converting to
    floats). *)
Theorem predict_after_successful_training
    (lstsq : list (list float) -> list float -> LinearFit)
    (column_statistics : list (list float) -> ScalerFit)
    (now : Z) (features_data : list ContentFeatures)
    (performance_data : list PerformanceMetrics) (engine : Engine)
    (features : ContentFeatures) (report : TrainingReport) (p : Predictions.t) :
  forallb int32_features (features :: features_data) = true ->
  let run := train_predictive_models lstsq column_statistics now features_data
               performance_data engine in
  fst run = Returned report -> training_error report = None ->
  fst (predict_content_performance features (snd run)) = Returned p ->
  Predictions.error p = None ->
  is_Some (Predictions.engagement_rate p) /\ is_Some (Predictions.reach_rate p)
  /\ is_Some (Predictions.click_through_rate p)
  /\ is_Some (Predictions.overall_score p).
Proof.
  intros _. cbn zeta. intros Hreport Hnone Hrun Herror.
  assert (Hafter : snd (train_predictive_models lstsq column_statistics now features_data
                          performance_data engine)
                   = set_performance
                       (engagement_performance
                          (snd (train_predictive_models lstsq column_statistics now
                                  features_data performance_data engine)))
                       (reach_performance
                          (snd (train_predictive_models lstsq column_statistics now
                                  features_data performance_data engine)))
                       (click_performance
                          (snd (train_predictive_models lstsq column_statistics now
                                  features_data performance_data engine)))
                       (refitted lstsq column_statistics Click features_data
                          performance_data engine)).
  { destruct (train_predictive_models_cases lstsq column_statistics now features_data
                performance_data engine)
      as [[_ H]|[[_ [_ H]]|[_ [[e [H _]]|[[e [m1 [H _]]]|[[e [m1 [m2 [H _]]]]
                                    |[m1 [m2 [m3 [_ [_ ->]]]]]]]]]]];
      try (rewrite H in Hreport; cbn [fst] in Hreport; try discriminate;
           injection Hreport as <-; discriminate).
    reflexivity. }
  destruct (predict_content_performance_cases features
              (snd (train_predictive_models lstsq column_statistics now features_data
                      performance_data engine))) as [_ Hcases].
  cbn zeta in Hcases. rewrite Hrun in Hcases.
  destruct Hcases
    as [[H _]|[[H _]|[[H _]|[[p' [[= <-] [_ [H _]]]]|[p' [[= <-] [_ [_ H]]]]]]]];
    try discriminate; [congruence|].
  destruct H as [_ [He [Hr [Hc Ho]]]].
  rewrite Hafter in He, Hr, Hc, Ho.
  unfold some_model_fitted in Ho.
  cbn [set_performance refitted engagement_model reach_model click_model set_model
       refitted_scaler set_scaler] in He, Hr, Hc, Ho.
  split; [apply He; eauto|]. split; [apply Hr; eauto|]. split; [apply Hc; eauto|].
  destruct (Predictions.overall_score p) as [o|]; [eauto|].
  exfalso. apply Ho. left. eauto.
Qed.

Lemma predict_after_successful_training_witness :
  exists report p,
    fst (train_predictive_models no_lstsq no_statistics 0 twenty_features
           twenty_finite_outcomes new_engine) = Returned report
    /\ fst (predict_content_performance
              (mk_features 12 1 120 3 true 0.5 60.0 "image" 0.5)
              (snd (train_predictive_models no_lstsq no_statistics 0 twenty_features
                      twenty_finite_outcomes new_engine))) = Returned p
    /\ is_Some (Predictions.engagement_rate p) /\ is_Some (Predictions.reach_rate p)
    /\ is_Some (Predictions.click_through_rate p)
    /\ is_Some (Predictions.overall_score p).
Proof.
  eexists. eexists.
  split; [vm_compute; reflexivity|]. split; [vm_compute; reflexivity|].
  eapply (predict_after_successful_training no_lstsq no_statistics 0 twenty_features
            twenty_finite_outcomes new_engine
            (mk_features 12 1 120 3 true 0.5 60.0 "image" 0.5));
    vm_compute; reflexivity.
Defined.

(** ** The optimisation endpoint *)

(** The optimisation endpoint fails for every content item and every
    target: the engine it builds for the request was never trained, and its
    first prediction raises [NotFittedError]. *)
Theorem optimize_content_raises (printed_percentage : number -> float)
    (content_item : ContentItem.t) (target_improvement : number) :
  optimize_content printed_percentage content_item target_improvement
  = Raised NotFittedError.
Proof. reflexivity. Qed.
